(** * A session protocol over UDP: client and server engines

    Shallow embedding of [Client.py] and [Server.py]:

      - [Wire]     the 28-byte header of [struct.pack('!HBBIIQQ', ...)];
      - [Effects]  the world outside the engines (datagrams sent, lines printed,
                   readings of [time.time()]) and the state-and-exception monad
                   the methods run in;
      - [Dict]     the insertion-ordered dictionary of the session table;
      - [Server]   [Session] and [UDPServer];
      - [Client]   [UDPClient] and its three threads.

    Python integers are unbounded, so every counter is a [Z]; the only place
    where a width matters is [struct.pack], which raises [struct.error] on a
    value that does not fit its field. What the programs take from outside is
    an input of the model: the datagrams that arrive, the lines typed, the
    readings of the wall clock (rationals, in seconds: the rounding of
    floating-point arithmetic is left out), the UTF-8 conversions of the
    Python library. Sending on the socket always succeeds. The facts and the
    claims C1 to C10 follow the definitions. *)

From Stdlib Require Import String ZArith List Bool Lia QArith.
From Stdlib Require Import Init.Byte Strings.Byte.
Import ListNotations.

Open Scope Z_scope.

(** ** Wire format *)

Module Wire.

Definition bytes := list byte.

(** Protocol constants (the same in both files). *)
Definition MAGIC : Z := 0xC461.
Definition VERSION : Z := 1.
Definition CMD_HELLO : Z := 0.
Definition CMD_DATA : Z := 1.
Definition CMD_ALIVE : Z := 2.
Definition CMD_GOODBYE : Z := 3.

Definition byte_of_Z (z : Z) : byte :=
  match Byte.of_N (Z.to_N z) with
  | Some b => b
  | None => x00
  end.

Definition Z_of_byte (b : byte) : Z := Z.of_N (Byte.to_N b).

(** Unsigned big-endian ('!') integer on [n] bytes. *)
Fixpoint be_encode (n : nat) (v : Z) : bytes :=
  match n with
  | O => []
  | S k => be_encode k (v / 256) ++ [byte_of_Z (v mod 256)]
  end.

Definition be_decode (l : bytes) : Z :=
  fold_left (fun acc b => acc * 256 + Z_of_byte b) l 0.

(** One field of [struct.pack]: [None] stands for [struct.error], raised when
    the value is negative or too large for the field. *)
Definition pack_field (n : nat) (v : Z) : option bytes :=
  if (0 <=? v) && (v <? 256 ^ Z.of_nat n) then Some (be_encode n v) else None.

(** The values an unsigned field of [n] bytes holds. *)
Definition fits (n : nat) (v : Z) : Prop := 0 <= v < 256 ^ Z.of_nat n.

Definition HEADER_SIZE : nat := 28.

(** [struct.pack('!HBBIIQQ', magic, version, command, seq, session, clock, ts)] *)
Definition struct_pack (magic version command seq_num session_id clock timestamp : Z)
  : option bytes :=
  match pack_field 2 magic, pack_field 1 version, pack_field 1 command,
        pack_field 4 seq_num, pack_field 4 session_id,
        pack_field 8 clock, pack_field 8 timestamp with
  | Some m, Some v, Some c, Some s, Some i, Some k, Some t =>
      Some (m ++ v ++ c ++ s ++ i ++ k ++ t)
  | _, _, _, _, _, _, _ => None
  end.

(** [data[a:b]] for [0 <= a <= b]. *)
Definition slice (a b : nat) (data : bytes) : bytes :=
  firstn (b - a) (skipn a data).

(** [struct.unpack('!HBBIIQQ', data)]: raises unless [data] is 28 bytes long. *)
Definition struct_unpack (data : bytes) : option (Z * Z * Z * Z * Z * Z * Z) :=
  if Nat.eqb (length data) HEADER_SIZE then
    Some (be_decode (slice 0 2 data), be_decode (slice 2 3 data),
          be_decode (slice 3 4 data), be_decode (slice 4 8 data),
          be_decode (slice 8 12 data), be_decode (slice 12 20 data),
          be_decode (slice 20 28 data))
  else None.

End Wire.

(** ** The world outside the engines, and the monad of the methods *)

Module Effects.
Import Wire.

(** A peer address, [(host, port)]. *)
Definition Addr : Type := string * Z.

(** What the programs print, one constructor per [print] of the sources. *)
Inductive LogMsg : Type :=
| LogProtocolError (session_id : Z)              (* Protocol error: HELLO in wrong state *)
| LogSessionCreated (session_id : Z)             (* [0] Session created *)
| LogDuplicate (session_id seq_num : Z)          (* [seq] duplicate packet *)
| LogLost (session_id seq_num : Z)               (* [seq] Lost packet! *)
| LogText (session_id seq_num : Z) (text : string)
| LogGoodbye (session_id seq_num : Z)            (* [seq] GOODBYE from client. *)
| LogClosed (session_id : Z)                     (* Session closed *)
| LogTimeout (session_id : Z)                    (* Session timeout *)
| LogConnected                                   (* Connected to server *)
| LogAlive (latency : Q)                         (* ALIVE received, latency: ... *)
| LogServerGoodbye                               (* Server sent GOODBYE *)
| LogAckTimeout                                  (* Timeout, no response from server *)
| LogStarted (session_id : Z)                    (* Session started: ... *)
| LogSent (line : string)                        (* Sent: ... *)
| LogEof.                                        (* eof *)

Inductive Event : Type :=
| Print (m : LogMsg)
| SendTo (data : bytes) (addr : Addr).

(** The world: what has been printed and sent so far (oldest first), and the
    wall clock, where [now_at n] is what the [n]-th call of [time.time()]
    returns (in seconds) and [reads] counts the calls made. *)
Record World : Type := mkWorld {
  events : list Event;
  now_at : nat -> Q;
  reads : nat
}.

Inductive exn : Type :=
| StructError       (* struct.error *)
| KeyError.         (* a missing dictionary key *)

Inductive outcome (A : Type) : Type :=
| Return (a : A)
| Raise (e : exn).
Arguments Return {A} a.
Arguments Raise {A} e.

(** A method of an object of type [O]: it may mutate the object and the world,
    and what it did before raising stays done. *)
Definition M (O A : Type) : Type := O * World -> outcome A * (O * World).

Definition ret {O A} (a : A) : M O A := fun st => (Return a, st).

Definition bind {O A B} (m : M O A) (k : A -> M O B) : M O B :=
  fun st =>
    match m st with
    | (Return a, st') => k a st'
    | (Raise e, st') => (Raise e, st')
    end.

Definition raise {O A} (e : exn) : M O A := fun st => (Raise e, st).

Definition get {O} : M O O := fun st => (Return (fst st), st).

Definition modify {O} (f : O -> O) : M O unit :=
  fun st => (Return tt, (f (fst st), snd st)).

Definition emit {O} (e : Event) : M O unit :=
  fun st =>
    let w := snd st in
    (Return tt, (fst st, mkWorld (events w ++ [e]) (now_at w) (reads w))).

Definition print {O} (m : LogMsg) : M O unit := emit (Print m).

(** [sock.sendto(data, addr)] *)
Definition sendto {O} (data : bytes) (addr : Addr) : M O unit := emit (SendTo data addr).

(** [time.time()] *)
Definition time_time {O} : M O Q :=
  fun st =>
    let w := snd st in
    (Return (now_at w (reads w)), (fst st, mkWorld (events w) (now_at w) (S (reads w)))).

(** [try: m except: h] with a bare [except]. *)
Definition try_except {O A} (m : M O A) (h : M O A) : M O A :=
  fun st =>
    match m st with
    | (Return a, st') => (Return a, st')
    | (Raise _, st') => h st'
    end.

Fixpoint for_each {O A} (l : list A) (body : A -> M O unit) : M O unit :=
  match l with
  | [] => ret tt
  | x :: l' => bind (body x) (fun _ => for_each l' body)
  end.

(** [int(q)]: truncation towards zero. *)
Definition int_of_Q (q : Q) : Z := Z.quot (Qnum q) (Zpos (Qden q)).

(** [x > y] on wall-clock readings. *)
Definition Qgtb (x y : Q) : bool := negb (Qle_bool x y).

(** The datagrams among a list of events, in order. *)
Definition sent (l : list Event) : list (bytes * Addr) :=
  flat_map (fun e => match e with SendTo d a => [(d, a)] | Print _ => [] end) l.

(** The lines printed among a list of events, in order. *)
Definition printed (l : list Event) : list LogMsg :=
  flat_map (fun e => match e with Print m => [m] | SendTo _ _ => [] end) l.

End Effects.

Declare Scope monad_scope.
Delimit Scope monad_scope with monad.
Notation "x <- m ;; k" := (Effects.bind m (fun x => k))
  (at level 61, m at next level, right associativity) : monad_scope.
Notation "m ;; k" := (Effects.bind m (fun _ => k))
  (at level 61, right associativity) : monad_scope.
Open Scope monad_scope.

(** ** Python dictionaries keyed by integers

    A [dict] keeps its keys in insertion order, and the idle sweep iterates over
    [list(self.sessions.keys())], so the table is an association list without
    repeated keys. *)

Module Dict.

Section Dict.
Context {V : Type}.

Definition t : Type := list (Z * V).

Fixpoint lookup (k : Z) (d : t) : option V :=
  match d with
  | [] => None
  | (k', v) :: d' => if k =? k' then Some v else lookup k d'
  end.

(** [k in d] *)
Definition mem (k : Z) (d : t) : bool :=
  match lookup k d with Some _ => true | None => false end.

(** [d[k] = v]: in place when [k] is there, at the end otherwise. *)
Fixpoint set (k : Z) (v : V) (d : t) : t :=
  match d with
  | [] => [(k, v)]
  | (k', v') :: d' => if k =? k' then (k, v) :: d' else (k', v') :: set k v d'
  end.

(** [del d[k]] (for a key that is there). *)
Fixpoint del (k : Z) (d : t) : t :=
  match d with
  | [] => []
  | (k', v') :: d' => if k =? k' then d' else (k', v') :: del k d'
  end.

(** [list(d.keys())] *)
Definition keys (d : t) : list Z := map fst d.

End Dict.
Arguments t : clear implicits.

End Dict.

(** ** Server.py *)

Module Server.
Import Wire Effects.

(** *** class Session *)

Record Session : Type := mkSession {
  session_id : Z;
  addr : Addr;
  expected_seq : Z;
  last_activity : Q;
  active : bool;
  logical_clock : Z
}.

Definition set_expected_seq (v : Z) (s : Session) : Session :=
  mkSession (session_id s) (addr s) v (last_activity s) (active s) (logical_clock s).
Definition set_last_activity (v : Q) (s : Session) : Session :=
  mkSession (session_id s) (addr s) (expected_seq s) v (active s) (logical_clock s).
Definition set_active (v : bool) (s : Session) : Session :=
  mkSession (session_id s) (addr s) (expected_seq s) (last_activity s) v (logical_clock s).
Definition set_logical_clock (v : Z) (s : Session) : Session :=
  mkSession (session_id s) (addr s) (expected_seq s) (last_activity s) (active s) v.

(** [Session(session_id, addr, sock)] *)
Definition Session_init (session_id : Z) (addr : Addr) {O} : M O Session :=
  now <- time_time ;;
  ret (mkSession session_id addr 0 now true 0).

Definition update_clock (received_clock : option Z) : M Session Z :=
  (match received_clock with
   | Some c => modify (fun s => set_logical_clock (Z.max (logical_clock s) c) s)
   | None => ret tt
   end) ;;
  modify (fun s => set_logical_clock (logical_clock s + 1) s) ;;
  s <- get ;;
  ret (logical_clock s).

Definition create_message (command seq_num : Z) (data : bytes) : M Session bytes :=
  clock <- update_clock None ;;
  now <- time_time ;;
  let timestamp := int_of_Q (now * 1000) in
  s <- get ;;
  match struct_pack MAGIC VERSION command seq_num (session_id s) clock timestamp with
  | Some header => ret (header ++ data)
  | None => raise StructError
  end.

Definition send_message (command seq_num : Z) (data : bytes) : M Session unit :=
  message <- create_message command seq_num data ;;
  s <- get ;;
  sendto message (addr s).

(** The header tuple the handlers receive:
    [(command, seq_num, logical_clock, timestamp)]. *)
Definition Header : Type := Z * Z * Z * Z.

Definition handle_hello (header : Header) : M Session unit :=
  let '(_, _, logical_clock, _) := header in
  s <- get ;;
  if negb (expected_seq s =? 0) then
    print (LogProtocolError (session_id s)) ;;
    send_message CMD_GOODBYE (expected_seq s) [] ;;
    modify (set_active false)
  else
    print (LogSessionCreated (session_id s)) ;;
    update_clock (Some logical_clock) ;;
    s <- get ;;
    send_message CMD_HELLO (expected_seq s) [] ;;
    modify (fun s => set_expected_seq (expected_seq s + 1) s).

(** [while self.expected_seq < seq_num: print(... Lost packet!); self.expected_seq += 1].
    The first argument bounds the number of turns; [handle_data] passes
    [seq_num - expected_seq], which [lost_packets_exit] shows is enough. *)
Fixpoint lost_packets (turns : nat) (seq_num : Z) : M Session unit :=
  match turns with
  | O => ret tt
  | S turns' =>
      s <- get ;;
      if expected_seq s <? seq_num then
        print (LogLost (session_id s) (expected_seq s)) ;;
        modify (fun s => set_expected_seq (expected_seq s + 1) s) ;;
        lost_packets turns' seq_num
      else ret tt
  end.

Section WithText.

(** [data.decode('utf-8', errors='ignore').strip()], a function of the Python
    library. *)
Variable decode_strip : bytes -> string.

Definition handle_data (header : Header) (data : bytes) : M Session unit :=
  let '(command, seq_num, logical_clock, timestamp) := header in
  s <- get ;;
  if seq_num <? expected_seq s then
    print (LogDuplicate (session_id s) seq_num)
  else
    lost_packets (Z.to_nat (seq_num - expected_seq s)) seq_num ;;
    let text := decode_strip data in
    (if negb (String.eqb text EmptyString)
     then s <- get ;; print (LogText (session_id s) seq_num text)
     else ret tt) ;;
    update_clock (Some logical_clock) ;;
    s <- get ;;
    send_message CMD_ALIVE (expected_seq s) [] ;;
    modify (fun s => set_expected_seq (expected_seq s + 1) s) ;;
    now <- time_time ;;
    modify (set_last_activity now) ;;
    now' <- time_time ;;
    let latency := (now' * 1000 - inject_Z timestamp)%Q in
    ret tt.

Definition handle_goodbye (header : Header) : M Session unit :=
  let '(_, seq_num, logical_clock, _) := header in
  s <- get ;;
  print (LogGoodbye (session_id s) seq_num) ;;
  update_clock (Some logical_clock) ;;
  s <- get ;;
  send_message CMD_GOODBYE (expected_seq s) [] ;;
  print (LogClosed (session_id s)) ;;
  modify (set_active false).

Definition check_timeout : M Session bool :=
  now <- time_time ;;
  s <- get ;;
  if Qgtb (now - last_activity s) 10 && active s then
    print (LogTimeout (session_id s)) ;;
    send_message CMD_GOODBYE (expected_seq s) [] ;;
    modify (set_active false) ;;
    ret true
  else ret false.

(** *** class UDPServer *)

Record UDPServer : Type := mkServer {
  sessions : Dict.t Session;
  running : bool
}.

Definition set_sessions (d : Dict.t Session) (srv : UDPServer) : UDPServer :=
  mkServer d (running srv).
Definition set_running (b : bool) (srv : UDPServer) : UDPServer :=
  mkServer (sessions srv) b.

(** [self.sessions[session_id].method(...)]: the method runs on the object the
    table holds, so whatever it changed is seen through the table afterwards,
    also when it raised. *)
Definition on_session {A} (session_id : Z) (method : M Session A) : M UDPServer A :=
  fun st =>
    let '(srv, w) := st in
    match Dict.lookup session_id (sessions srv) with
    | None => (Raise KeyError, st)
    | Some s =>
        let '(r, (s', w')) := method (s, w) in
        (r, (set_sessions (Dict.set session_id s' (sessions srv)) srv, w'))
    end.

Definition parse_message (data : bytes) : option (Z * Z * Z * Z * Z * bytes) :=
  if (length data <? 28)%nat then None
  else
    match struct_unpack (firstn 28 data) with
    | None => None
    | Some (magic, version, command, seq_num, session_id, logical_clock, timestamp) =>
        if negb (magic =? MAGIC) || negb (version =? VERSION) then None
        else Some (command, seq_num, session_id, logical_clock, timestamp, skipn 28 data)
    end.

Definition handle_packet (data : bytes) (addr : Addr) : M UDPServer unit :=
  match parse_message data with
  | None => ret tt
  | Some (command, seq_num, session_id, logical_clock, timestamp, payload) =>
      srv <- get ;;
      if negb (Dict.mem session_id (sessions srv)) && negb (command =? CMD_HELLO) then
        ret tt
      else
        (if negb (Dict.mem session_id (sessions srv)) then
           s <- Session_init session_id addr ;;
           modify (fun srv => set_sessions (Dict.set session_id s (sessions srv)) srv)
         else ret tt) ;;
        let header := (command, seq_num, logical_clock, timestamp) in
        if command =? CMD_HELLO then
          on_session session_id (handle_hello header)
        else if command =? CMD_DATA then
          on_session session_id (handle_data header payload)
        else if command =? CMD_GOODBYE then
          on_session session_id (handle_goodbye header) ;;
          modify (fun srv => set_sessions (Dict.del session_id (sessions srv)) srv)
        else ret tt
  end.

(** The idle sweep at the head of every turn of the loop of [run]. *)
Definition sweep : M UDPServer unit :=
  srv <- get ;;
  for_each (Dict.keys (sessions srv)) (fun session_id =>
    expired <- on_session session_id check_timeout ;;
    if expired then
      modify (fun srv => set_sessions (Dict.del session_id (sessions srv)) srv)
    else ret tt).

(** One turn of [while self.running]: the sweep, then [select] and at most one
    datagram ([None] when nothing was readable within the second, or when
    [recvfrom] raised [BlockingIOError]). An exception under [handle_packet]
    stops the loop; one under the sweep leaves [run]. *)
Definition run_turn (incoming : option (bytes * Addr)) : M UDPServer unit :=
  sweep ;;
  match incoming with
  | None => ret tt
  | Some (data, addr) =>
      try_except (handle_packet data addr) (modify (set_running false))
  end.

Fixpoint run_loop (incoming : list (option (bytes * Addr))) : M UDPServer unit :=
  match incoming with
  | [] => ret tt
  | i :: rest =>
      srv <- get ;;
      if running srv then run_turn i ;; run_loop rest else ret tt
  end.

(** The cleanup after the loop. *)
Definition cleanup : M UDPServer unit :=
  srv <- get ;;
  for_each (Dict.keys (sessions srv)) (fun session_id =>
    srv <- get ;;
    match Dict.lookup session_id (sessions srv) with
    | None => raise KeyError
    | Some s =>
        on_session session_id (send_message CMD_GOODBYE (expected_seq s) []) ;;
        modify (fun srv => set_sessions (Dict.del session_id (sessions srv)) srv)
    end).

End WithText.

End Server.

(** ** Client.py *)

Module Client.
Import Wire Effects.

(** The values [self.state] takes. *)
Inductive State : Type := INIT | WAIT_HELLO | READY | WAIT_ALIVE.

Definition State_eqb (a b : State) : bool :=
  match a, b with
  | INIT, INIT | WAIT_HELLO, WAIT_HELLO | READY, READY | WAIT_ALIVE, WAIT_ALIVE => true
  | _, _ => false
  end.

Record UDPClient : Type := mkClient {
  server_addr : Addr;
  session_id : Z;
  seq_num : Z;
  logical_clock : Z;
  expected_seq : Z;
  state : State;
  running : bool;
  timeout : Q;
  last_sent_time : Q;
  pending_ack : bool
}.

Definition set_seq_num (v : Z) (c : UDPClient) : UDPClient :=
  mkClient (server_addr c) (session_id c) v (logical_clock c) (expected_seq c)
           (state c) (running c) (timeout c) (last_sent_time c) (pending_ack c).
Definition set_logical_clock (v : Z) (c : UDPClient) : UDPClient :=
  mkClient (server_addr c) (session_id c) (seq_num c) v (expected_seq c)
           (state c) (running c) (timeout c) (last_sent_time c) (pending_ack c).
Definition set_state (v : State) (c : UDPClient) : UDPClient :=
  mkClient (server_addr c) (session_id c) (seq_num c) (logical_clock c) (expected_seq c)
           v (running c) (timeout c) (last_sent_time c) (pending_ack c).
Definition set_running (v : bool) (c : UDPClient) : UDPClient :=
  mkClient (server_addr c) (session_id c) (seq_num c) (logical_clock c) (expected_seq c)
           (state c) v (timeout c) (last_sent_time c) (pending_ack c).
Definition set_last_sent_time (v : Q) (c : UDPClient) : UDPClient :=
  mkClient (server_addr c) (session_id c) (seq_num c) (logical_clock c) (expected_seq c)
           (state c) (running c) (timeout c) v (pending_ack c).
Definition set_pending_ack (v : bool) (c : UDPClient) : UDPClient :=
  mkClient (server_addr c) (session_id c) (seq_num c) (logical_clock c) (expected_seq c)
           (state c) (running c) (timeout c) (last_sent_time c) v.

(** [UDPClient(host, port)], with [session_id] the value [random.randint] drew. *)
Definition UDPClient_init (server_addr : Addr) (session_id : Z) : UDPClient :=
  mkClient server_addr session_id 0 0 0 INIT true 5 0 false.

Definition update_clock (received_clock : option Z) : M UDPClient Z :=
  (match received_clock with
   | Some r => modify (fun c => set_logical_clock (Z.max (logical_clock c) r) c)
   | None => ret tt
   end) ;;
  modify (fun c => set_logical_clock (logical_clock c + 1) c) ;;
  c <- get ;;
  ret (logical_clock c).

Definition create_message (command : Z) (data : bytes) : M UDPClient bytes :=
  clock <- update_clock None ;;
  now <- time_time ;;
  let timestamp := int_of_Q (now * 1000) in
  c <- get ;;
  match struct_pack MAGIC VERSION command (seq_num c) (session_id c) clock timestamp with
  | Some header => ret (header ++ data)
  | None => raise StructError
  end.

Definition send_message (command : Z) (data : bytes) : M UDPClient Z :=
  message <- create_message command data ;;
  c <- get ;;
  sendto message (server_addr c) ;;
  now <- time_time ;;
  modify (set_last_sent_time now) ;;
  modify (set_pending_ack true) ;;
  c <- get ;;
  ret (seq_num c).

(** The header tuple of the client: [(command, seq_num, logical_clock, timestamp)]. *)
Definition Header : Type := Z * Z * Z * Z.

Definition parse_message (c : UDPClient) (data : bytes) : option (Header * bytes) :=
  if (length data <? 28)%nat then None
  else
    match struct_unpack (firstn 28 data) with
    | None => None
    | Some (magic, version, command, seq_num, sid, logical_clock, timestamp) =>
        if negb (magic =? MAGIC) || negb (version =? VERSION) || negb (sid =? session_id c)
        then None
        else Some ((command, seq_num, logical_clock, timestamp), skipn 28 data)
    end.

(** *** The listener thread, [listen_server]

    The body of its loop after a datagram was received and decoded, statement
    by statement. *)

(** [self.pending_ack = False] *)
Definition listen_ack : M UDPClient unit := modify (set_pending_ack false).

(** [self.update_clock(logical_clock)] *)
Definition listen_clock (header : Header) : M UDPClient unit :=
  let '(_, _, logical_clock, _) := header in
  update_clock (Some logical_clock) ;; ret tt.

(** The [if]/[elif] chain of the state machine. *)
Definition listen_fsm (header : Header) : M UDPClient unit :=
  let '(command, _, _, timestamp) := header in
  c <- get ;;
  if (command =? CMD_HELLO) && State_eqb (state c) WAIT_HELLO then
    modify (set_state READY) ;;
    modify (fun c => set_seq_num (seq_num c + 1) c) ;;
    print LogConnected
  else if (command =? CMD_ALIVE) && State_eqb (state c) WAIT_ALIVE then
    modify (set_state READY) ;;
    modify (fun c => set_seq_num (seq_num c + 1) c) ;;
    now <- time_time ;;
    let latency := (now * 1000 - inject_Z timestamp)%Q in
    print (LogAlive latency)
  else if command =? CMD_GOODBYE then
    print LogServerGoodbye ;;
    modify (set_running false)
  else ret tt.

(** One turn of [while self.running] in [listen_server], run without
    interruption; [None] is [socket.timeout]. *)
Definition listen_turn (incoming : option bytes) : M UDPClient unit :=
  match incoming with
  | None => ret tt
  | Some data =>
      c <- get ;;
      match parse_message c data with
      | None => ret tt
      | Some (header, payload) =>
          listen_ack ;; listen_clock header ;; listen_fsm header
      end
  end.

(** *** The watchdog thread, [check_timeout]

    The [if] of its loop, after [time.sleep(0.1)]. *)
Definition check_timeout_turn : M UDPClient unit :=
  c <- get ;;
  if pending_ack c then
    now <- time_time ;;
    if Qgtb (now - last_sent_time c) (timeout c) then
      print LogAckTimeout ;;
      modify (set_running false)
    else ret tt
  else ret tt.

(** *** The three threads of [run]

    [run] starts the listener and the watchdog and goes on as the main thread;
    all three work on the same object and the class has no lock. A thread is
    where its next action is, together with the values it holds in local
    variables, and a step of the program is one action of one thread, the
    threads taking turns in any order. An action is at most one load or one
    store of an attribute that some method assigns ([logical_clock],
    [seq_num], [state], [running], [last_sent_time], [pending_ack]), or one
    call of the outside world ([time.time], [sendto], [recvfrom], [readline],
    [print]). So [self.logical_clock += 1] is two actions, the load and the
    store, and another thread may run between them. What a thread computes on
    its locals ([max], [struct.pack], a comparison) goes with the action
    before it, and so do its loads of [session_id], [server_addr] and
    [timeout], which only [__init__] assigns. *)

(** Which [send_message] the main thread is in. *)
Inductive Sending : Type :=
| K_HELLO                      (* self.send_message(CMD_HELLO) *)
| K_DATA (line : string)       (* self.send_message(CMD_DATA, line.encode('utf-8')) *)
| K_GOODBYE.                   (* self.send_message(CMD_GOODBYE) *)

(** Where a thread is inside [send_message], [create_message] and the
    [update_clock] it calls. *)
Inductive SendPC : Type :=
| S_CLOCK_READ                          (* self.logical_clock += 1: the load *)
| S_CLOCK_WRITE (t : Z)                 (* self.logical_clock += 1: the store *)
| S_CLOCK_RET                           (* return self.logical_clock *)
| S_TIME (clock : Z)                    (* timestamp = int(time.time() * 1000) *)
| S_SEQ (clock timestamp : Z)           (* the load of self.seq_num *)
| S_PACK (clock timestamp seq : Z)      (* struct.pack(...); return header + data *)
| S_SENDTO (message : bytes)            (* self.sock.sendto(message, self.server_addr) *)
| S_SENT_TIME                           (* time.time() *)
| S_LAST_SENT (now : Q)                 (* self.last_sent_time = ... *)
| S_PENDING                             (* self.pending_ack = True *)
| S_RETURN.                             (* return self.seq_num *)

Inductive MainPC : Type :=
| M_SET_HELLO                           (* self.state = "WAIT_HELLO" *)
| M_SEND (k : Sending) (p : SendPC)     (* inside self.send_message(...) *)
| M_STARTED                             (* print(f"Session started: ...") *)
| M_WHILE                               (* while self.running: *)
| M_IF_READY                            (* if self.state == "READY": *)
| M_READLINE                            (* line = readline().strip(); if not line or ...: break *)
| M_SET_ALIVE (line : string)           (* self.state = "WAIT_ALIVE" *)
| M_SENT (line : string)                (* print(f"Sent: {line}") *)
| M_IF_RUNNING                          (* if self.running:   (after the loop) *)
| M_SLEEP                               (* time.sleep(0.5) *)
| M_STOP                                (* self.running = False *)
| M_EOF                                 (* print("eof") *)
| M_EXIT.                               (* run has returned or died: the process is over *)

(** The branch of the state machine the listener has taken. *)
Inductive Acked : Type :=
| A_HELLO                               (* command == CMD_HELLO and self.state == "WAIT_HELLO" *)
| A_ALIVE (timestamp : Z).              (* command == CMD_ALIVE and self.state == "WAIT_ALIVE" *)

Inductive ListenPC : Type :=
| L_WHILE                               (* while self.running: *)
| L_RECV                                (* data, _ = recvfrom(1024); parse; if not header: continue *)
| L_ACK (header : Header)               (* self.pending_ack = False *)
| L_MERGE_READ (header : Header)        (* self.logical_clock = max(self.logical_clock, r): the load *)
| L_MERGE_WRITE (header : Header) (m : Z)   (* ... the store of the maximum *)
| L_TICK_READ (header : Header)         (* self.logical_clock += 1: the load *)
| L_TICK_WRITE (header : Header) (t : Z)    (* self.logical_clock += 1: the store *)
| L_CLOCK_RET (header : Header)         (* return self.logical_clock *)
| L_FSM (header : Header)               (* if ... elif ... elif ...: the tests *)
| L_SET_READY (a : Acked)               (* self.state = "READY" *)
| L_SEQ_READ (a : Acked)                (* self.seq_num += 1: the load *)
| L_SEQ_WRITE (a : Acked) (t : Z)       (* self.seq_num += 1: the store *)
| L_CONNECTED                           (* print("Connected to server") *)
| L_LATENCY (timestamp : Z)             (* latency = time.time() * 1000 - timestamp *)
| L_ALIVE_PRINT (latency : Q)           (* print(f"ALIVE received, ...") *)
| L_BYE_PRINT                           (* print("Server sent GOODBYE") *)
| L_BYE_STOP                            (* self.running = False *)
| L_EXIT.

Inductive WatchPC : Type :=
| W_WHILE                               (* while self.running: *)
| W_SLEEP                               (* time.sleep(0.1) *)
| W_IF                                  (* if self.pending_ack and ...: the load of pending_ack *)
| W_TIME                                (* time.time() *)
| W_LAST (now : Q)                      (* ... - self.last_sent_time > self.timeout *)
| W_PRINT                               (* print("Timeout, no response from server") *)
| W_STOP                                (* self.running = False *)
| W_EXIT.

Record Config : Type := mkConfig {
  client : UDPClient;
  world : World;
  main : MainPC;
  listener : ListenPC;
  watchdog : WatchPC
}.

(** Who moves, and what the outside gives it when its action asks:
    the stripped line that [readline] returns, the datagram that [recvfrom]
    returns ([None] for [socket.timeout]), or Ctrl-C. *)
Inductive Action : Type :=
| Main (line : string)
| Interrupt
| Listener (incoming : option bytes)
| Watchdog.

(** A statement run on the shared object. *)
Definition exec {A} (m : M UDPClient A) (cfg : Config) : outcome A * Config :=
  let '(r, (c, w)) := m (client cfg, world cfg) in
  (r, mkConfig c w (main cfg) (listener cfg) (watchdog cfg)).

Definition at_main (pc : MainPC) (cfg : Config) : Config :=
  mkConfig (client cfg) (world cfg) pc (listener cfg) (watchdog cfg).
Definition at_listener (pc : ListenPC) (cfg : Config) : Config :=
  mkConfig (client cfg) (world cfg) (main cfg) pc (watchdog cfg).
Definition at_watchdog (pc : WatchPC) (cfg : Config) : Config :=
  mkConfig (client cfg) (world cfg) (main cfg) (listener cfg) pc.

(** The actions on the shared object and on the outside world: a store,
    an event, a reading of the wall clock and what it gives. *)
Definition store (f : UDPClient -> UDPClient) (cfg : Config) : Config :=
  snd (exec (modify f) cfg).
Definition does (e : Event) (cfg : Config) : Config :=
  snd (exec (emit e) cfg).
Definition reading (cfg : Config) : Q :=
  now_at (world cfg) (reads (world cfg)).
Definition read_clock (cfg : Config) : Config :=
  snd (exec time_time cfg).

(** [not line or line.lower() == 'q'] *)
Definition is_quit (line : string) : bool :=
  String.eqb line EmptyString || String.eqb line "q" || String.eqb line "Q".

(** The command each call sends. *)
Definition sending_command (k : Sending) : Z :=
  match k with
  | K_HELLO => CMD_HELLO
  | K_DATA _ => CMD_DATA
  | K_GOODBYE => CMD_GOODBYE
  end.

(** The statement of [run] after the call. *)
Definition after_send (k : Sending) : MainPC :=
  match k with
  | K_HELLO => M_STARTED
  | K_DATA line => M_SENT line
  | K_GOODBYE => M_SLEEP
  end.

Section Threads.

(** [line.encode('utf-8')], a function of the Python library. *)
Variable encode_utf8 : string -> bytes.

Definition payload_of (k : Sending) : bytes :=
  match k with
  | K_DATA line => encode_utf8 line
  | _ => []
  end.

(** One action of the main thread inside [send_message]. The exception of
    [struct.pack] is caught nowhere in [run] and ends the process. *)
Definition send_step (k : Sending) (p : SendPC) (cfg : Config) : Config :=
  let c := client cfg in
  match p with
  | S_CLOCK_READ => at_main (M_SEND k (S_CLOCK_WRITE (logical_clock c))) cfg
  | S_CLOCK_WRITE t => at_main (M_SEND k S_CLOCK_RET) (store (set_logical_clock (t + 1)) cfg)
  | S_CLOCK_RET => at_main (M_SEND k (S_TIME (logical_clock c))) cfg
  | S_TIME clock =>
      at_main (M_SEND k (S_SEQ clock (int_of_Q (reading cfg * 1000)))) (read_clock cfg)
  | S_SEQ clock timestamp => at_main (M_SEND k (S_PACK clock timestamp (seq_num c))) cfg
  | S_PACK clock timestamp seq =>
      match struct_pack MAGIC VERSION (sending_command k) seq (session_id c) clock timestamp with
      | Some header => at_main (M_SEND k (S_SENDTO (header ++ payload_of k))) cfg
      | None => at_main M_EXIT cfg
      end
  | S_SENDTO message =>
      at_main (M_SEND k S_SENT_TIME) (does (SendTo message (server_addr c)) cfg)
  | S_SENT_TIME => at_main (M_SEND k (S_LAST_SENT (reading cfg))) (read_clock cfg)
  | S_LAST_SENT now => at_main (M_SEND k S_PENDING) (store (set_last_sent_time now) cfg)
  | S_PENDING => at_main (M_SEND k S_RETURN) (store (set_pending_ack true) cfg)
  | S_RETURN => at_main (after_send k) cfg
  end.

Definition main_step (line : string) (cfg : Config) : Config :=
  let c := client cfg in
  match main cfg with
  | M_SET_HELLO => at_main (M_SEND K_HELLO S_CLOCK_READ) (store (set_state WAIT_HELLO) cfg)
  | M_SEND k p => send_step k p cfg
  | M_STARTED => at_main M_WHILE (does (Print (LogStarted (session_id c))) cfg)
  | M_WHILE => if running c then at_main M_IF_READY cfg else at_main M_IF_RUNNING cfg
  | M_IF_READY =>
      if State_eqb (state c) READY then at_main M_READLINE cfg else at_main M_WHILE cfg
  | M_READLINE =>
      if is_quit line then at_main M_IF_RUNNING cfg else at_main (M_SET_ALIVE line) cfg
  | M_SET_ALIVE l => at_main (M_SEND (K_DATA l) S_CLOCK_READ) (store (set_state WAIT_ALIVE) cfg)
  | M_SENT l => at_main M_WHILE (does (Print (LogSent l)) cfg)
  | M_IF_RUNNING =>
      if running c then at_main (M_SEND K_GOODBYE S_CLOCK_READ) cfg else at_main M_STOP cfg
  | M_SLEEP => at_main M_STOP cfg
  | M_STOP => at_main M_EOF (store (set_running false) cfg)
  | M_EOF => at_main M_EXIT (does (Print LogEof) cfg)
  | M_EXIT => cfg
  end.

(** [KeyboardInterrupt]: inside the [try] of [run] it leads to the statements
    after the loop; anywhere else nothing catches it. *)
Definition interrupt_step (cfg : Config) : Config :=
  match main cfg with
  | M_WHILE | M_IF_READY | M_READLINE | M_SET_ALIVE _ | M_SEND (K_DATA _) _ | M_SENT _ =>
      at_main M_IF_RUNNING cfg
  | _ => at_main M_EXIT cfg
  end.

Definition listener_step (incoming : option bytes) (cfg : Config) : Config :=
  let c := client cfg in
  match listener cfg with
  | L_WHILE => if running c then at_listener L_RECV cfg else at_listener L_EXIT cfg
  | L_RECV =>
      match incoming with
      | None => at_listener L_WHILE cfg
      | Some data =>
          match parse_message c data with
          | None => at_listener L_WHILE cfg
          | Some (header, _) => at_listener (L_ACK header) cfg
          end
      end
  | L_ACK header => at_listener (L_MERGE_READ header) (store (set_pending_ack false) cfg)
  | L_MERGE_READ header =>
      let '(_, _, received, _) := header in
      at_listener (L_MERGE_WRITE header (Z.max (logical_clock c) received)) cfg
  | L_MERGE_WRITE header m => at_listener (L_TICK_READ header) (store (set_logical_clock m) cfg)
  | L_TICK_READ header => at_listener (L_TICK_WRITE header (logical_clock c)) cfg
  | L_TICK_WRITE header t =>
      at_listener (L_CLOCK_RET header) (store (set_logical_clock (t + 1)) cfg)
  | L_CLOCK_RET header => at_listener (L_FSM header) cfg
  | L_FSM header =>
      let '(command, _, _, timestamp) := header in
      if (command =? CMD_HELLO) && State_eqb (state c) WAIT_HELLO then
        at_listener (L_SET_READY A_HELLO) cfg
      else if (command =? CMD_ALIVE) && State_eqb (state c) WAIT_ALIVE then
        at_listener (L_SET_READY (A_ALIVE timestamp)) cfg
      else if command =? CMD_GOODBYE then at_listener L_BYE_PRINT cfg
      else at_listener L_WHILE cfg
  | L_SET_READY a => at_listener (L_SEQ_READ a) (store (set_state READY) cfg)
  | L_SEQ_READ a => at_listener (L_SEQ_WRITE a (seq_num c)) cfg
  | L_SEQ_WRITE a t =>
      at_listener (match a with A_HELLO => L_CONNECTED | A_ALIVE timestamp => L_LATENCY timestamp end)
                  (store (set_seq_num (t + 1)) cfg)
  | L_CONNECTED => at_listener L_WHILE (does (Print LogConnected) cfg)
  | L_LATENCY timestamp =>
      at_listener (L_ALIVE_PRINT (reading cfg * 1000 - inject_Z timestamp)%Q) (read_clock cfg)
  | L_ALIVE_PRINT latency => at_listener L_WHILE (does (Print (LogAlive latency)) cfg)
  | L_BYE_PRINT => at_listener L_BYE_STOP (does (Print LogServerGoodbye) cfg)
  | L_BYE_STOP => at_listener L_WHILE (store (set_running false) cfg)
  | L_EXIT => cfg
  end.

Definition watchdog_step (cfg : Config) : Config :=
  let c := client cfg in
  match watchdog cfg with
  | W_WHILE => if running c then at_watchdog W_SLEEP cfg else at_watchdog W_EXIT cfg
  | W_SLEEP => at_watchdog W_IF cfg
  | W_IF => if pending_ack c then at_watchdog W_TIME cfg else at_watchdog W_WHILE cfg
  | W_TIME => at_watchdog (W_LAST (reading cfg)) (read_clock cfg)
  | W_LAST now =>
      if Qgtb (now - last_sent_time c) (timeout c) then at_watchdog W_PRINT cfg
      else at_watchdog W_WHILE cfg
  | W_PRINT => at_watchdog W_STOP (does (Print LogAckTimeout) cfg)
  | W_STOP => at_watchdog W_WHILE (store (set_running false) cfg)
  | W_EXIT => cfg
  end.

(** One step of the program. The listener and the watchdog are daemon
    threads: they do not outlive the main thread. *)
Definition step (a : Action) (cfg : Config) : Config :=
  match main cfg with
  | M_EXIT => cfg
  | _ =>
      match a with
      | Main line => main_step line cfg
      | Interrupt => interrupt_step cfg
      | Listener incoming => listener_step incoming cfg
      | Watchdog => watchdog_step cfg
      end
  end.

Definition steps (schedule : list Action) (cfg : Config) : Config :=
  fold_left (fun cfg a => step a cfg) schedule cfg.

End Threads.

(** The program when [run] is entered and both threads have been started. *)
Definition start (c : UDPClient) (w : World) : Config :=
  mkConfig c w M_SET_HELLO L_WHILE W_WHILE.

End Client.

(** * Facts about the wire format *)

Section WireFacts.
Import Wire.

Lemma Z_of_byte_of_Z (z : Z) : 0 <= z < 256 -> Z_of_byte (byte_of_Z z) = z.
Proof.
  intros Hz. unfold Z_of_byte, byte_of_Z.
  destruct (Byte.of_N (Z.to_N z)) as [b|] eqn:E.
  - apply Byte.to_of_N in E. rewrite E. lia.
  - apply Byte.of_N_None_iff in E. lia.
Qed.

Lemma Z_of_byte_range (b : byte) : 0 <= Z_of_byte b < 256.
Proof.
  unfold Z_of_byte. pose proof (Byte.to_N_bounded b). lia.
Qed.

Lemma be_encode_length (n : nat) (v : Z) : length (be_encode n v) = n.
Proof.
  revert v. induction n as [|n IH]; intros v; simpl.
  - reflexivity.
  - rewrite length_app, IH. simpl. lia.
Qed.

Lemma be_decode_snoc (l : bytes) (b : byte) :
  be_decode (l ++ [b]) = be_decode l * 256 + Z_of_byte b.
Proof.
  unfold be_decode. rewrite fold_left_app. reflexivity.
Qed.

Lemma be_decode_encode (n : nat) (v : Z) :
  0 <= v < 256 ^ Z.of_nat n -> be_decode (be_encode n v) = v.
Proof.
  revert v. induction n as [|n IH]; intros v Hv.
  - simpl in *. unfold be_decode. simpl. lia.
  - cbn [be_encode]. rewrite be_decode_snoc.
    rewrite Nat2Z.inj_succ, Z.pow_succ_r in Hv by lia.
    rewrite IH.
    + rewrite Z_of_byte_of_Z by (apply Z.mod_pos_bound; lia).
      pose proof (Z.div_mod v 256). lia.
    + split.
      * apply Z.div_pos; lia.
      * apply Z.div_lt_upper_bound; lia.
Qed.

Lemma pack_field_Some (n : nat) (v : Z) :
  0 <= v < 256 ^ Z.of_nat n -> pack_field n v = Some (be_encode n v).
Proof.
  intros [H0 H1]. unfold pack_field.
  apply Z.leb_le in H0. apply Z.ltb_lt in H1. rewrite H0, H1. reflexivity.
Qed.

Lemma pack_field_None (n : nat) (v : Z) :
  256 ^ Z.of_nat n <= v -> pack_field n v = None.
Proof.
  intros H. unfold pack_field.
  replace (v <? 256 ^ Z.of_nat n) with false by (symmetry; apply Z.ltb_ge; lia).
  rewrite andb_false_r. reflexivity.
Qed.

Lemma pack_field_inv (n : nat) (v : Z) (b : bytes) :
  pack_field n v = Some b -> 0 <= v < 256 ^ Z.of_nat n /\ b = be_encode n v.
Proof.
  unfold pack_field.
  destruct (0 <=? v) eqn:H0; destruct (v <? 256 ^ Z.of_nat n) eqn:H1;
    simpl; intros H; inversion H; subst.
  apply Z.leb_le in H0. apply Z.ltb_lt in H1. auto.
Qed.

End WireFacts.

Section EffectsFacts.
Import Effects.

Lemma Qgtb_true (x y : Q) : Qgtb x y = true <-> (y < x)%Q.
Proof.
  unfold Qgtb. rewrite negb_true_iff. split; intros H.
  - apply Qnot_le_lt. intros Hle. apply Qle_bool_iff in Hle. congruence.
  - destruct (Qle_bool x y) eqn:E; [|reflexivity].
    apply Qle_bool_iff in E. exfalso. exact (Qlt_not_le _ _ H E).
Qed.

End EffectsFacts.

(** * Facts about dictionaries *)

Section DictFacts.
Import Dict.
Context {V : Type}.
Implicit Types (d : Dict.t V) (k : Z) (v : V).

Lemma dict_lookup_set_same k v d : lookup k (set k v d) = Some v.
Proof.
  induction d as [|[k' v'] d IH]; simpl.
  - rewrite Z.eqb_refl. reflexivity.
  - destruct (k =? k') eqn:E; simpl; rewrite ?Z.eqb_refl, ?E; auto.
Qed.

Lemma dict_lookup_set_other k k' v d : k <> k' -> lookup k (set k' v d) = lookup k d.
Proof.
  intros Hne. induction d as [|[k0 v0] d IH]; simpl.
  - apply Z.eqb_neq in Hne. rewrite Hne. reflexivity.
  - destruct (k' =? k0) eqn:E; simpl.
    + apply Z.eqb_eq in E. subst k0. apply Z.eqb_neq in Hne. rewrite Hne. reflexivity.
    + destruct (k =? k0); auto.
Qed.

Lemma dict_lookup_In_keys k d : (exists v, lookup k d = Some v) <-> In k (keys d).
Proof.
  induction d as [|[k' v'] d IH]; simpl.
  - split; [intros [v H]; discriminate | tauto].
  - destruct (k =? k') eqn:E.
    + apply Z.eqb_eq in E. subst. split; eauto.
    + apply Z.eqb_neq in E. rewrite IH. split; [tauto|].
      intros [H|H]; [congruence|assumption].
Qed.

Lemma dict_lookup_None_keys k d : lookup k d = None <-> ~ In k (keys d).
Proof.
  rewrite <- dict_lookup_In_keys. destruct (lookup k d) as [v|].
  - split; [discriminate|]. intros H. exfalso. apply H. eauto.
  - split; auto. intros _ [v H]. discriminate.
Qed.

Lemma dict_keys_set_present k v d :
  In k (keys d) -> keys (set k v d) = keys d.
Proof.
  induction d as [|[k' v'] d IH]; simpl; [tauto|].
  intros H. destruct (k =? k') eqn:E; simpl.
  - apply Z.eqb_eq in E. congruence.
  - apply Z.eqb_neq in E. f_equal. apply IH. destruct H; congruence.
Qed.

Lemma dict_lookup_del_same k d : NoDup (keys d) -> lookup k (del k d) = None.
Proof.
  induction d as [|[k' v'] d IH]; simpl; intros Hnd; [reflexivity|].
  inversion Hnd as [|? ? Hnotin Hnd']; subst.
  destruct (k =? k') eqn:E; simpl.
  - apply Z.eqb_eq in E. subst. apply dict_lookup_None_keys. exact Hnotin.
  - rewrite E. auto.
Qed.

Lemma dict_lookup_del_other k k' d : k <> k' -> lookup k (del k' d) = lookup k d.
Proof.
  intros Hne. induction d as [|[k0 v0] d IH]; simpl; [reflexivity|].
  destruct (k' =? k0) eqn:E; simpl.
  - apply Z.eqb_eq in E. subst. apply Z.eqb_neq in Hne. rewrite Hne. reflexivity.
  - destruct (k =? k0); auto.
Qed.

Lemma dict_keys_del_incl k d x : In x (keys (del k d)) -> In x (keys d).
Proof.
  induction d as [|[k' v'] d IH]; simpl; [tauto|].
  destruct (k =? k'); simpl; tauto.
Qed.

Lemma dict_NoDup_keys_del k d : NoDup (keys d) -> NoDup (keys (del k d)).
Proof.
  induction d as [|[k' v'] d IH]; simpl; intros Hnd; [constructor|].
  inversion Hnd as [|? ? Hnotin Hnd']; subst.
  destruct (k =? k'); simpl; [assumption|].
  constructor; auto. intros H. apply Hnotin. eapply dict_keys_del_incl; eauto.
Qed.

Lemma dict_set_lookup_same k v d :
  lookup k d = Some v -> set k v d = d.
Proof.
  induction d as [|[k' v'] d IH]; simpl; [discriminate|].
  destruct (k =? k') eqn:E.
  - apply Z.eqb_eq in E. intros H. congruence.
  - intros H. f_equal. auto.
Qed.

Lemma dict_mem_lookup k d v :
  lookup k d = Some v -> mem k d = true.
Proof. unfold mem. intros ->. reflexivity. Qed.

Lemma dict_del_set k v d :
  del k (set k v d) = del k d.
Proof.
  induction d as [|[k' v'] d IH]; simpl.
  - rewrite Z.eqb_refl. reflexivity.
  - destruct (k =? k') eqn:E; simpl; rewrite ?Z.eqb_refl, ?E; [reflexivity|].
    f_equal. exact IH.
Qed.

End DictFacts.

(** * The header round trip *)

Section RoundTrip.
Import Wire Effects.

Ltac fixed_length l :=
  repeat (destruct l as [|? l]; [discriminate|]);
  destruct l; [|discriminate].

Lemma struct_unpack_fields (m v c s i k t : bytes) :
  length m = 2%nat -> length v = 1%nat -> length c = 1%nat -> length s = 4%nat ->
  length i = 4%nat -> length k = 8%nat -> length t = 8%nat ->
  struct_unpack (m ++ v ++ c ++ s ++ i ++ k ++ t)
  = Some (be_decode m, be_decode v, be_decode c, be_decode s,
          be_decode i, be_decode k, be_decode t).
Proof.
  intros Hm Hv Hc Hs Hi Hk Ht.
  fixed_length m. fixed_length v. fixed_length c. fixed_length s.
  fixed_length i. fixed_length k. fixed_length t.
  reflexivity.
Qed.

Lemma struct_pack_Some (magic version command seq_num session_id clock timestamp : Z) :
  fits 2 magic -> fits 1 version -> fits 1 command -> fits 4 seq_num ->
  fits 4 session_id -> fits 8 clock -> fits 8 timestamp ->
  struct_pack magic version command seq_num session_id clock timestamp
  = Some (be_encode 2 magic ++ be_encode 1 version ++ be_encode 1 command ++
          be_encode 4 seq_num ++ be_encode 4 session_id ++
          be_encode 8 clock ++ be_encode 8 timestamp).
Proof.
  intros. unfold struct_pack. rewrite !pack_field_Some by assumption. reflexivity.
Qed.

Lemma struct_pack_inv (magic version command seq_num session_id clock timestamp : Z)
      (h : bytes) :
  struct_pack magic version command seq_num session_id clock timestamp = Some h ->
  fits 2 magic /\ fits 1 version /\ fits 1 command /\ fits 4 seq_num /\
  fits 4 session_id /\ fits 8 clock /\ fits 8 timestamp.
Proof.
  unfold struct_pack.
  destruct (pack_field 2 magic) eqn:E1; [|discriminate].
  destruct (pack_field 1 version) eqn:E2; [|discriminate].
  destruct (pack_field 1 command) eqn:E3; [|discriminate].
  destruct (pack_field 4 seq_num) eqn:E4; [|discriminate].
  destruct (pack_field 4 session_id) eqn:E5; [|discriminate].
  destruct (pack_field 8 clock) eqn:E6; [|discriminate].
  destruct (pack_field 8 timestamp) eqn:E7; [|discriminate].
  intros _. repeat split;
    match goal with |- _ <= ?x => idtac | |- ?x < _ => idtac end;
    repeat match goal with H : pack_field _ _ = Some _ |- _ =>
      apply pack_field_inv in H; destruct H as [[? ?] _] end; assumption.
Qed.

Lemma struct_pack_length (magic version command seq_num session_id clock timestamp : Z)
      (h : bytes) :
  struct_pack magic version command seq_num session_id clock timestamp = Some h ->
  length h = 28%nat.
Proof.
  intros H. pose proof (struct_pack_inv _ _ _ _ _ _ _ _ H) as (?&?&?&?&?&?&?).
  rewrite struct_pack_Some in H by assumption.
  apply (f_equal (option_map (@length byte))) in H. cbn [option_map] in H.
  rewrite !length_app, !be_encode_length in H. now injection H as <-.
Qed.

(** [struct.unpack] undoes [struct.pack]. *)
Lemma struct_unpack_pack (magic version command seq_num session_id clock timestamp : Z)
      (h : bytes) :
  struct_pack magic version command seq_num session_id clock timestamp = Some h ->
  struct_unpack h
  = Some (magic, version, command, seq_num, session_id, clock, timestamp).
Proof.
  intros H. pose proof (struct_pack_inv _ _ _ _ _ _ _ _ H) as (?&?&?&?&?&?&?).
  rewrite struct_pack_Some in H by assumption.
  assert (E : forall x y : bytes, Some x = Some y -> y = x) by congruence.
  apply E in H. rewrite H. clear E H.
  rewrite struct_unpack_fields by apply be_encode_length.
  rewrite !be_decode_encode by assumption. reflexivity.
Qed.

Lemma header_split (h data : bytes) :
  length h = 28%nat ->
  (length (h ++ data) <? 28)%nat = false /\
  firstn 28 (h ++ data) = h /\ skipn 28 (h ++ data) = data.
Proof.
  intros Hl. repeat split.
  - apply Nat.ltb_ge. rewrite length_app. lia.
  - rewrite <- Hl. rewrite firstn_app, firstn_all, Nat.sub_diag. simpl. apply app_nil_r.
  - rewrite <- Hl. rewrite skipn_app, skipn_all, Nat.sub_diag. reflexivity.
Qed.

(** The server decodes a packed header followed by a payload. *)
Lemma server_parse_packed (command seq_num session_id clock timestamp : Z)
      (h data : bytes) :
  struct_pack MAGIC VERSION command seq_num session_id clock timestamp = Some h ->
  Server.parse_message (h ++ data)
  = Some (command, seq_num, session_id, clock, timestamp, data).
Proof.
  intros H. unfold Server.parse_message.
  destruct (header_split h data (struct_pack_length _ _ _ _ _ _ _ _ H)) as (-> & -> & ->).
  rewrite (struct_unpack_pack _ _ _ _ _ _ _ _ H).
  rewrite !Z.eqb_refl. reflexivity.
Qed.

(** The client decodes it when the session id is its own, and only then. *)
Lemma client_parse_packed (c : Client.UDPClient)
      (command seq_num session_id clock timestamp : Z) (h data : bytes) :
  struct_pack MAGIC VERSION command seq_num session_id clock timestamp = Some h ->
  Client.parse_message c (h ++ data)
  = if session_id =? Client.session_id c
    then Some ((command, seq_num, clock, timestamp), data) else None.
Proof.
  intros H. unfold Client.parse_message.
  destruct (header_split h data (struct_pack_length _ _ _ _ _ _ _ _ H)) as (-> & -> & ->).
  rewrite (struct_unpack_pack _ _ _ _ _ _ _ _ H).
  rewrite !Z.eqb_refl. simpl. destruct (session_id =? Client.session_id c); reflexivity.
Qed.

End RoundTrip.

(** * Running the methods *)

Section MethodEquations.
Import Wire Effects.

(** The world after one more reading of the wall clock. *)
Definition tick_world (w : World) : World :=
  mkWorld (events w) (now_at w) (S (reads w)).

(** The world after one more event. *)
Definition emit_world (e : Event) (w : World) : World :=
  mkWorld (events w ++ [e]) (now_at w) (reads w).

(** The timestamp [int(time.time() * 1000)] taken in world [w]. *)
Definition timestamp_in (w : World) : Z := int_of_Q (now_at w (reads w) * 1000).

(** The clock after [update_clock(received)] when it was [clock] before. *)
Definition merged (clock : Z) (received : option Z) : Z :=
  match received with
  | Some r => Z.max clock r + 1
  | None => clock + 1
  end.

Lemma server_update_clock_eq (r : option Z) (s : Server.Session) (w : World) :
  Server.update_clock r (s, w)
  = (Return (merged (Server.logical_clock s) r),
     (Server.set_logical_clock (merged (Server.logical_clock s) r) s, w)).
Proof. destruct r; reflexivity. Qed.

Lemma client_update_clock_eq (r : option Z) (c : Client.UDPClient) (w : World) :
  Client.update_clock r (c, w)
  = (Return (merged (Client.logical_clock c) r),
     (Client.set_logical_clock (merged (Client.logical_clock c) r) c, w)).
Proof. destruct r; reflexivity. Qed.

Lemma server_create_message_eq (command seq_num : Z) (data : bytes)
      (s : Server.Session) (w : World) :
  Server.create_message command seq_num data (s, w)
  = let s' := Server.set_logical_clock (Server.logical_clock s + 1) s in
    match struct_pack MAGIC VERSION command seq_num (Server.session_id s)
                      (Server.logical_clock s + 1) (timestamp_in w) with
    | Some header => (Return (header ++ data), (s', tick_world w))
    | None => (Raise StructError, (s', tick_world w))
    end.
Proof.
  unfold Server.create_message, bind. rewrite server_update_clock_eq.
  cbn [time_time get ret raise fst snd merged]. cbn [Server.session_id Server.set_logical_clock].
  fold (timestamp_in w). fold (tick_world w).
  destruct (struct_pack _ _ _ _ _ _ _); reflexivity.
Qed.

Lemma client_create_message_eq (command : Z) (data : bytes)
      (c : Client.UDPClient) (w : World) :
  Client.create_message command data (c, w)
  = let c' := Client.set_logical_clock (Client.logical_clock c + 1) c in
    match struct_pack MAGIC VERSION command (Client.seq_num c) (Client.session_id c)
                      (Client.logical_clock c + 1) (timestamp_in w) with
    | Some header => (Return (header ++ data), (c', tick_world w))
    | None => (Raise StructError, (c', tick_world w))
    end.
Proof.
  unfold Client.create_message, bind. rewrite client_update_clock_eq.
  cbn [time_time get ret raise fst snd merged].
  cbn [Client.session_id Client.seq_num Client.set_logical_clock].
  fold (timestamp_in w). fold (tick_world w).
  destruct (struct_pack _ _ _ _ _ _ _); reflexivity.
Qed.

Lemma server_send_message_eq (command seq_num : Z) (data : bytes)
      (s : Server.Session) (w : World) :
  Server.send_message command seq_num data (s, w)
  = let s' := Server.set_logical_clock (Server.logical_clock s + 1) s in
    match struct_pack MAGIC VERSION command seq_num (Server.session_id s)
                      (Server.logical_clock s + 1) (timestamp_in w) with
    | Some header =>
        (Return tt, (s', emit_world (SendTo (header ++ data) (Server.addr s)) (tick_world w)))
    | None => (Raise StructError, (s', tick_world w))
    end.
Proof.
  unfold Server.send_message, bind. rewrite server_create_message_eq.
  cbv zeta. destruct (struct_pack _ _ _ _ _ _ _); reflexivity.
Qed.

End MethodEquations.

(** * Claims about the codec and the logical clock *)

Section CodecAndClock.
Import Wire Effects.

Lemma client_to_server_round_trip (c : Client.UDPClient) (w : World)
      (command : Z) (data : bytes) :
  fits 1 command -> fits 4 (Client.seq_num c) -> fits 4 (Client.session_id c) ->
  fits 8 (Client.logical_clock c + 1) -> fits 8 (timestamp_in w) ->
  exists msg,
    fst (Client.create_message command data (c, w)) = Return msg /\
    struct_unpack (firstn 28 msg)
    = Some (MAGIC, VERSION, command, Client.seq_num c, Client.session_id c,
            Client.logical_clock c + 1, timestamp_in w) /\
    Server.parse_message msg
    = Some (command, Client.seq_num c, Client.session_id c,
            Client.logical_clock c + 1, timestamp_in w, data).
Proof.
  intros Hc Hs Hi Hk Ht.
  assert (Hm : fits 2 MAGIC) by (unfold fits, MAGIC; simpl; lia).
  assert (Hv : fits 1 VERSION) by (unfold fits, VERSION; simpl; lia).
  pose proof (struct_pack_Some _ _ _ _ _ _ _ Hm Hv Hc Hs Hi Hk Ht) as Hp.
  rewrite client_create_message_eq. cbv zeta. rewrite Hp. cbn [fst].
  eexists. split; [reflexivity|]. split.
  - destruct (header_split _ data (struct_pack_length _ _ _ _ _ _ _ _ Hp)) as (_ & -> & _).
    apply struct_unpack_pack. exact Hp.
  - apply server_parse_packed. exact Hp.
Qed.

Lemma server_to_client_round_trip (s : Server.Session) (c : Client.UDPClient) (w : World)
      (command seq_num : Z) (data : bytes) :
  fits 1 command -> fits 4 seq_num -> fits 4 (Server.session_id s) ->
  fits 8 (Server.logical_clock s + 1) -> fits 8 (timestamp_in w) ->
  Client.session_id c = Server.session_id s ->
  exists msg,
    fst (Server.create_message command seq_num data (s, w)) = Return msg /\
    struct_unpack (firstn 28 msg)
    = Some (MAGIC, VERSION, command, seq_num, Server.session_id s,
            Server.logical_clock s + 1, timestamp_in w) /\
    Client.parse_message c msg
    = Some ((command, seq_num, Server.logical_clock s + 1, timestamp_in w), data).
Proof.
  intros Hc Hs Hi Hk Ht Hid.
  assert (Hm : fits 2 MAGIC) by (unfold fits, MAGIC; simpl; lia).
  assert (Hv : fits 1 VERSION) by (unfold fits, VERSION; simpl; lia).
  pose proof (struct_pack_Some _ _ _ _ _ _ _ Hm Hv Hc Hs Hi Hk Ht) as Hp.
  rewrite server_create_message_eq. cbv zeta. rewrite Hp. cbn [fst].
  eexists. split; [reflexivity|]. split.
  - destruct (header_split _ data (struct_pack_length _ _ _ _ _ _ _ _ Hp)) as (_ & -> & _).
    apply struct_unpack_pack. exact Hp.
  - rewrite (client_parse_packed c _ _ _ _ _ _ data Hp).
    rewrite Hid, Z.eqb_refl. reflexivity.
Qed.

(** C1. Decoding what [create_message] encoded gives the message back. For every
    command, sequence number, session id, clock, timestamp (each within the
    width of its header field, as [struct.pack] demands) and every payload:
    the client's [create_message] returns a datagram whose 28-byte header
    unpacks to the same magic, version, command, seq, session id, clock and
    timestamp, and which the server's [parse_message] decodes to the same
    fields and payload; and likewise a datagram made by a server session's
    [create_message] is decoded by the [parse_message] of the client that owns
    the session to the same fields and payload. *)
Theorem encode_decode_round_trip
        (c : Client.UDPClient) (s : Server.Session) (w : World)
        (command seq_num : Z) (data : bytes) :
  fits 1 command ->
  fits 4 (Client.seq_num c) -> fits 4 seq_num ->
  fits 4 (Client.session_id c) -> Server.session_id s = Client.session_id c ->
  fits 8 (Client.logical_clock c + 1) -> fits 8 (Server.logical_clock s + 1) ->
  fits 8 (timestamp_in w) ->
  (exists msg,
     fst (Client.create_message command data (c, w)) = Return msg /\
     struct_unpack (firstn 28 msg)
     = Some (MAGIC, VERSION, command, Client.seq_num c, Client.session_id c,
             Client.logical_clock c + 1, timestamp_in w) /\
     Server.parse_message msg
     = Some (command, Client.seq_num c, Client.session_id c,
             Client.logical_clock c + 1, timestamp_in w, data)) /\
  (exists msg,
     fst (Server.create_message command seq_num data (s, w)) = Return msg /\
     struct_unpack (firstn 28 msg)
     = Some (MAGIC, VERSION, command, seq_num, Server.session_id s,
             Server.logical_clock s + 1, timestamp_in w) /\
     Client.parse_message c msg
     = Some ((command, seq_num, Server.logical_clock s + 1, timestamp_in w), data)).
Proof.
  intros Hc Hcs Hs Hci Hid Hck Hsk Ht. split.
  - apply client_to_server_round_trip; assumption.
  - apply server_to_client_round_trip; try assumption.
    + rewrite Hid. assumption.
    + symmetry. assumption.
Qed.

(** [update_clock] called once for each element of [received], in order; the
    result lists the values the calls returned. *)
Fixpoint server_update_clocks (received : list (option Z)) : M Server.Session (list Z) :=
  match received with
  | [] => ret []
  | r :: rest =>
      v <- Server.update_clock r ;;
      vs <- server_update_clocks rest ;;
      ret (v :: vs)
  end.

Fixpoint client_update_clocks (received : list (option Z)) : M Client.UDPClient (list Z) :=
  match received with
  | [] => ret []
  | r :: rest =>
      v <- Client.update_clock r ;;
      vs <- client_update_clocks rest ;;
      ret (v :: vs)
  end.

(** Each value of the list exceeds the one before it by at least 1. *)
Fixpoint climbs (from : Z) (l : list Z) : Prop :=
  match l with
  | [] => True
  | v :: l' => from + 1 <= v /\ climbs v l'
  end.

Lemma last_cons (v d : Z) (l : list Z) : last (v :: l) d = last l v.
Proof.
  revert v d. induction l as [|x l IH]; intros v d; [reflexivity|].
  change (last (v :: x :: l) d) with (last (x :: l) d).
  rewrite (IH x d), (IH x v). reflexivity.
Qed.

Lemma merged_climbs (clock : Z) (r : option Z) : clock + 1 <= merged clock r.
Proof. destruct r; simpl; lia. Qed.

Lemma server_update_clocks_climb (received : list (option Z))
      (s : Server.Session) (w : World) :
  exists vs s',
    server_update_clocks received (s, w) = (Return vs, (s', w)) /\
    length vs = length received /\
    climbs (Server.logical_clock s) vs /\
    Server.logical_clock s' = last vs (Server.logical_clock s) /\
    Server.logical_clock s + Z.of_nat (length received) <= Server.logical_clock s'.
Proof.
  revert s. induction received as [|r rest IH]; intros s.
  - exists [], s. simpl. repeat split; try reflexivity. lia.
  - cbn [server_update_clocks]. unfold bind at 1. rewrite server_update_clock_eq.
    destruct (IH (Server.set_logical_clock (merged (Server.logical_clock s) r) s))
      as (vs & s' & Hrun & Hlen & Hclimb & Hlast & Hge).
    cbn [Server.logical_clock Server.set_logical_clock] in *.
    unfold bind at 1. rewrite Hrun.
    exists (merged (Server.logical_clock s) r :: vs), s'.
    pose proof (merged_climbs (Server.logical_clock s) r).
    repeat split; try assumption.
    + cbn [length]. congruence.
    + rewrite Hlast. symmetry. apply last_cons.
    + cbn [length]. lia.
Qed.

Lemma client_update_clocks_climb (received : list (option Z))
      (c : Client.UDPClient) (w : World) :
  exists vs c',
    client_update_clocks received (c, w) = (Return vs, (c', w)) /\
    length vs = length received /\
    climbs (Client.logical_clock c) vs /\
    Client.logical_clock c' = last vs (Client.logical_clock c) /\
    Client.logical_clock c + Z.of_nat (length received) <= Client.logical_clock c'.
Proof.
  revert c. induction received as [|r rest IH]; intros c.
  - exists [], c. simpl. repeat split; try reflexivity. lia.
  - cbn [client_update_clocks]. unfold bind at 1. rewrite client_update_clock_eq.
    destruct (IH (Client.set_logical_clock (merged (Client.logical_clock c) r) c))
      as (vs & c' & Hrun & Hlen & Hclimb & Hlast & Hge).
    cbn [Client.logical_clock Client.set_logical_clock] in *.
    unfold bind at 1. rewrite Hrun.
    exists (merged (Client.logical_clock c) r :: vs), c'.
    pose proof (merged_climbs (Client.logical_clock c) r).
    repeat split; try assumption.
    + cbn [length]. congruence.
    + rewrite Hlast. symmetry. apply last_cons.
    + cbn [length]. lia.
Qed.

(** C2. The logical clock of an endpoint (a server session, or the client).
    One call of [update_clock] never raises, touches nothing but the clock,
    sets it to [max(current, received-if-any) + 1] and returns that value, which
    is at least [current + 1]; with a received clock [r] greater than the
    current one the result is exactly [r + 1]. Over any sequence of calls the
    returned values climb by at least 1 from one call to the next, starting
    from the clock before the first call, and the clock ends at the last
    value returned. *)
Theorem update_clock_lamport (received : list (option Z)) (r : option Z)
        (s : Server.Session) (c : Client.UDPClient) (w : World) :
  (let v := Z.max (Server.logical_clock s)
                  (match r with Some x => x | None => Server.logical_clock s end) + 1 in
   Server.update_clock r (s, w) = (Return v, (Server.set_logical_clock v s, w)) /\
   Server.logical_clock s + 1 <= v /\
   (forall x, r = Some x -> Server.logical_clock s < x -> v = x + 1)) /\
  (let v := Z.max (Client.logical_clock c)
                  (match r with Some x => x | None => Client.logical_clock c end) + 1 in
   Client.update_clock r (c, w) = (Return v, (Client.set_logical_clock v c, w)) /\
   Client.logical_clock c + 1 <= v /\
   (forall x, r = Some x -> Client.logical_clock c < x -> v = x + 1)) /\
  (exists vs s',
     server_update_clocks received (s, w) = (Return vs, (s', w)) /\
     length vs = length received /\
     climbs (Server.logical_clock s) vs /\
     Server.logical_clock s' = last vs (Server.logical_clock s)) /\
  (exists vs c',
     client_update_clocks received (c, w) = (Return vs, (c', w)) /\
     length vs = length received /\
     climbs (Client.logical_clock c) vs /\
     Client.logical_clock c' = last vs (Client.logical_clock c)).
Proof.
  cbv zeta. repeat match goal with |- _ /\ _ => split end.
  - rewrite server_update_clock_eq. destruct r; cbn [merged]; [reflexivity|].
    rewrite Z.max_id. reflexivity.
  - lia.
  - intros x -> Hx. lia.
  - rewrite client_update_clock_eq. destruct r; cbn [merged]; [reflexivity|].
    rewrite Z.max_id. reflexivity.
  - lia.
  - intros x -> Hx. lia.
  - destruct (server_update_clocks_climb received s w) as (vs & s' & ? & ? & ? & ? & _).
    exists vs, s'. auto.
  - destruct (client_update_clocks_climb received c w) as (vs & c' & ? & ? & ? & ? & _).
    exists vs, c'. auto.
Qed.

End CodecAndClock.

(** * The server session: DATA *)

Section HandleData.
Import Wire Effects.
Variable decode_strip : bytes -> string.

(** The world after the events [l], in order. *)
Definition emits_world (l : list Event) (w : World) : World :=
  mkWorld (events w ++ l) (now_at w) (reads w).

(** The lost-packet reports for the [n] sequence numbers from [from] on. *)
Definition lost_reports (session_id from : Z) (n : nat) : list Event :=
  map (fun i => Print (LogLost session_id (from + Z.of_nat i))) (seq 0 n).

Lemma lost_reports_length session_id from n :
  length (lost_reports session_id from n) = n.
Proof. unfold lost_reports. rewrite length_map, length_seq. reflexivity. Qed.

Lemma lost_reports_S session_id from n :
  lost_reports session_id from (S n)
  = Print (LogLost session_id from) :: lost_reports session_id (from + 1) n.
Proof.
  unfold lost_reports. cbn [seq map]. rewrite Z.add_0_r. f_equal.
  rewrite <- seq_shift, map_map. apply map_ext. intros i. do 2 f_equal. lia.
Qed.

Lemma lost_reports_sent session_id from n : sent (lost_reports session_id from n) = [].
Proof.
  unfold lost_reports. induction (seq 0 n) as [|i l IH]; [reflexivity|]. exact IH.
Qed.

Lemma emits_world_nil w : emits_world [] w = w.
Proof. destruct w. unfold emits_world. simpl. rewrite app_nil_r. reflexivity. Qed.

(** The loop runs [seq_num - expected_seq] times, reports each number it steps
    over, and stops with [expected_seq = seq_num]: the bound [handle_data]
    passes never cuts it short. *)
Lemma lost_packets_eq (n : nat) (seq_num : Z) (s : Server.Session) (w : World) :
  Z.of_nat n = seq_num - Server.expected_seq s ->
  Server.lost_packets n seq_num (s, w)
  = (Return tt,
     (Server.set_expected_seq seq_num s,
      emits_world (lost_reports (Server.session_id s) (Server.expected_seq s) n) w)).
Proof.
  revert s w. induction n as [|n IH]; intros s w Hn.
  - cbn [Server.lost_packets ret]. rewrite emits_world_nil.
    replace seq_num with (Server.expected_seq s) by lia. destruct s; reflexivity.
  - cbn [Server.lost_packets]. unfold bind at 1. cbn [get fst].
    replace (Server.expected_seq s <? seq_num) with true by (symmetry; apply Z.ltb_lt; lia).
    unfold bind at 1. cbn [print emit fst snd]. unfold bind at 1. cbn [modify fst snd].
    rewrite IH by (cbn [Server.expected_seq Server.set_expected_seq]; lia).
    cbn [Server.expected_seq Server.set_expected_seq Server.session_id].
    rewrite lost_reports_S. unfold emits_world. cbn [events now_at reads].
    rewrite <- app_assoc. reflexivity.
Qed.

Lemma lost_packets_exit (seq_num : Z) (s : Server.Session) (w : World) :
  Server.expected_seq s <= seq_num ->
  exists s' w',
    Server.lost_packets (Z.to_nat (seq_num - Server.expected_seq s)) seq_num (s, w)
    = (Return tt, (s', w')) /\
    (Server.expected_seq s' <? seq_num) = false.
Proof.
  intros H. rewrite lost_packets_eq by lia. do 2 eexists. split; [reflexivity|].
  cbn [Server.expected_seq Server.set_expected_seq]. apply Z.ltb_irrefl.
Qed.

(** The line printed for the payload, when it holds text. *)
Definition text_report (session_id seq_num : Z) (data : bytes) : list Event :=
  if negb (String.eqb (decode_strip data) EmptyString)
  then [Print (LogText session_id seq_num (decode_strip data))] else [].

(** What [handle_data] has done when it reaches [send_message]: the session
    and the world. *)
Definition before_reply (seq_num logical_clock : Z) (data : bytes)
           (s : Server.Session) (w : World) : Server.Session * World :=
  (Server.set_logical_clock (Z.max (Server.logical_clock s) logical_clock + 1)
     (Server.set_expected_seq seq_num s),
   emits_world
     (lost_reports (Server.session_id s) (Server.expected_seq s)
                   (Z.to_nat (seq_num - Server.expected_seq s))
      ++ text_report (Server.session_id s) seq_num data) w).

(** [handle_data] on a sequence number that is not a duplicate. *)
Lemma handle_data_fresh_eq (command seq_num logical_clock timestamp : Z) (data : bytes)
      (s : Server.Session) (w : World) :
  Server.expected_seq s <= seq_num ->
  Server.handle_data decode_strip (command, seq_num, logical_clock, timestamp) data (s, w)
  = let '(s1, w1) := before_reply seq_num logical_clock data s w in
    let s2 := Server.set_logical_clock (Server.logical_clock s1 + 1) s1 in
    match struct_pack MAGIC VERSION CMD_ALIVE seq_num (Server.session_id s)
                      (Server.logical_clock s1 + 1) (timestamp_in w1) with
    | Some header =>
        let w2 := emit_world (SendTo (header ++ []) (Server.addr s)) (tick_world w1) in
        (Return tt,
         (Server.set_last_activity (now_at w2 (reads w2))
            (Server.set_expected_seq (seq_num + 1) s2),
          tick_world (tick_world w2)))
    | None => (Raise StructError, (s2, tick_world w1))
    end.
Proof.
  intros Hle. unfold Server.handle_data. unfold bind at 1. cbn [get fst].
  replace (seq_num <? Server.expected_seq s) with false by (symmetry; apply Z.ltb_ge; lia).
  unfold bind at 1. rewrite lost_packets_eq by lia.
  unfold before_reply, text_report.
  set (w0 := emits_world _ w).
  assert (Hw : forall l, emits_world (lost_reports (Server.session_id s) (Server.expected_seq s)
                 (Z.to_nat (seq_num - Server.expected_seq s)) ++ l) w = emits_world l w0).
  { intros l. unfold w0, emits_world. cbn [events now_at reads].
    rewrite app_assoc. reflexivity. }
  rewrite Hw. clear Hw. generalize w0. clear w0. intros w0.
  unfold bind at 1.
  destruct (negb (String.eqb (decode_strip data) EmptyString)).
  - unfold bind at 1. cbn [get fst]. cbn [print emit fst snd].
    unfold bind at 1. rewrite server_update_clock_eq.
    cbn [merged Server.logical_clock Server.set_expected_seq Server.session_id].
    unfold bind at 1. cbn [get fst Server.expected_seq Server.set_logical_clock].
    unfold bind at 1.
    fold (emits_world [Print (LogText (Server.session_id s) seq_num (decode_strip data))] w0).
    rewrite server_send_message_eq. cbv zeta.
    cbn [Server.logical_clock Server.session_id Server.addr Server.set_logical_clock].
    destruct (struct_pack _ _ _ _ _ _ _); reflexivity.
  - cbn [ret]. rewrite emits_world_nil.
    unfold bind at 1. rewrite server_update_clock_eq.
    cbn [merged Server.logical_clock Server.set_expected_seq Server.session_id].
    unfold bind at 1. cbn [get fst Server.expected_seq Server.set_logical_clock].
    unfold bind at 1.
    rewrite server_send_message_eq. cbv zeta.
    cbn [Server.logical_clock Server.session_id Server.addr Server.set_logical_clock].
    destruct (struct_pack _ _ _ _ _ _ _); reflexivity.
Qed.

(** The number of lost-packet reports among some events. *)
Definition count_lost (l : list Event) : nat :=
  length (filter (fun e => match e with Print (LogLost _ _) => true | _ => false end) l).

Lemma count_lost_app l1 l2 : count_lost (l1 ++ l2) = (count_lost l1 + count_lost l2)%nat.
Proof. unfold count_lost. rewrite filter_app, length_app. reflexivity. Qed.

Lemma count_lost_reports session_id from n :
  count_lost (lost_reports session_id from n) = n.
Proof.
  unfold count_lost, lost_reports.
  transitivity (length (seq 0 n)); [|apply length_seq].
  induction (seq 0 n) as [|i l IH]; [reflexivity|]. cbn [map filter length]. congruence.
Qed.

Lemma count_lost_text session_id seq_num data :
  count_lost (text_report session_id seq_num data) = 0%nat.
Proof. unfold text_report. destruct (negb _); reflexivity. Qed.

Lemma sent_app l1 l2 : sent (l1 ++ l2) = sent l1 ++ sent l2.
Proof. unfold sent. apply flat_map_app. Qed.

Lemma sent_text session_id seq_num data : sent (text_report session_id seq_num data) = [].
Proof. unfold text_report. destruct (negb _); reflexivity. Qed.

(** A DATA message that is not a duplicate, when the reply can be encoded:
    the session reports the numbers it skipped, replies ALIVE with the
    sequence number of the message, and expects the next one. *)
Lemma handle_data_fresh_ok (command seq_num logical_clock timestamp : Z) (data : bytes)
      (s : Server.Session) (w : World) :
  Server.expected_seq s <= seq_num ->
  fits 4 seq_num -> fits 4 (Server.session_id s) ->
  fits 8 (Z.max (Server.logical_clock s) logical_clock + 2) ->
  fits 8 (timestamp_in w) ->
  exists msg s' w',
    Server.handle_data decode_strip (command, seq_num, logical_clock, timestamp) data (s, w)
    = (Return tt, (s', w')) /\
    events w'
    = events w
      ++ lost_reports (Server.session_id s) (Server.expected_seq s)
                      (Z.to_nat (seq_num - Server.expected_seq s))
      ++ text_report (Server.session_id s) seq_num data
      ++ [SendTo msg (Server.addr s)] /\
    Server.parse_message msg
    = Some (CMD_ALIVE, seq_num, Server.session_id s,
            Z.max (Server.logical_clock s) logical_clock + 2, timestamp_in w, []) /\
    s' = Server.mkSession (Server.session_id s) (Server.addr s) (seq_num + 1)
                          (now_at w (S (reads w))) (Server.active s)
                          (Z.max (Server.logical_clock s) logical_clock + 2).
Proof.
  intros Hle Hseq Hsid Hclk Hts.
  rewrite handle_data_fresh_eq by assumption.
  unfold before_reply. cbv zeta.
  cbn [Server.logical_clock Server.set_logical_clock Server.set_expected_seq].
  change (timestamp_in (emits_world _ w)) with (timestamp_in w).
  replace (Z.max (Server.logical_clock s) logical_clock + 1 + 1)
    with (Z.max (Server.logical_clock s) logical_clock + 2) by lia.
  assert (Hm : fits 2 MAGIC) by (unfold fits, MAGIC; simpl; lia).
  assert (Hv : fits 1 VERSION) by (unfold fits, VERSION; simpl; lia).
  assert (Hc : fits 1 CMD_ALIVE) by (unfold fits, CMD_ALIVE; simpl; lia).
  pose proof (struct_pack_Some _ _ _ _ _ _ _ Hm Hv Hc Hseq Hsid Hclk Hts) as Hp.
  rewrite Hp. do 3 eexists. split; [reflexivity|]. split; [|split].
  - cbn [events tick_world emit_world emits_world].
    rewrite <- !(app_assoc (A:=Event)). reflexivity.
  - apply server_parse_packed. exact Hp.
  - reflexivity.
Qed.

End HandleData.

(** * The session table *)

Section TableFacts.
Import Wire Effects.

Lemma on_session_eq {A} (session_id : Z) (method : M Server.Session A)
      (srv : Server.UDPServer) (w : World) (s : Server.Session) :
  Dict.lookup session_id (Server.sessions srv) = Some s ->
  Server.on_session session_id method (srv, w)
  = let '(r, (s', w')) := method (s, w) in
    (r, (Server.set_sessions (Dict.set session_id s' (Server.sessions srv)) srv, w')).
Proof. intros H. unfold Server.on_session. rewrite H. reflexivity. Qed.

Lemma set_sessions_same (srv : Server.UDPServer) :
  Server.set_sessions (Server.sessions srv) srv = srv.
Proof. destruct srv; reflexivity. Qed.

End TableFacts.

(** * Claims about DATA on the server *)

Section DataClaims.
Import Wire Effects.
Variable decode_strip : bytes -> string.

(** C4. A DATA message whose sequence number is below [expected_seq] is a
    duplicate: [handle_data] only prints the duplicate report; it sends
    nothing, does not read the clock, and leaves the session as it was
    ([expected_seq], [logical_clock], [last_activity], [active] and the rest).
    Seen from [handle_packet], for a datagram that decodes to such a message
    of a session in the table: the server, its table and that session are
    unchanged and nothing is sent. *)
Theorem duplicate_data_changes_nothing
        (s : Server.Session) (srv : Server.UDPServer) (w : World)
        (seq_num logical_clock timestamp : Z) (payload datagram : bytes) (from : Addr) :
  seq_num < Server.expected_seq s ->
  Dict.lookup (Server.session_id s) (Server.sessions srv) = Some s ->
  Server.parse_message datagram
  = Some (CMD_DATA, seq_num, Server.session_id s, logical_clock, timestamp, payload) ->
  let report := Print (LogDuplicate (Server.session_id s) seq_num) in
  Server.handle_data decode_strip (CMD_DATA, seq_num, logical_clock, timestamp) payload (s, w)
  = (Return tt, (s, emit_world report w)) /\
  Server.handle_packet decode_strip datagram from (srv, w)
  = (Return tt, (srv, emit_world report w)) /\
  sent (events (emit_world report w)) = sent (events w).
Proof.
  intros Hdup Hin Hparse report.
  assert (Hd : Server.handle_data decode_strip
                 (CMD_DATA, seq_num, logical_clock, timestamp) payload (s, w)
               = (Return tt, (s, emit_world report w))).
  { unfold Server.handle_data. unfold bind at 1. cbn [get fst].
    apply Z.ltb_lt in Hdup. rewrite Hdup. reflexivity. }
  split; [exact Hd|]. split.
  - unfold Server.handle_packet. rewrite Hparse.
    unfold bind at 1. cbn [get fst].
    rewrite (dict_mem_lookup _ _ _ Hin). cbn [negb andb].
    unfold bind at 1. cbn [ret].
    change (CMD_DATA =? CMD_HELLO) with false. change (CMD_DATA =? CMD_DATA) with true.
    cbv iota. rewrite (on_session_eq _ _ _ _ _ Hin), Hd.
    rewrite (dict_set_lookup_same _ _ _ Hin), set_sessions_same. reflexivity.
  - cbn [emit_world events]. rewrite sent_app. cbn. apply app_nil_r.
Qed.

(** The sessions and the world of the examples: session 7 of a peer at
    127.0.0.1:40000, at a time when every reading of the wall clock gives
    1700000000 s. *)
Definition peer : Addr := ("127.0.0.1"%string, 40000).
Definition quiet_world : World := mkWorld [] (fun _ => 1700000000%Q) 0.
Definition session_at (expected_seq : Z) : Server.Session :=
  Server.mkSession 7 peer expected_seq 1700000000 true 0.

(** A datagram as a well-behaved peer builds it. *)
Definition datagram (command seq_num session_id clock timestamp : Z) (payload : bytes)
  : bytes :=
  match struct_pack MAGIC VERSION command seq_num session_id clock timestamp with
  | Some header => header ++ payload
  | None => []
  end.

(** The command and the sequence number a datagram carries. *)
Definition datagram_command_seq (d : bytes) : option (Z * Z) :=
  match Server.parse_message d with
  | Some (command, seq_num, _, _, _, _) => Some (command, seq_num)
  | None => None
  end.

(** What a method sent, as (command, sequence number) pairs. *)
Definition replies {O A} (result : outcome A * (O * World)) : list (option (Z * Z)) :=
  map (fun da => datagram_command_seq (fst da)) (sent (events (snd (snd result)))).

(** A gap of [k] numbers, when the reply can be encoded: exactly [k]
    lost-packet reports, one for each number from [expected_seq] up to the
    message's own, and the session then expects the number after the
    message's. *)
Lemma gap_reports_each_lost_number
      (s : Server.Session) (w : World) (k : nat)
      (seq_num logical_clock timestamp : Z) (data : bytes) :
  seq_num = Server.expected_seq s + Z.of_nat k ->
  fits 4 seq_num -> fits 4 (Server.session_id s) ->
  fits 8 (Z.max (Server.logical_clock s) logical_clock + 2) ->
  fits 8 (timestamp_in w) ->
  exists s' w' rest,
    Server.handle_data decode_strip (CMD_DATA, seq_num, logical_clock, timestamp) data (s, w)
    = (Return tt, (s', w')) /\
    events w'
    = events w ++ lost_reports (Server.session_id s) (Server.expected_seq s) k ++ rest /\
    count_lost rest = 0%nat /\
    Server.expected_seq s' = seq_num + 1.
Proof.
  intros Hk Hseq Hsid Hclk Hts.
  destruct (handle_data_fresh_ok decode_strip CMD_DATA seq_num logical_clock timestamp
              data s w) as (msg & s' & w' & Hrun & Hev & _ & Hs'); try assumption; [lia|].
  replace (Z.to_nat (seq_num - Server.expected_seq s)) with k in Hev by lia.
  exists s', w', (text_report decode_strip (Server.session_id s) seq_num data
                  ++ [SendTo msg (Server.addr s)]).
  repeat split; try assumption.
  - rewrite count_lost_app, count_lost_text. reflexivity.
  - rewrite Hs'. reflexivity.
Qed.

(** The same message when the merged clock, ticked twice, is past the clock
    field: [struct.pack] raises under [send_message], after the lost numbers
    were reported and [expected_seq] was moved up to the message's number, and
    before anything is sent or [expected_seq] is incremented. *)
Lemma fresh_data_reply_overflow
      (s : Server.Session) (w : World)
      (seq_num logical_clock timestamp : Z) (data : bytes) :
  Server.expected_seq s <= seq_num ->
  256 ^ 8 <= Z.max (Server.logical_clock s) logical_clock + 2 ->
  exists s' w',
    Server.handle_data decode_strip (CMD_DATA, seq_num, logical_clock, timestamp) data (s, w)
    = (Raise StructError, (s', w')) /\
    Server.expected_seq s' = seq_num /\
    sent (events w') = sent (events w) /\
    count_lost (events w')
    = (count_lost (events w) + Z.to_nat (seq_num - Server.expected_seq s))%nat.
Proof.
  intros Hle Hbig. rewrite handle_data_fresh_eq by assumption.
  unfold before_reply. cbv zeta.
  cbn [Server.logical_clock Server.set_logical_clock Server.set_expected_seq].
  assert (Hp : forall ts,
    struct_pack MAGIC VERSION CMD_ALIVE seq_num (Server.session_id s)
                (Z.max (Server.logical_clock s) logical_clock + 1 + 1) ts = None).
  { intros ts. unfold struct_pack.
    rewrite (pack_field_None 8 (Z.max (Server.logical_clock s) logical_clock + 1 + 1))
      by (change (Z.of_nat 8) with 8; lia).
    destruct (pack_field 2 MAGIC), (pack_field 1 VERSION), (pack_field 1 CMD_ALIVE),
      (pack_field 4 seq_num), (pack_field 4 (Server.session_id s)); reflexivity. }
  rewrite Hp. do 2 eexists. split; [reflexivity|]. split; [reflexivity|].
  cbn [events tick_world emits_world]. split.
  - rewrite !sent_app, lost_reports_sent, sent_text. apply app_nil_r.
  - rewrite !count_lost_app, count_lost_reports, count_lost_text. lia.
Qed.

(** C5, as the code has it. When the server accepts a DATA message with
    sequence number [seq_num] (not below [expected_seq]) and the reply fits
    the header, [handle_data] returns, the one datagram it sends goes to the
    session's peer and is an ALIVE carrying [seq_num] itself, the number of
    the message it answers, and only then [expected_seq] becomes
    [seq_num + 1]. *)
Theorem alive_reply_carries_message_seq
        (s : Server.Session) (w : World)
        (seq_num logical_clock timestamp : Z) (data : bytes) :
  Server.expected_seq s <= seq_num ->
  fits 4 seq_num -> fits 4 (Server.session_id s) ->
  fits 8 (Z.max (Server.logical_clock s) logical_clock + 2) ->
  fits 8 (timestamp_in w) ->
  let result :=
    Server.handle_data decode_strip (CMD_DATA, seq_num, logical_clock, timestamp) data (s, w) in
  fst result = Return tt /\
  (exists msg,
     sent (events (snd (snd result))) = sent (events w) ++ [(msg, Server.addr s)] /\
     datagram_command_seq msg = Some (CMD_ALIVE, seq_num)) /\
  Server.expected_seq (fst (snd result)) = seq_num + 1.
Proof.
  intros Hle Hseq Hsid Hclk Hts result.
  destruct (handle_data_fresh_ok decode_strip CMD_DATA seq_num logical_clock timestamp
              data s w) as (msg & s' & w' & Hrun & Hev & Hparse & Hs'); try assumption.
  subst result. rewrite Hrun. cbn [fst snd]. split; [reflexivity|]. split.
  - exists msg. split.
    + rewrite Hev, !sent_app, lost_reports_sent, sent_text. reflexivity.
    + unfold datagram_command_seq. rewrite Hparse. reflexivity.
  - rewrite Hs'. reflexivity.
Qed.

End DataClaims.

Section DataExamples.
Import Wire Effects.

(** The payload of the examples is plain ASCII without blanks around it, for
    which [decode('utf-8', errors='ignore').strip()] is the string of its
    bytes. *)
Definition ascii_text : bytes -> string := string_of_list_byte.

(** C5, against the claim: the reply carries the sequence number of the
    message, not the next one. DATA(seq=1) at [expected_seq = 1] is answered
    by ALIVE(seq=1), and DATA(seq=5) at [expected_seq = 2] by ALIVE(seq=5);
    neither ALIVE(seq=2) nor ALIVE(seq=6) is sent. *)
Lemma alive_reply_is_not_next_seq :
  let first :=
    Server.handle_data ascii_text (CMD_DATA, 1, 1, 1000) [x68; x69]
                       (session_at 1, quiet_world) in
  let second :=
    Server.handle_data ascii_text (CMD_DATA, 5, 9, 1000) [] (session_at 2, quiet_world) in
  (replies first = [Some (CMD_ALIVE, 1)] /\ ~ In (Some (CMD_ALIVE, 2)) (replies first)) /\
  (replies second = [Some (CMD_ALIVE, 5)] /\ ~ In (Some (CMD_ALIVE, 6)) (replies second)).
Proof.
  cbv zeta.
  assert (H1 : replies (Server.handle_data ascii_text (CMD_DATA, 1, 1, 1000) [x68; x69]
                          (session_at 1, quiet_world)) = [Some (CMD_ALIVE, 1)])
    by (vm_compute; reflexivity).
  assert (H2 : replies (Server.handle_data ascii_text (CMD_DATA, 5, 9, 1000) []
                          (session_at 2, quiet_world)) = [Some (CMD_ALIVE, 5)])
    by (vm_compute; reflexivity).
  rewrite H1, H2. repeat split; intros [H|[]]; discriminate H.
Qed.

(** C5 as the code has it, for DATA(seq=5) reaching session 7 when it expects 2. *)
Lemma alive_reply_carries_message_seq_witness :
  let result :=
    Server.handle_data ascii_text (CMD_DATA, 5, 9, 1000) [] (session_at 2, quiet_world) in
  fst result = Return tt /\
  (exists msg,
     sent (events (snd (snd result))) = sent (events quiet_world) ++ [(msg, peer)] /\
     datagram_command_seq msg = Some (CMD_ALIVE, 5)) /\
  Server.expected_seq (fst (snd result)) = 5 + 1.
Proof.
  apply (alive_reply_carries_message_seq ascii_text (session_at 2) quiet_world 5 9 1000 []);
    unfold fits; vm_compute; try split; try discriminate; reflexivity.
Defined.

(** C3, where the code departs from it. Session 7 expects 2 and a DATA message
    with sequence number 5 arrives whose clock field holds the largest 64-bit
    value. The three lost numbers are reported and [expected_seq] moves to 5;
    then the clock, merged and ticked twice, no longer fits the clock field
    of the reply, [struct.pack] raises, nothing is sent and [expected_seq]
    stays at 5, not 6. Under [run] the exception ends the server loop. *)
Theorem gap_with_clock_at_limit_raises :
  let s' := Server.mkSession 7 peer 5 1700000000 true (2 ^ 64 + 1) in
  let w' := mkWorld [Print (LogLost 7 2); Print (LogLost 7 3); Print (LogLost 7 4)]
                    (now_at quiet_world) 1 in
  Server.handle_data ascii_text (CMD_DATA, 5, 2 ^ 64 - 1, 1000) []
                     (session_at 2, quiet_world)
  = (Raise StructError, (s', w')) /\
  Server.run_turn ascii_text (Some (datagram CMD_DATA 5 7 (2 ^ 64 - 1) 1000 [], peer))
                  (Server.mkServer [(7, session_at 2)] true, quiet_world)
  = (Return tt, (Server.mkServer [(7, s')] false, mkWorld (events w') (now_at w') 2)).
Proof.
  cbv zeta. split.
  - vm_compute. reflexivity.
  - vm_compute. reflexivity.
Qed.

End DataExamples.

(** * Claims about the session table *)

Section TableClaims.
Import Wire Effects.
Variable decode_strip : bytes -> string.

(** C8. A datagram that decodes to a message whose session id is not in the
    table and whose command is not HELLO is dropped: [handle_packet] returns
    with the server (table included) and the world exactly as they were, so
    nothing was sent, printed or created. *)
Theorem unknown_session_is_dropped
        (srv : Server.UDPServer) (w : World) (data payload : bytes) (from : Addr)
        (command seq_num session_id logical_clock timestamp : Z) :
  Server.parse_message data
  = Some (command, seq_num, session_id, logical_clock, timestamp, payload) ->
  ~ In session_id (Dict.keys (Server.sessions srv)) ->
  command <> CMD_HELLO ->
  Server.handle_packet decode_strip data from (srv, w) = (Return tt, (srv, w)).
Proof.
  intros Hparse Hnew Hcmd. unfold Server.handle_packet. rewrite Hparse.
  unfold bind at 1. cbn [get fst].
  apply dict_lookup_None_keys in Hnew. unfold Dict.mem. rewrite Hnew.
  apply Z.eqb_neq in Hcmd. rewrite Hcmd. reflexivity.
Qed.

End TableClaims.

(** * The idle sweep and GOODBYE, when the reply can be encoded *)

Section Reclaim.
Import Wire Effects.

(** The GOODBYE of a session can be packed: its next clock value, its
    [expected_seq] and its id fit their fields. *)
Definition goodbye_fits (s : Server.Session) : Prop :=
  fits 4 (Server.expected_seq s) /\ fits 4 (Server.session_id s) /\
  fits 8 (Server.logical_clock s + 1).

(** Every timestamp the wall clock of [w] can give fits its field. *)
Definition timestamps_fit (w : World) : Prop :=
  forall n, fits 8 (int_of_Q (now_at w n * 1000)).

(** The GOODBYE datagrams for session [k] among some events. *)
Definition goodbyes_for (k : Z) (l : list Event) : list Event :=
  filter (fun e =>
            match e with
            | SendTo d _ =>
                match Server.parse_message d with
                | Some (command, _, session_id, _, _, _) =>
                    (command =? CMD_GOODBYE) && (session_id =? k)
                | None => false
                end
            | Print _ => false
            end) l.

(** [check_timeout] on a session that is idle and active, when its GOODBYE
    can be packed: the timeout is printed, one GOODBYE goes to the peer, the
    session is marked inactive and the method returns [True]. *)
Lemma check_timeout_expired (s : Server.Session) (w : World) :
  (10 < now_at w (reads w) - Server.last_activity s)%Q ->
  Server.active s = true ->
  goodbye_fits s -> fits 8 (int_of_Q (now_at w (S (reads w)) * 1000)) ->
  exists msg,
    Server.check_timeout (s, w)
    = (Return true,
       (Server.set_active false
          (Server.set_logical_clock (Server.logical_clock s + 1) s),
        mkWorld (events w ++ [Print (LogTimeout (Server.session_id s));
                              SendTo msg (Server.addr s)])
                (now_at w) (S (S (reads w))))) /\
    Server.parse_message msg
    = Some (CMD_GOODBYE, Server.expected_seq s, Server.session_id s,
            Server.logical_clock s + 1, int_of_Q (now_at w (S (reads w)) * 1000), []).
Proof.
  intros Hidle Hact (Hseq & Hsid & Hclk) Hts.
  assert (Hm : fits 2 MAGIC) by (unfold fits, MAGIC; simpl; lia).
  assert (Hv : fits 1 VERSION) by (unfold fits, VERSION; simpl; lia).
  assert (Hc : fits 1 CMD_GOODBYE) by (unfold fits, CMD_GOODBYE; simpl; lia).
  pose proof (struct_pack_Some _ _ _ _ _ _ _ Hm Hv Hc Hseq Hsid Hclk Hts) as Hp.
  eexists. split.
  - unfold Server.check_timeout. unfold bind at 1. cbn [time_time fst snd].
    unfold bind at 1. cbn [get fst].
    apply Qgtb_true in Hidle. rewrite Hidle, Hact. cbn [andb].
    unfold bind at 1. cbn [print emit fst snd].
    unfold bind at 1. rewrite server_send_message_eq. cbv zeta.
    unfold timestamp_in. cbn [now_at reads]. rewrite Hp.
    unfold bind at 1. unfold modify, ret, emit_world, tick_world.
    cbn [fst snd events now_at reads].
    rewrite <- (app_assoc (A:=Event)). reflexivity.
  - apply server_parse_packed. exact Hp.
Qed.

(** [check_timeout] on a session that is not idle, or not active. *)
Lemma check_timeout_kept (s : Server.Session) (w : World) :
  Qgtb (now_at w (reads w) - Server.last_activity s) 10 && Server.active s = false ->
  Server.check_timeout (s, w) = (Return false, (s, tick_world w)).
Proof.
  intros H. unfold Server.check_timeout. unfold bind at 1. cbn [time_time fst snd].
  unfold bind at 1. cbn [get fst]. rewrite H. reflexivity.
Qed.

(** The body of the loop of the sweep. *)
Definition sweep_body (session_id : Z) : M Server.UDPServer unit :=
  expired <- Server.on_session session_id Server.check_timeout ;;
  if expired then
    modify (fun srv =>
              Server.set_sessions (Dict.del session_id (Server.sessions srv)) srv)
  else ret tt.

Lemma sweep_unfold (srv : Server.UDPServer) (w : World) :
  Server.sweep (srv, w) = for_each (Dict.keys (Server.sessions srv)) sweep_body (srv, w).
Proof. reflexivity. Qed.

Lemma goodbyes_for_app k l1 l2 :
  goodbyes_for k (l1 ++ l2) = goodbyes_for k l1 ++ goodbyes_for k l2.
Proof. unfold goodbyes_for. apply filter_app. Qed.

(** A session is idle whenever the wall clock of [w] is read. *)
Definition idle_throughout (w : World) (s : Server.Session) : Prop :=
  forall n, (10 < now_at w n - Server.last_activity s)%Q.

(** What the sweep does to the sessions it is still to visit, [ks], when every
    GOODBYE it may have to send can be packed. *)
Lemma sweep_loop (ks : list Z) :
  forall (d : Dict.t Server.Session) (r : bool) (w : World),
  NoDup ks -> NoDup (Dict.keys d) ->
  (forall k, In k ks ->
     exists s, Dict.lookup k d = Some s /\ Server.session_id s = k /\ goodbye_fits s) ->
  timestamps_fit w ->
  exists d' w' new,
    for_each ks sweep_body (Server.mkServer d r, w)
    = (Return tt, (Server.mkServer d' r, w')) /\
    events w' = events w ++ new /\ now_at w' = now_at w /\
    NoDup (Dict.keys d') /\
    (forall k, ~ In k ks ->
       Dict.lookup k d' = Dict.lookup k d /\ goodbyes_for k new = []) /\
    (forall k s, In k ks -> Dict.lookup k d = Some s ->
       (Server.active s = true -> idle_throughout w s ->
        Dict.lookup k d' = None /\
        exists msg clock timestamp,
          goodbyes_for k new = [SendTo msg (Server.addr s)] /\
          Server.parse_message msg
          = Some (CMD_GOODBYE, Server.expected_seq s, k, clock, timestamp, [])) /\
       (Server.active s = false ->
        Dict.lookup k d' = Some s /\ goodbyes_for k new = [])).
Proof.
  induction ks as [|k0 ks IH]; intros d r w Hks Hd Hfit Hts.
  - exists d, w, []. cbn [for_each ret]. rewrite app_nil_r.
    split; [reflexivity|]. split; [reflexivity|]. split; [reflexivity|].
    split; [exact Hd|]. split.
    + intros k _. split; reflexivity.
    + intros k s [].
  - inversion Hks as [|? ? Hk0 Hks']; subst.
    destruct (Hfit k0 (or_introl eq_refl)) as (s0 & Hl0 & Hid0 & Hg0).
    cbn [for_each]. unfold bind at 1. unfold sweep_body at 1. unfold bind at 1.
    rewrite (on_session_eq k0 _ (Server.mkServer d r) w s0 Hl0). cbn [Server.sessions].
    destruct (Qgtb (now_at w (reads w) - Server.last_activity s0) 10 && Server.active s0)
      eqn:Eexp.
    + (* the session has expired *)
      apply andb_prop in Eexp. destruct Eexp as [Hidle Hact].
      apply Qgtb_true in Hidle.
      destruct (check_timeout_expired s0 w Hidle Hact Hg0 (Hts _)) as (msg & Hrun & Hparse).
      rewrite Hrun. unfold modify, Server.set_sessions.
      cbn [fst snd Server.sessions Server.running]. rewrite dict_del_set.
      set (w1 := mkWorld _ (now_at w) (S (S (reads w)))).
      destruct (IH (Dict.del k0 d) r w1) as (d' & w' & new & Hrun' & Hev & Hnow & Hd' & Hout & Hin).
      { exact Hks'. }
      { apply dict_NoDup_keys_del. exact Hd. }
      { intros k Hk. destruct (Hfit k (or_intror Hk)) as (s & Hl & Hid & Hg).
        exists s. rewrite dict_lookup_del_other by congruence. auto. }
      { exact Hts. }
      rewrite Hrun'. exists d', w', ([Print (LogTimeout (Server.session_id s0));
                                      SendTo msg (Server.addr s0)] ++ new).
      split; [reflexivity|]. split.
      { rewrite Hev. unfold w1. cbn [events]. rewrite <- (app_assoc (A:=Event)). reflexivity. }
      split; [exact Hnow|]. split; [exact Hd'|].
      assert (Hhead : forall k, goodbyes_for k [Print (LogTimeout (Server.session_id s0));
                                                SendTo msg (Server.addr s0)]
                                = if k0 =? k then [SendTo msg (Server.addr s0)] else []).
      { intros k. cbn [goodbyes_for filter]. rewrite Hparse, Hid0.
        change (CMD_GOODBYE =? CMD_GOODBYE) with true. cbn [andb].
        destruct (k0 =? k); reflexivity. }
      split.
      * intros k Hk. assert (Hne : k <> k0) by (intros ->; apply Hk; left; reflexivity).
        destruct (Hout k) as [Hl Hg]; [intros H; apply Hk; right; exact H|].
        split.
        -- rewrite Hl. apply dict_lookup_del_other. exact Hne.
        -- rewrite goodbyes_for_app, Hhead, Hg.
           replace (k0 =? k) with false by (symmetry; apply Z.eqb_neq; congruence).
           reflexivity.
      * intros k s [->|Hk] Hl.
        -- assert (s = s0) by congruence. subst s.
           destruct (Hout k Hk0) as [Hl' Hg'].
           split.
           ++ intros _ _. split.
              ** rewrite Hl'. apply dict_lookup_del_same. exact Hd.
              ** exists msg. do 2 eexists. split.
                 --- rewrite goodbyes_for_app, Hhead, Hg', Z.eqb_refl. reflexivity.
                 --- rewrite Hid0 in Hparse. exact Hparse.
           ++ intros H. congruence.
        -- assert (Hne : k <> k0) by (intros ->; contradiction).
           assert (Hl1 : Dict.lookup k (Dict.del k0 d) = Some s)
             by (rewrite dict_lookup_del_other; assumption).
           destruct (Hin k s Hk Hl1) as [Hexp Hkeep].
           assert (Hg : forall l, goodbyes_for k
                          ([Print (LogTimeout (Server.session_id s0));
                            SendTo msg (Server.addr s0)] ++ l) = goodbyes_for k l).
           { intros l. rewrite goodbyes_for_app, Hhead.
             replace (k0 =? k) with false by (symmetry; apply Z.eqb_neq; congruence).
             reflexivity. }
           split.
           ++ intros Ha Hi. rewrite Hg. apply Hexp; assumption.
           ++ intros Ha. rewrite Hg. apply Hkeep. assumption.
    + (* the session stays *)
      rewrite (check_timeout_kept s0 w Eexp).
      unfold ret, Server.set_sessions. cbn [fst snd Server.sessions Server.running].
      rewrite (dict_set_lookup_same _ _ _ Hl0).
      destruct (IH d r (tick_world w)) as (d' & w' & new & Hrun' & Hev & Hnow & Hd' & Hout & Hin).
      { exact Hks'. }
      { exact Hd. }
      { intros k Hk. apply Hfit. right. exact Hk. }
      { exact Hts. }
      rewrite Hrun'. exists d', w', new.
      split; [reflexivity|]. split; [exact Hev|]. split; [exact Hnow|]. split; [exact Hd'|].
      split.
      * intros k Hk. apply Hout. intros H. apply Hk. right. exact H.
      * intros k s [->|Hk] Hl.
        -- assert (s = s0) by congruence. subst s.
           destruct (Hout k Hk0) as [Hl' Hg']. split.
           ++ intros Ha Hi. exfalso.
              specialize (Hi (reads w)). apply Qgtb_true in Hi.
              rewrite Hi, Ha in Eexp. discriminate Eexp.
           ++ intros _. split; congruence.
        -- apply (Hin k s Hk Hl).
Qed.

(** The sweep reclaims an idle session: for a table whose sessions can all
    send their GOODBYE, the sweep returns, an active session that is idle has
    left the table and exactly one GOODBYE was sent for it, to its peer. *)
Lemma sweep_reclaims_idle_session
      (srv : Server.UDPServer) (w : World) (k : Z) (s : Server.Session) :
  NoDup (Dict.keys (Server.sessions srv)) ->
  (forall k' s', Dict.lookup k' (Server.sessions srv) = Some s' ->
                 Server.session_id s' = k' /\ goodbye_fits s') ->
  timestamps_fit w ->
  Dict.lookup k (Server.sessions srv) = Some s ->
  Server.active s = true -> idle_throughout w s ->
  exists srv' w' new msg clock timestamp,
    Server.sweep (srv, w) = (Return tt, (srv', w')) /\
    events w' = events w ++ new /\
    Dict.lookup k (Server.sessions srv') = None /\
    goodbyes_for k new = [SendTo msg (Server.addr s)] /\
    Server.parse_message msg
    = Some (CMD_GOODBYE, Server.expected_seq s, k, clock, timestamp, []).
Proof.
  intros Hd Hwf Hts Hl Ha Hi. rewrite sweep_unfold. destruct srv as [d r].
  cbn [Server.sessions] in *.
  destruct (sweep_loop (Dict.keys d) d r w) as (d' & w' & new & Hrun & Hev & _ & _ & _ & Hin);
    try assumption.
  { intros k' Hk'. apply dict_lookup_In_keys in Hk'. destruct Hk' as [s' Hs'].
    exists s'. destruct (Hwf k' s' Hs'). auto. }
  assert (Hk : In k (Dict.keys d)) by (apply dict_lookup_In_keys; eauto).
  destruct (Hin k s Hk Hl) as [Hexp _].
  destruct (Hexp Ha Hi) as (Hgone & msg & clock & timestamp & Hg & Hparse).
  exists (Server.mkServer d' r), w', new, msg, clock, timestamp. auto.
Qed.

End Reclaim.

(** * How a session leaves the table, and how it does not *)

Section Teardown.
Import Wire Effects.
Variable decode_strip : bytes -> string.

Lemma fits_constants :
  fits 2 MAGIC /\ fits 1 VERSION /\ fits 1 CMD_HELLO /\ fits 1 CMD_GOODBYE.
Proof. unfold fits, MAGIC, VERSION, CMD_HELLO, CMD_GOODBYE. simpl. lia. Qed.

(** GOODBYE from the client, when the reply can be packed: the server answers
    GOODBYE and the record leaves the table. *)
Lemma goodbye_removes_session
      (srv : Server.UDPServer) (w : World) (s : Server.Session)
      (data payload : bytes) (from : Addr) (seq_num logical_clock timestamp : Z) :
  Server.parse_message data
  = Some (CMD_GOODBYE, seq_num, Server.session_id s, logical_clock, timestamp, payload) ->
  Dict.lookup (Server.session_id s) (Server.sessions srv) = Some s ->
  NoDup (Dict.keys (Server.sessions srv)) ->
  fits 4 (Server.expected_seq s) -> fits 4 (Server.session_id s) ->
  fits 8 (Z.max (Server.logical_clock s) logical_clock + 2) ->
  fits 8 (timestamp_in w) ->
  exists w' msg,
    Server.handle_packet decode_strip data from (srv, w)
    = (Return tt,
       (Server.set_sessions (Dict.del (Server.session_id s) (Server.sessions srv)) srv, w')) /\
    Dict.lookup (Server.session_id s)
                (Dict.del (Server.session_id s) (Server.sessions srv)) = None /\
    sent (events w') = sent (events w) ++ [(msg, Server.addr s)] /\
    datagram_command_seq msg = Some (CMD_GOODBYE, Server.expected_seq s).
Proof.
  intros Hparse Hl Hd Hseq Hsid Hclk Hts.
  destruct fits_constants as (Hm & Hv & _ & Hc).
  pose proof (struct_pack_Some _ _ _ _ _ _ _ Hm Hv Hc Hseq Hsid Hclk Hts) as Hp.
  match type of Hp with _ = Some ?x => set (h := x) in Hp; clearbody h end.
  unfold Server.handle_packet. rewrite Hparse.
  unfold bind at 1. cbn [get fst].
  rewrite (dict_mem_lookup _ _ _ Hl). cbn [negb andb].
  unfold bind at 1. cbn [ret].
  change (CMD_GOODBYE =? CMD_HELLO) with false.
  change (CMD_GOODBYE =? CMD_DATA) with false.
  change (CMD_GOODBYE =? CMD_GOODBYE) with true. cbv iota.
  unfold bind at 1. rewrite (on_session_eq _ _ _ _ _ Hl).
  unfold Server.handle_goodbye. unfold bind at 1. cbn [get fst].
  unfold bind at 1. cbn [print emit fst snd].
  unfold bind at 1. rewrite server_update_clock_eq. cbn [merged].
  unfold bind at 1. cbn [get fst].
  unfold bind at 1. rewrite server_send_message_eq. cbv zeta.
  cbn [Server.logical_clock Server.set_logical_clock Server.session_id
       Server.expected_seq Server.addr].
  replace (Z.max (Server.logical_clock s) logical_clock + 1 + 1)
    with (Z.max (Server.logical_clock s) logical_clock + 2) by lia.
  change (timestamp_in (mkWorld _ (now_at w) (reads w))) with (timestamp_in w).
  rewrite Hp. unfold bind at 1. cbn [print emit fst snd].
  unfold modify, Server.set_sessions. cbn [fst snd Server.sessions Server.running].
  rewrite dict_del_set. do 2 eexists. split; [reflexivity|]. split; [|split].
  - apply dict_lookup_del_same. exact Hd.
  - cbn [events emit_world tick_world]. rewrite !sent_app. cbn [sent flat_map app].
    rewrite !app_nil_r. reflexivity.
  - unfold datagram_command_seq. rewrite <- (app_nil_r h).
    rewrite (server_parse_packed _ _ _ _ _ _ [] Hp). reflexivity.
Qed.

(** HELLO for a session that is already past its first contact, when the
    reply can be packed: the server answers GOODBYE and marks the session
    inactive, and the record stays in the table under its id. *)
Lemma hello_violation_keeps_record
      (srv : Server.UDPServer) (w : World) (s : Server.Session)
      (data payload : bytes) (from : Addr) (seq_num logical_clock timestamp : Z) :
  Server.parse_message data
  = Some (CMD_HELLO, seq_num, Server.session_id s, logical_clock, timestamp, payload) ->
  Dict.lookup (Server.session_id s) (Server.sessions srv) = Some s ->
  Server.expected_seq s <> 0 ->
  fits 4 (Server.expected_seq s) -> fits 4 (Server.session_id s) ->
  fits 8 (Server.logical_clock s + 1) -> fits 8 (timestamp_in w) ->
  exists srv' w' msg,
    Server.handle_packet decode_strip data from (srv, w) = (Return tt, (srv', w')) /\
    Dict.lookup (Server.session_id s) (Server.sessions srv')
    = Some (Server.set_active false
              (Server.set_logical_clock (Server.logical_clock s + 1) s)) /\
    sent (events w') = sent (events w) ++ [(msg, Server.addr s)] /\
    datagram_command_seq msg = Some (CMD_GOODBYE, Server.expected_seq s).
Proof.
  intros Hparse Hl Hne Hseq Hsid Hclk Hts.
  destruct fits_constants as (Hm & Hv & _ & Hc).
  pose proof (struct_pack_Some _ _ _ _ _ _ _ Hm Hv Hc Hseq Hsid Hclk Hts) as Hp.
  match type of Hp with _ = Some ?x => set (h := x) in Hp; clearbody h end.
  unfold Server.handle_packet. rewrite Hparse.
  unfold bind at 1. cbn [get fst].
  rewrite (dict_mem_lookup _ _ _ Hl). cbn [negb andb].
  unfold bind at 1. cbn [ret].
  change (CMD_HELLO =? CMD_HELLO) with true. cbv iota.
  rewrite (on_session_eq _ _ _ _ _ Hl).
  unfold Server.handle_hello. unfold bind at 1. cbn [get fst].
  apply Z.eqb_neq in Hne. rewrite Hne. cbn [negb].
  unfold bind at 1. cbn [print emit fst snd].
  unfold bind at 1. rewrite server_send_message_eq. cbv zeta.
  change (timestamp_in (mkWorld _ (now_at w) (reads w))) with (timestamp_in w).
  rewrite Hp. unfold modify. cbn [fst snd].
  do 3 eexists. split; [reflexivity|]. split; [|split].
  - cbn [Server.sessions Server.set_sessions]. apply dict_lookup_set_same.
  - cbn [events emit_world tick_world]. rewrite !sent_app. cbn [sent flat_map app].
    rewrite !app_nil_r. reflexivity.
  - unfold datagram_command_seq. rewrite <- (app_nil_r h).
    rewrite (server_parse_packed _ _ _ _ _ _ [] Hp). reflexivity.
Qed.

End Teardown.

Section TableExamples.
Import Wire Effects.

(** A server that has just started. *)
Definition fresh_server : Server.UDPServer := Server.mkServer [] true.

(** A world where the first [k] readings of the wall clock give 1700000000 s
    and the later ones give eleven seconds more. *)
Definition late_world (k : nat) : World :=
  mkWorld [] (fun n => if (n <? k)%nat then 1700000000%Q else 1700000011%Q) 0.

(** C8 for DATA of session 9 reaching a server that only knows session 7. *)
Lemma unknown_session_is_dropped_witness :
  Server.handle_packet ascii_text (datagram CMD_DATA 1 9 1 1000 [x68; x69]) peer
                       (Server.mkServer [(7, session_at 1)] true, quiet_world)
  = (Return tt, (Server.mkServer [(7, session_at 1)] true, quiet_world)).
Proof.
  apply (unknown_session_is_dropped ascii_text _ _ _ [x68; x69] peer CMD_DATA 1 9 1 1000).
  - vm_compute. reflexivity.
  - simpl. intros [H|[]]. discriminate H.
  - discriminate.
Defined.

(** C6, where the code departs from it. Session 7 says HELLO and is created;
    a second HELLO is a protocol violation: the server replies GOODBYE and
    marks the session inactive, but the record stays in the table. A DATA
    message that arrives later under the same id is handled against that
    record (it is answered with ALIVE and moves [expected_seq] from 1 to 2),
    and the idle sweep never removes the record, being inactive: eleven
    seconds later it is still there. *)
Theorem violated_session_stays_in_table :
  let hello := Some (datagram CMD_HELLO 0 7 1 1000 [], peer) in
  let data := Some (datagram CMD_DATA 1 7 5 1000 [x68; x69], peer) in
  let violated := Server.run_loop ascii_text [hello; hello] (fresh_server, quiet_world) in
  let later := Server.run_loop ascii_text [hello; hello; data] (fresh_server, quiet_world) in
  let idle := Server.run_loop ascii_text [hello; hello; None; None]
                              (fresh_server, late_world 4) in
  (replies violated = [Some (CMD_HELLO, 0); Some (CMD_GOODBYE, 1)] /\
   Server.sessions (fst (snd violated))
   = [(7, Server.mkSession 7 peer 1 1700000000 false 4)]) /\
  (replies later = [Some (CMD_HELLO, 0); Some (CMD_GOODBYE, 1); Some (CMD_ALIVE, 1)] /\
   Server.sessions (fst (snd later))
   = [(7, Server.mkSession 7 peer 2 1700000000 false 7)]) /\
  (replies idle = [Some (CMD_HELLO, 0); Some (CMD_GOODBYE, 1)] /\
   Server.sessions (fst (snd idle))
   = [(7, Server.mkSession 7 peer 1 1700000000 false 4)]).
Proof.
  cbv zeta. repeat split; vm_compute; reflexivity.
Qed.

(** C9, where the code departs from it. Session 7 says HELLO and then sends
    DATA whose clock field is three below the largest 64-bit value; the
    server answers both, and the session's clock is then the largest 64-bit
    value. Eleven seconds later the sweep finds the session idle and active,
    prints the timeout and builds the GOODBYE, whose clock no longer fits:
    [struct.pack] raises out of the sweep and out of the loop of [run], no
    GOODBYE is sent, and the session is still in the table, still active. *)
Theorem idle_session_with_clock_at_limit_raises :
  let hello := Some (datagram CMD_HELLO 0 7 1 1000 [], peer) in
  let data := Some (datagram CMD_DATA 1 7 (2 ^ 64 - 3) 1000 [], peer) in
  let before := Server.run_loop ascii_text [hello; data] (fresh_server, late_world 6) in
  let after := Server.sweep (snd before) in
  (fst before = Return tt /\
   replies before = [Some (CMD_HELLO, 0); Some (CMD_ALIVE, 1)] /\
   Server.sessions (fst (snd before))
   = [(7, Server.mkSession 7 peer 2 1700000000 true (2 ^ 64 - 1))]) /\
  (fst after = Raise StructError /\
   fst (Server.run_loop ascii_text [hello; data; None] (fresh_server, late_world 6))
   = Raise StructError /\
   replies after = replies before /\
   printed (events (snd (snd after)))
   = printed (events (snd (snd before))) ++ [LogTimeout 7] /\
   Server.sessions (fst (snd after))
   = [(7, Server.mkSession 7 peer 2 1700000000 true (2 ^ 64))]).
Proof.
  cbv zeta. repeat split; vm_compute; reflexivity.
Qed.

End TableExamples.

(** * The client: what the listener and the watchdog do to the flags *)

Section ClientFlags.
Import Wire Effects.

(** A GOODBYE datagram, as the server decodes datagrams. *)
Definition is_goodbye (e : Event) : bool :=
  match e with
  | SendTo d _ =>
      match Server.parse_message d with
      | Some (command, _, _, _, _, _) => command =? CMD_GOODBYE
      | None => false
      end
  | Print _ => false
  end.

Definition goodbyes (l : list Event) : list Event := filter is_goodbye l.

(** A statement keeps [pending_ack] when it leaves the flag as it found it. *)
Definition keeps_pending_ack {A} (m : M Client.UDPClient A) : Prop :=
  forall c w, Client.pending_ack (fst (snd (m (c, w)))) = Client.pending_ack c.

Lemma goodbyes_snoc (l : list Event) (e : Event) :
  is_goodbye e = false -> goodbyes (l ++ [e]) = goodbyes l.
Proof.
  intros He. unfold goodbyes. rewrite filter_app. cbn [filter]. rewrite He.
  apply app_nil_r.
Qed.

Lemma keeps_ret {A} (a : A) : keeps_pending_ack (ret a).
Proof. intros c w. reflexivity. Qed.

Lemma keeps_get : keeps_pending_ack get.
Proof. intros c w. reflexivity. Qed.

Lemma keeps_time : keeps_pending_ack time_time.
Proof. intros c w. reflexivity. Qed.

Lemma keeps_print (m : LogMsg) : keeps_pending_ack (print m).
Proof. intros c w. reflexivity. Qed.

Lemma keeps_modify (f : Client.UDPClient -> Client.UDPClient) :
  (forall c, Client.pending_ack (f c) = Client.pending_ack c) ->
  keeps_pending_ack (modify f).
Proof. intros Hf c w. cbn. apply Hf. Qed.

Lemma keeps_bind {A B} (m : M Client.UDPClient A) (k : A -> M Client.UDPClient B) :
  keeps_pending_ack m -> (forall a, keeps_pending_ack (k a)) ->
  keeps_pending_ack (bind m k).
Proof.
  intros Hm Hk c w. unfold bind. specialize (Hm c w).
  destruct (m (c, w)) as [[a|e] [c1 w1]]; cbn [fst snd] in *.
  - rewrite Hk. exact Hm.
  - exact Hm.
Qed.

Lemma keeps_listen_clock (h : Client.Header) : keeps_pending_ack (Client.listen_clock h).
Proof.
  destruct h as [[[command seq_num] logical_clock] timestamp]. intros c w.
  unfold Client.listen_clock, bind. rewrite client_update_clock_eq. reflexivity.
Qed.

Lemma keeps_listen_fsm (h : Client.Header) : keeps_pending_ack (Client.listen_fsm h).
Proof.
  destruct h as [[[command seq_num] logical_clock] timestamp]. unfold Client.listen_fsm.
  apply keeps_bind; [apply keeps_get|]. intros c.
  destruct (_ && _).
  { repeat (apply keeps_bind; [apply keeps_modify; auto|]; intros _). apply keeps_print. }
  destruct (_ && _).
  { repeat (apply keeps_bind; [apply keeps_modify; auto|]; intros _).
    apply keeps_bind; [apply keeps_time|]. intros now. apply keeps_print. }
  destruct (_ =? _); [|apply keeps_ret].
  apply keeps_bind; [apply keeps_print|]. intros _. apply keeps_modify. auto.
Qed.

(** The statements of the listener after a datagram never raise. *)
Lemma listen_statements_return (h : Client.Header) (c : Client.UDPClient) (w : World) :
  fst ((Client.listen_ack ;; Client.listen_clock h ;; Client.listen_fsm h) (c, w))
  = Return tt.
Proof.
  destruct h as [[[command seq_num] logical_clock] timestamp].
  unfold Client.listen_ack, Client.listen_clock, Client.listen_fsm.
  unfold bind at 1. cbn [modify fst snd]. unfold bind at 1. unfold bind at 1.
  rewrite client_update_clock_eq. cbn [ret]. unfold bind at 1. cbn [get fst].
  destruct (_ && _); [reflexivity|]. destruct (_ && _); [reflexivity|].
  destruct (_ =? _); reflexivity.
Qed.

(** The watchdog does nothing when [pending_ack] is not set, whatever the
    time. *)
Lemma check_timeout_turn_disarmed (c : Client.UDPClient) (w : World) :
  Client.pending_ack c = false ->
  Client.check_timeout_turn (c, w) = (Return tt, (c, w)).
Proof.
  intros H. unfold Client.check_timeout_turn, bind. cbn [get fst]. rewrite H. reflexivity.
Qed.

(** C10. Every datagram the client decodes (right magic and version, its own
    session id) clears [pending_ack] as the first thing the listener does
    with it, before any look at the command or at [self.state]: the turn of
    the listener is the statement [self.pending_ack = False] followed by the
    clock merge and the state machine, it returns, and whatever the command
    and the state (a GOODBYE, or a HELLO or ALIVE the client is not waiting
    for included) [pending_ack] is false afterwards, so that the watchdog's
    check then does nothing at any reading of the clock. *)
Theorem decoded_datagram_clears_pending_ack
        (c : Client.UDPClient) (w : World) (data payload : bytes) (header : Client.Header) :
  Client.parse_message c data = Some (header, payload) ->
  let result := Client.listen_turn (Some data) (c, w) in
  let c' := fst (snd result) in
  result = (Client.listen_ack ;; Client.listen_clock header ;; Client.listen_fsm header) (c, w) /\
  Client.listen_ack (c, w) = (Return tt, (Client.set_pending_ack false c, w)) /\
  fst result = Return tt /\
  Client.pending_ack c' = false /\
  (forall w', Client.check_timeout_turn (c', w') = (Return tt, (c', w'))).
Proof.
  intros Hparse result c'.
  assert (Hturn : result
    = (Client.listen_ack ;; Client.listen_clock header ;; Client.listen_fsm header) (c, w)).
  { unfold result, Client.listen_turn. unfold bind at 1. cbn [get fst]. rewrite Hparse.
    reflexivity. }
  assert (Hack : Client.pending_ack c' = false).
  { unfold c'. rewrite Hturn. unfold bind at 1. unfold Client.listen_ack at 1.
    cbn [modify fst snd].
    rewrite (keeps_bind _ _ (keeps_listen_clock header) (fun _ => keeps_listen_fsm header)).
    reflexivity. }
  split; [exact Hturn|]. split; [reflexivity|]. split.
  - rewrite Hturn. apply listen_statements_return.
  - split; [exact Hack|]. intros w'. apply check_timeout_turn_disarmed. exact Hack.
Qed.

End ClientFlags.


(** * The client: its three threads *)

(** Taking a configuration apart, and running steps on it. *)
Ltac open_config cfg :=
  let c := fresh "c" in let w := fresh "w" in
  let mpc := fresh "mpc" in let lpc := fresh "lpc" in let wpc := fresh "wpc" in
  destruct cfg as [c w mpc lpc wpc];
  cbn [Client.client Client.world Client.main Client.listener Client.watchdog] in *.

Ltac run_step :=
  cbv beta iota zeta delta
      [Client.steps fold_left repeat
       Client.step Client.main_step Client.send_step Client.interrupt_step
       Client.listener_step Client.watchdog_step
       Client.at_main Client.at_listener Client.at_watchdog
       Client.store Client.does Client.read_clock Client.reading Client.exec
       Effects.modify Effects.emit Effects.time_time fst snd
       Client.client Client.world Client.main Client.listener Client.watchdog
       Client.after_send].

(** The same for the innermost run of steps only: a step that stops at a test
    it cannot decide must be settled before the next ones are run. *)
Ltac run_inner :=
  match goal with
  | |- context [Client.steps ?e ?l ?x] =>
      lazymatch x with
      | Client.steps _ _ _ => fail
      | _ =>
          let y := eval cbv beta iota zeta delta
                        [Client.steps fold_left repeat
                         Client.step Client.main_step Client.send_step Client.interrupt_step
                         Client.listener_step Client.watchdog_step
                         Client.at_main Client.at_listener Client.at_watchdog
                         Client.store Client.does Client.read_clock Client.reading Client.exec
                         Effects.modify Effects.emit Effects.time_time fst snd
                         Client.client Client.world Client.main Client.listener
                         Client.watchdog Client.after_send]
                   in (Client.steps e l x) in
          change (Client.steps e l x) with y
      end
  end.

(** One step, the earliest that has not been run. *)
Ltac run_one :=
  match goal with
  | |- context [Client.step ?e ?a ?x] =>
      lazymatch x with
      | Client.step _ _ _ => fail
      | _ =>
          let y := eval cbv beta iota zeta delta
                        [Client.step Client.main_step Client.send_step Client.interrupt_step
                         Client.listener_step Client.watchdog_step
                         Client.at_main Client.at_listener Client.at_watchdog
                         Client.store Client.does Client.read_clock Client.reading Client.exec
                         Effects.modify Effects.emit Effects.time_time fst snd
                         Client.client Client.world Client.main Client.listener
                         Client.watchdog Client.after_send]
                   in (Client.step e a x) in
          change (Client.step e a x) with y
      end
  end;
  cbn [Client.state Client.running Client.pending_ack Client.logical_clock Client.seq_num
       Client.session_id Client.server_addr Client.timeout Client.last_sent_time
       Client.expected_seq
       Client.set_state Client.set_running Client.set_pending_ack Client.set_logical_clock
       Client.set_seq_num Client.set_last_sent_time
       Effects.now_at Effects.reads Effects.events].

Section ThreadFacts.
Import Wire Effects.
Variable encode_utf8 : string -> bytes.

Lemma client_send_message_eq (command : Z) (data : bytes)
      (c : Client.UDPClient) (w : World) :
  Client.send_message command data (c, w)
  = match struct_pack MAGIC VERSION command (Client.seq_num c) (Client.session_id c)
                      (Client.logical_clock c + 1) (timestamp_in w) with
    | Some header =>
        (Return (Client.seq_num c),
         (Client.set_pending_ack true
            (Client.set_last_sent_time (now_at w (S (reads w)))
               (Client.set_logical_clock (Client.logical_clock c + 1) c)),
          tick_world (emit_world (SendTo (header ++ data) (Client.server_addr c))
                                 (tick_world w))))
    | None =>
        (Raise StructError,
         (Client.set_logical_clock (Client.logical_clock c + 1) c, tick_world w))
    end.
Proof.
  unfold Client.send_message. unfold bind at 1. rewrite client_create_message_eq.
  cbv zeta. destruct (struct_pack _ _ _ _ _ _ _); reflexivity.
Qed.

(** The actions on a configuration, written out. *)
Lemma store_eq (f : Client.UDPClient -> Client.UDPClient) (cfg : Client.Config) :
  Client.store f cfg
  = Client.mkConfig (f (Client.client cfg)) (Client.world cfg)
                    (Client.main cfg) (Client.listener cfg) (Client.watchdog cfg).
Proof. reflexivity. Qed.

Lemma does_eq (e : Event) (cfg : Client.Config) :
  Client.does e cfg
  = Client.mkConfig (Client.client cfg) (emit_world e (Client.world cfg))
                    (Client.main cfg) (Client.listener cfg) (Client.watchdog cfg).
Proof. reflexivity. Qed.

Lemma read_clock_eq (cfg : Client.Config) :
  Client.read_clock cfg
  = Client.mkConfig (Client.client cfg) (tick_world (Client.world cfg))
                    (Client.main cfg) (Client.listener cfg) (Client.watchdog cfg).
Proof. reflexivity. Qed.

(** Steps of one thread in a row. *)
Definition alone (a : Client.Action) (n : nat) : list Client.Action := repeat a n.

Lemma steps_cons (a : Client.Action) (l : list Client.Action) (cfg : Client.Config) :
  Client.steps encode_utf8 (a :: l) cfg
  = Client.steps encode_utf8 l (Client.step encode_utf8 a cfg).
Proof. reflexivity. Qed.

Lemma steps_app (l1 l2 : list Client.Action) (cfg : Client.Config) :
  Client.steps encode_utf8 (l1 ++ l2) cfg
  = Client.steps encode_utf8 l2 (Client.steps encode_utf8 l1 cfg).
Proof. unfold Client.steps. apply fold_left_app. Qed.

(** [send_message], when no other thread moves during the call, does what the
    method does run as a whole. *)
Lemma send_message_alone (k : Client.Sending) (line : string) (cfg : Client.Config) :
  Client.main cfg = Client.M_SEND k Client.S_CLOCK_READ ->
  Client.steps encode_utf8 (alone (Client.Main line) 11) cfg
  = match Client.exec (Client.send_message (Client.sending_command k)
                                           (Client.payload_of encode_utf8 k)) cfg with
    | (Return _, cfg') => Client.at_main (Client.after_send k) cfg'
    | (Raise _, cfg') => Client.at_main Client.M_EXIT cfg'
    end.
Proof.
  intros Hpc. open_config cfg. subst mpc.
  unfold Client.exec. cbn [Client.client Client.world Client.main Client.listener
                           Client.watchdog].
  rewrite client_send_message_eq. unfold timestamp_in.
  change (alone (Client.Main line) 11)
    with (alone (Client.Main line) 5 ++ [Client.Main line] ++ alone (Client.Main line) 5).
  rewrite !steps_app. unfold alone.
  run_inner. run_inner.
  cbn [Client.logical_clock Client.seq_num Client.session_id Client.set_logical_clock
       now_at reads].
  destruct (struct_pack MAGIC VERSION (Client.sending_command k) (Client.seq_num c)
                        (Client.session_id c) (Client.logical_clock c + 1)
                        (int_of_Q (now_at w (reads w) * 1000)))
    as [h|]; run_step; [destruct k|]; reflexivity.
Qed.

(** A step of another thread than the main one, while the process lives. *)
Lemma step_listener (incoming : option bytes) (cfg : Client.Config) :
  Client.main cfg <> Client.M_EXIT ->
  Client.step encode_utf8 (Client.Listener incoming) cfg = Client.listener_step incoming cfg.
Proof. intros H. unfold Client.step. destruct (Client.main cfg); congruence. Qed.

Lemma step_watchdog (cfg : Client.Config) :
  Client.main cfg <> Client.M_EXIT ->
  Client.step encode_utf8 Client.Watchdog cfg = Client.watchdog_step cfg.
Proof. intros H. unfold Client.step. destruct (Client.main cfg); congruence. Qed.

(** A turn of the listener, when no other thread moves during it, does what
    [listen_turn] does run as a whole. *)
Lemma listen_turn_alone (data : bytes) (cfg : Client.Config) :
  Client.listener cfg = Client.L_RECV ->
  Client.main cfg <> Client.M_EXIT ->
  exists n,
    Client.steps encode_utf8 (Client.Listener (Some data) :: alone (Client.Listener None) n) cfg
    = Client.at_listener Client.L_WHILE
        (snd (Client.exec (Client.listen_turn (Some data)) cfg)).
Proof.
  intros Hpc Hlive. open_config cfg. subst lpc.
  unfold Client.exec, Client.listen_turn.
  cbn [Client.client Client.world Client.main Client.listener Client.watchdog].
  unfold bind at 1. cbn [get fst].
  destruct (Client.parse_message c data) as [[[[[command seq_num] clock] timestamp] payload]|]
    eqn:Hparse.
  - unfold bind at 1. unfold Client.listen_ack at 1. cbn [modify fst snd].
    unfold bind at 1. unfold Client.listen_clock. unfold bind at 1.
    rewrite client_update_clock_eq. cbn [ret merged].
    unfold Client.listen_fsm. unfold bind at 1. cbn [get fst].
    cbn [Client.state Client.set_logical_clock Client.set_pending_ack].
    destruct ((command =? CMD_HELLO) && Client.State_eqb (Client.state c) Client.WAIT_HELLO)
      eqn:Ehello;
      [|destruct ((command =? CMD_ALIVE) && Client.State_eqb (Client.state c) Client.WAIT_ALIVE)
          eqn:Ealive; [|destruct (command =? CMD_GOODBYE) eqn:Ebye]];
      [exists 11%nat | exists 12%nat | exists 9%nat | exists 7%nat];
      cbn [alone repeat]; rewrite !steps_cons; destruct mpc; try congruence;
      repeat (run_one; rewrite ?Hparse, ?Ehello, ?Ealive, ?Ebye);
      reflexivity.
  - exists 0%nat. cbn [alone repeat]. rewrite !steps_cons. destruct mpc; try congruence;
      run_one; rewrite Hparse; reflexivity.
Qed.

(** The check of the watchdog, when no other thread moves during it, does
    what [check_timeout_turn] does run as a whole. *)
Lemma check_timeout_alone (cfg : Client.Config) :
  Client.watchdog cfg = Client.W_IF ->
  Client.main cfg <> Client.M_EXIT ->
  exists n,
    Client.steps encode_utf8 (alone Client.Watchdog (S n)) cfg
    = Client.at_watchdog Client.W_WHILE
        (snd (Client.exec Client.check_timeout_turn cfg)).
Proof.
  intros Hpc Hlive. open_config cfg. subst wpc.
  unfold Client.exec, Client.check_timeout_turn.
  cbn [Client.client Client.world Client.main Client.listener Client.watchdog].
  unfold bind at 1. cbn [get fst].
  destruct (Client.pending_ack c) eqn:Hack.
  - unfold bind at 1. cbn [time_time fst snd].
    destruct (Qgtb (now_at w (reads w) - Client.last_sent_time c) (Client.timeout c)) eqn:Hlate;
      [exists 4%nat | exists 2%nat];
      cbn [alone repeat]; rewrite !steps_cons; destruct mpc; try congruence;
      repeat (run_one; rewrite ?Hack, ?Hlate);
      reflexivity.
  - exists 0%nat. cbn [alone repeat]. rewrite !steps_cons. destruct mpc; try congruence;
      run_one; rewrite Hack; reflexivity.
Qed.

End ThreadFacts.

(** * The client: the acknowledgement timeout *)

Section AckTimeout.
Import Wire Effects.
Variable encode_utf8 : string -> bytes.

(** A GOODBYE datagram, as the server decodes datagrams. *)
Definition goodbye_datagram (d : bytes) : bool :=
  match Server.parse_message d with
  | Some (command, _, _, _, _, _) => command =? CMD_GOODBYE
  | None => false
  end.

(** Inside [send_message], before the datagram is built. *)
Definition building (p : Client.SendPC) : bool :=
  match p with
  | Client.S_CLOCK_READ | Client.S_CLOCK_WRITE _ | Client.S_CLOCK_RET
  | Client.S_TIME _ | Client.S_SEQ _ _ | Client.S_PACK _ _ _ => true
  | _ => false
  end.

(** The main thread has a GOODBYE to send: it is inside
    [send_message(CMD_GOODBYE)], after the test [if self.running] of [run] and
    before [sendto], or it holds a GOODBYE datagram that it is about to
    send. *)
Definition goodbye_under_way (pc : Client.MainPC) : bool :=
  match pc with
  | Client.M_SEND _ (Client.S_SENDTO message) => goodbye_datagram message
  | Client.M_SEND Client.K_GOODBYE p => building p
  | _ => false
  end.

(** Once [running] is false and the main thread has no GOODBYE to send, it
    stays so. *)
Definition stopped (cfg : Client.Config) : Prop :=
  Client.running (Client.client cfg) = false /\
  goodbye_under_way (Client.main cfg) = false.

Definition goodbyes_of (cfg : Client.Config) : list Event :=
  goodbyes (events (Client.world cfg)).

Lemma goodbyes_said (e : Event) (w : World) :
  is_goodbye e = false -> goodbyes (events (emit_world e w)) = goodbyes (events w).
Proof. intros H. cbn [emit_world events]. apply goodbyes_snoc. exact H. Qed.

Lemma goodbye_packed (k : Client.Sending) (seq_num session_id clock timestamp : Z)
      (h data : bytes) :
  struct_pack MAGIC VERSION (Client.sending_command k) seq_num session_id clock timestamp
  = Some h ->
  goodbye_datagram (h ++ data) = (Client.sending_command k =? CMD_GOODBYE).
Proof.
  intros Hp. unfold goodbye_datagram. rewrite (server_parse_packed _ _ _ _ _ _ data Hp).
  reflexivity.
Qed.

Ltac settle :=
  cbn [Client.running Client.set_state Client.set_running Client.set_pending_ack
       Client.set_logical_clock Client.set_seq_num Client.set_last_sent_time
       goodbye_under_way building events emit_world tick_world];
  repeat match goal with
         | |- _ /\ _ => split
         | |- goodbyes (_ ++ [_]) = goodbyes _ => apply goodbyes_snoc
         end;
  try assumption; try reflexivity.

Lemma step_stopped (a : Client.Action) (cfg : Client.Config) :
  stopped cfg ->
  stopped (Client.step encode_utf8 a cfg) /\
  goodbyes_of (Client.step encode_utf8 a cfg) = goodbyes_of cfg.
Proof.
  unfold stopped, goodbyes_of. intros [Hrun Hpc]. open_config cfg.
  destruct a as [typed| |incoming|].
  - destruct mpc as [|k p| | | | |l|l| | | | |]; [|destruct p| | | | | | | | | | |];
      run_step; rewrite ?Hrun;
      try destruct (Client.State_eqb _ _); try destruct (Client.is_quit _);
      try (destruct (struct_pack _ _ _ _ _ _ _) as [h|] eqn:Hp;
           [cbn [goodbye_under_way]; rewrite (goodbye_packed _ _ _ _ _ _ _ Hp)|]);
      try (destruct k; try discriminate Hpc); settle.
  - destruct mpc as [|k p| | | | |l|l| | | | |]; [|destruct k| | | | | | | | | | |];
      run_step; settle.
  - destruct mpc; try (run_step; settle; fail);
      destruct lpc as [| |h|h|h m|h|h t|h|h|a|a|a t| |ts|lat| | |];
      try destruct h as [[[command sq] clk] ts'];
      run_step; rewrite ?Hrun;
      try (destruct incoming as [data|];
           [destruct (Client.parse_message c data) as [[hh ?]|]|]);
      try (destruct (_ && _); [|destruct (_ && _); [|destruct (_ =? _)]]);
      try destruct a;
      settle.
  - destruct mpc; try (run_step; settle; fail);
      destruct wpc; run_step; rewrite ?Hrun;
      try destruct (Client.pending_ack _); try destruct (Qgtb _ _);
      settle.
Qed.

Lemma steps_stopped (schedule : list Client.Action) (cfg : Client.Config) :
  stopped cfg ->
  stopped (Client.steps encode_utf8 schedule cfg) /\
  goodbyes_of (Client.steps encode_utf8 schedule cfg) = goodbyes_of cfg.
Proof.
  revert cfg. induction schedule as [|a rest IH]; intros cfg Hs.
  - split; [exact Hs | reflexivity].
  - cbn [Client.steps fold_left]. destruct (step_stopped a cfg Hs) as [Hs' Hg'].
    destruct (IH _ Hs') as [Hs'' Hg'']. split; [exact Hs''|].
    unfold Client.steps in Hg''. congruence.
Qed.

(** How many actions of its own the main thread has left at most, once
    [running] is false and it has no GOODBYE to send. *)
Definition send_rank (p : Client.SendPC) : nat :=
  match p with
  | Client.S_RETURN => 1
  | Client.S_PENDING => 2
  | Client.S_LAST_SENT _ => 3
  | Client.S_SENT_TIME => 4
  | Client.S_SENDTO _ => 5
  | Client.S_PACK _ _ _ => 6
  | Client.S_SEQ _ _ => 7
  | Client.S_TIME _ => 8
  | Client.S_CLOCK_RET => 9
  | Client.S_CLOCK_WRITE _ => 10
  | Client.S_CLOCK_READ => 11
  end.

Definition rank (pc : Client.MainPC) : nat :=
  match pc with
  | Client.M_EXIT => 0
  | Client.M_EOF => 1
  | Client.M_STOP => 2
  | Client.M_SLEEP | Client.M_IF_RUNNING => 3
  | Client.M_WHILE => 4
  | Client.M_SENT _ | Client.M_STARTED => 5
  | Client.M_SEND Client.K_GOODBYE p => 3 + send_rank p
  | Client.M_SEND _ p => 5 + send_rank p
  | Client.M_SET_ALIVE _ | Client.M_SET_HELLO => 17
  | Client.M_READLINE => 18
  | Client.M_IF_READY => 19
  end.

(** The actions of the main thread among the steps of a schedule. *)
Definition count_main (schedule : list Client.Action) : nat :=
  length (filter (fun a => match a with Client.Main _ => true | _ => false end) schedule).

Lemma rank_0 (pc : Client.MainPC) : rank pc = 0%nat -> pc = Client.M_EXIT.
Proof.
  destruct pc as [|k p| | | | |l|l| | | | |]; cbn; intros H; try discriminate;
    try reflexivity.
  destruct k, p; cbn in H; discriminate.
Qed.

Lemma rank_bound (pc : Client.MainPC) : (rank pc <= 19)%nat.
Proof.
  destruct pc as [|k p| | | | |l|l| | | | |]; cbn; try lia.
  destruct k, p; cbn; lia.
Qed.

Lemma step_rank (a : Client.Action) (cfg : Client.Config) :
  stopped cfg ->
  (rank (Client.main (Client.step encode_utf8 a cfg)) <= rank (Client.main cfg))%nat /\
  (forall typed, a = Client.Main typed ->
     (rank (Client.main (Client.step encode_utf8 a cfg)) < rank (Client.main cfg))%nat \/
     Client.main cfg = Client.M_EXIT).
Proof.
  unfold stopped. intros [Hrun Hpc]. open_config cfg.
  destruct a as [typed| |incoming|].
  - assert (H : (rank (Client.main (Client.step encode_utf8 (Client.Main typed)
                                      (Client.mkConfig c w mpc lpc wpc))) < rank mpc)%nat
                \/ mpc = Client.M_EXIT).
    { destruct mpc as [|k p| | | | |l|l| | | | |]; [|destruct p| | | | | | | | | | |];
        try (right; reflexivity); left;
        run_step; rewrite ?Hrun;
        try destruct (Client.State_eqb _ _); try destruct (Client.is_quit _);
        try destruct (struct_pack _ _ _ _ _ _ _);
        try (destruct k; try discriminate Hpc); cbn; lia. }
    split; [|intros ? _; exact H].
    destruct H as [H|H]; [lia|]. subst mpc. run_step. lia.
  - split; [|intros ? H; discriminate H].
    destruct mpc as [|k p| | | | |l|l| | | | |]; [|destruct k, p| | | | | | | | | | |];
      run_step; cbn; lia.
  - split; [|intros ? H; discriminate H].
    destruct mpc; try (run_step; lia);
      destruct lpc as [| |h|h|h m|h|h t|h|h|a|a|a t| |ts|lat| | |];
      try destruct h as [[[command sq] clk] ts'];
      run_step;
      try destruct (Client.running _);
      try (destruct incoming as [data|];
           [destruct (Client.parse_message c data) as [[hh ?]|]|]);
      try (destruct (_ && _); [|destruct (_ && _); [|destruct (_ =? _)]]);
      cbn [Client.main]; lia.
  - split; [|intros ? H; discriminate H].
    destruct mpc; try (run_step; lia);
      destruct wpc; run_step;
      try destruct (Client.running _);
      try destruct (Client.pending_ack _); try destruct (Qgtb _ _);
      cbn [Client.main]; lia.
Qed.

Lemma step_exit (a : Client.Action) (cfg : Client.Config) :
  Client.main cfg = Client.M_EXIT -> Client.step encode_utf8 a cfg = cfg.
Proof. intros H. unfold Client.step. rewrite H. reflexivity. Qed.

(** Once stopped, the main thread is over after as many of its own actions
    as its rank, whatever the other threads do in between. *)
Lemma steps_exit (schedule : list Client.Action) (cfg : Client.Config) :
  stopped cfg ->
  (rank (Client.main cfg) <= count_main schedule)%nat ->
  Client.main (Client.steps encode_utf8 schedule cfg) = Client.M_EXIT.
Proof.
  revert cfg. induction schedule as [|a rest IH]; intros cfg Hs Hrank.
  - cbn in *. apply rank_0. lia.
  - cbn [Client.steps fold_left]. fold (Client.steps encode_utf8 rest).
    destruct (step_stopped a cfg Hs) as [Hs' _].
    destruct (step_rank a cfg Hs) as [Hle Hlt].
    apply IH; [exact Hs'|].
    destruct a as [typed| |incoming|]; unfold count_main in *; cbn [filter length] in *;
      try lia.
    destruct (Hlt typed eq_refl) as [H|H]; [lia|].
    rewrite (step_exit _ _ H), H. cbn. lia.
Qed.

(** The other threads: a stretch of a schedule in which the watchdog does not
    move. *)
Definition is_watchdog (a : Client.Action) : bool :=
  match a with
  | Client.Watchdog => true
  | _ => false
  end.

Definition others (d : list Client.Action) : Prop :=
  forallb (fun a => negb (is_watchdog a)) d = true.

Lemma step_others (a : Client.Action) (cfg : Client.Config) :
  is_watchdog a = false ->
  Client.watchdog (Client.step encode_utf8 a cfg) = Client.watchdog cfg.
Proof.
  intros Ha. open_config cfg.
  destruct a as [typed| |incoming|]; [| | |discriminate Ha].
  - destruct mpc as [|k p| | | | |l|l| | | | |]; [|destruct p| | | | | | | | | | |];
      run_step;
      try destruct (Client.running _); try destruct (Client.State_eqb _ _);
      try destruct (Client.is_quit _); try destruct (struct_pack _ _ _ _ _ _ _);
      reflexivity.
  - destruct mpc as [|k p| | | | |l|l| | | | |]; [|destruct k| | | | | | | | | | |];
      run_step; reflexivity.
  - destruct mpc; try (run_step; reflexivity);
      destruct lpc as [| |h|h|h m|h|h t|h|h|a|a|a t| |ts|lat| | |];
      try destruct h as [[[command sq] clk] ts'];
      run_step;
      try destruct (Client.running _);
      try (destruct incoming as [data|];
           [destruct (Client.parse_message c data) as [[hh ?]|]|]);
      try (destruct (_ && _); [|destruct (_ && _); [|destruct (_ =? _)]]);
      reflexivity.
Qed.

Lemma steps_others (d : list Client.Action) (cfg : Client.Config) :
  others d ->
  Client.watchdog (Client.steps encode_utf8 d cfg) = Client.watchdog cfg.
Proof.
  unfold others. revert cfg. induction d as [|a d IH]; intros cfg Hd; [reflexivity|].
  cbn [forallb] in Hd. apply andb_prop in Hd. destruct Hd as [Ha Hd].
  rewrite steps_cons, (IH _ Hd). apply step_others.
  destruct (is_watchdog a); [discriminate Ha | reflexivity].
Qed.

(** When the main thread is over, so is the process. *)
Lemma steps_over (schedule : list Client.Action) (cfg : Client.Config) :
  Client.main cfg = Client.M_EXIT -> Client.steps encode_utf8 schedule cfg = cfg.
Proof.
  induction schedule as [|a rest IH]; intros H; [reflexivity|].
  rewrite steps_cons, (step_exit a cfg H). exact (IH H).
Qed.

Lemma alive_before (schedule : list Client.Action) (cfg : Client.Config) :
  Client.main (Client.steps encode_utf8 schedule cfg) <> Client.M_EXIT ->
  Client.main cfg <> Client.M_EXIT.
Proof. intros H Hexit. apply H. rewrite (steps_over _ _ Hexit). exact Hexit. Qed.

Lemma alive_before_step (a : Client.Action) (cfg : Client.Config) :
  Client.main (Client.step encode_utf8 a cfg) <> Client.M_EXIT ->
  Client.main cfg <> Client.M_EXIT.
Proof. intros H Hexit. apply H. rewrite (step_exit _ _ Hexit). exact Hexit. Qed.

(** C7, as the code has it. A client in state WAIT_HELLO or WAIT_ALIVE whose
    watchdog, at its check (line 100), loads [pending_ack] and finds it set,
    reads the clock, loads [last_sent_time] and finds more than [timeout]
    (5 s by default) between the two; the other threads may take any actions
    between those of the watchdog ([d1] to [d4]). The watchdog then prints
    the timeout and clears [running]. If at the moment [running] is cleared
    the process is alive and the main thread has no GOODBYE under way (it
    does not stand inside [send_message(CMD_GOODBYE)] before [sendto], after
    the test [if self.running] of a voluntary exit found [running] true),
    then from that moment on, in whatever order the three threads take their
    actions and whatever arrives or is typed, [running] stays false, the main
    thread gets no GOODBYE to send, no GOODBYE datagram is sent, and the main
    thread has ended once it has run nineteen actions of its own. A voluntary
    quit does send GOODBYE: a quit line read while [running] is true takes
    the main thread, when its actions follow one another and the message can
    be packed, through one [sendto] of a GOODBYE to [time.sleep(0.5)]. *)
Theorem ack_timeout_stops_without_goodbye
        (cfg : Client.Config) (d1 d2 d3 d4 schedule : list Client.Action) :
  others d1 -> others d2 -> others d3 -> others d4 ->
  Client.watchdog cfg = Client.W_IF ->
  Client.state (Client.client cfg) = Client.WAIT_HELLO \/
  Client.state (Client.client cfg) = Client.WAIT_ALIVE ->
  Client.pending_ack (Client.client cfg) = true ->
  let timing := Client.steps encode_utf8 d1 (Client.step encode_utf8 Client.Watchdog cfg) in
  let comparing :=
    Client.steps encode_utf8 d2 (Client.step encode_utf8 Client.Watchdog timing) in
  (Client.timeout (Client.client comparing)
   < Client.reading timing - Client.last_sent_time (Client.client comparing))%Q ->
  let printing :=
    Client.steps encode_utf8 d3 (Client.step encode_utf8 Client.Watchdog comparing) in
  let printed := Client.step encode_utf8 Client.Watchdog printing in
  let clearing := Client.steps encode_utf8 d4 printed in
  Client.main clearing <> Client.M_EXIT ->
  goodbye_under_way (Client.main clearing) = false ->
  let fired := Client.step encode_utf8 Client.Watchdog clearing in
  let final := Client.steps encode_utf8 schedule fired in
  (events (Client.world printed) = events (Client.world printing) ++ [Print LogAckTimeout] /\
   Client.running (Client.client fired) = false /\
   events (Client.world fired) = events (Client.world clearing)) /\
  (Client.running (Client.client final) = false /\
   goodbye_under_way (Client.main final) = false /\
   goodbyes (events (Client.world final)) = goodbyes (events (Client.world clearing)) /\
   ((19 <= count_main schedule)%nat -> Client.main final = Client.M_EXIT)) /\
  (forall (quitting : Client.Config) (line : string),
     let cq := Client.client quitting in
     let wq := Client.world quitting in
     Client.main quitting = Client.M_READLINE ->
     Client.is_quit line = true ->
     Client.running cq = true ->
     fits 4 (Client.seq_num cq) -> fits 4 (Client.session_id cq) ->
     fits 8 (Client.logical_clock cq + 1) -> fits 8 (timestamp_in wq) ->
     let left := Client.steps encode_utf8 (alone (Client.Main line) 13) quitting in
     Client.main left = Client.M_SLEEP /\
     exists goodbye,
       events (Client.world left) = events wq ++ [SendTo goodbye (Client.server_addr cq)] /\
       Server.parse_message goodbye
       = Some (CMD_GOODBYE, Client.seq_num cq, Client.session_id cq,
               Client.logical_clock cq + 1, timestamp_in wq, [])).
Proof.
  intros Hd1 Hd2 Hd3 Hd4 Hwatch Hstate Hack timing comparing Hlate printing printed
         clearing Halive Hpc fired final.
  (* the process was alive all along *)
  assert (Hprinted : Client.main printed <> Client.M_EXIT)
    by exact (alive_before _ _ Halive).
  assert (Hprinting : Client.main printing <> Client.M_EXIT)
    by exact (alive_before_step _ _ Hprinted).
  assert (Hcomparing : Client.main comparing <> Client.M_EXIT)
    by exact (alive_before_step _ _ (alive_before _ _ Hprinting)).
  assert (Htiming : Client.main timing <> Client.M_EXIT)
    by exact (alive_before_step _ _ (alive_before _ _ Hcomparing)).
  assert (Hcfg : Client.main cfg <> Client.M_EXIT)
    by exact (alive_before_step _ _ (alive_before _ _ Htiming)).
  (* the watchdog, action by action *)
  assert (W1 : Client.watchdog timing = Client.W_TIME).
  { unfold timing. rewrite (steps_others _ _ Hd1), (step_watchdog _ _ Hcfg).
    unfold Client.watchdog_step. rewrite Hwatch, Hack. reflexivity. }
  assert (W2 : Client.watchdog comparing = Client.W_LAST (Client.reading timing)).
  { unfold comparing. rewrite (steps_others _ _ Hd2), (step_watchdog _ _ Htiming).
    unfold Client.watchdog_step. rewrite W1. reflexivity. }
  assert (W3 : Client.watchdog printing = Client.W_PRINT).
  { unfold printing. rewrite (steps_others _ _ Hd3), (step_watchdog _ _ Hcomparing).
    unfold Client.watchdog_step. rewrite W2, (proj2 (Qgtb_true _ _) Hlate). reflexivity. }
  assert (P : printed
              = Client.at_watchdog Client.W_STOP
                  (Client.does (Print LogAckTimeout) printing)).
  { unfold printed. rewrite (step_watchdog _ _ Hprinting).
    unfold Client.watchdog_step. rewrite W3. reflexivity. }
  assert (W4 : Client.watchdog clearing = Client.W_STOP).
  { unfold clearing. rewrite (steps_others _ _ Hd4), P. reflexivity. }
  assert (F : fired
              = Client.at_watchdog Client.W_WHILE
                  (Client.store (Client.set_running false) clearing)).
  { unfold fired. rewrite (step_watchdog _ _ Halive).
    unfold Client.watchdog_step. rewrite W4. reflexivity. }
  assert (Hs : stopped fired).
  { rewrite F. split; [reflexivity | exact Hpc]. }
  destruct (steps_stopped schedule fired Hs) as [[Hrun' Hpc'] Hg'].
  fold final in Hrun', Hpc', Hg'.
  split; [split; [|split]|split].
  - rewrite P. reflexivity.
  - rewrite F. reflexivity.
  - rewrite F. reflexivity.
  - split; [exact Hrun'|]. split; [exact Hpc'|]. split.
    + unfold goodbyes_of in Hg'. rewrite Hg', F. reflexivity.
    + intros Hn. apply steps_exit; [exact Hs|].
      pose proof (rank_bound (Client.main fired)). lia.
  - intros quitting line cq wq Hmain Hquit Hrun Hseq Hsid Hclk Hts left.
    destruct fits_constants as (Hm & Hv & _ & Hcmd).
    pose proof (struct_pack_Some _ _ _ _ _ _ _ Hm Hv Hcmd Hseq Hsid Hclk Hts) as Hp.
    match type of Hp with _ = Some ?x => set (h := x) in Hp; clearbody h end.
    assert (Hleft : left
      = Client.mkConfig
          (Client.set_pending_ack true
             (Client.set_last_sent_time (now_at wq (S (reads wq)))
                (Client.set_logical_clock (Client.logical_clock cq + 1) cq)))
          (tick_world (emit_world (SendTo (h ++ []) (Client.server_addr cq)) (tick_world wq)))
          Client.M_SLEEP (Client.listener quitting) (Client.watchdog quitting)).
    { unfold left.
      change (alone (Client.Main line) 13)
        with (alone (Client.Main line) 2 ++ alone (Client.Main line) 11).
      rewrite steps_app.
      assert (H2 : Client.steps encode_utf8 (alone (Client.Main line) 2) quitting
                   = Client.at_main (Client.M_SEND Client.K_GOODBYE Client.S_CLOCK_READ)
                                    quitting).
      { subst cq wq. open_config quitting. subst mpc.
        cbn [alone repeat]. rewrite !steps_cons.
        run_one. rewrite Hquit. run_one. rewrite Hrun. reflexivity. }
      rewrite H2, (send_message_alone encode_utf8 Client.K_GOODBYE line) by reflexivity.
      unfold Client.exec.
      cbn [Client.at_main Client.client Client.world Client.main Client.listener
           Client.watchdog].
      fold cq wq. rewrite client_send_message_eq.
      cbn [Client.sending_command Client.payload_of]. rewrite Hp. reflexivity. }
    rewrite Hleft. split; [reflexivity|]. exists (h ++ []). split.
    + cbn [Client.world events emit_world tick_world]. reflexivity.
    + apply server_parse_packed. exact Hp.
Qed.

End AckTimeout.
(** * The claims at concrete inputs *)

Section Instances.
Import Wire Effects.

(** A client of session 7 that is connected and about to send its second
    message. *)
Definition server_peer : Addr := ("127.0.0.1"%string, 9000).
Definition ready_client : Client.UDPClient :=
  Client.mkClient server_peer 7 1 4 0 Client.READY true 5 1700000000 false.

(** The same client after it sent DATA and while it waits for ALIVE. *)
Definition waiting_client : Client.UDPClient :=
  Client.mkClient server_peer 7 1 5 0 Client.WAIT_ALIVE true 5 1700000000 true.

(** C1 for a DATA message of session 7 with payload "hi", in both directions. *)
Lemma encode_decode_round_trip_witness :
  (exists msg,
     fst (Client.create_message CMD_DATA [x68; x69] (ready_client, quiet_world)) = Return msg /\
     struct_unpack (firstn 28 msg)
     = Some (MAGIC, VERSION, CMD_DATA, 1, 7, 4 + 1, timestamp_in quiet_world) /\
     Server.parse_message msg
     = Some (CMD_DATA, 1, 7, 4 + 1, timestamp_in quiet_world, [x68; x69])) /\
  (exists msg,
     fst (Server.create_message CMD_DATA 1 [x68; x69] (session_at 2, quiet_world))
     = Return msg /\
     struct_unpack (firstn 28 msg)
     = Some (MAGIC, VERSION, CMD_DATA, 1, 7, 0 + 1, timestamp_in quiet_world) /\
     Client.parse_message ready_client msg
     = Some ((CMD_DATA, 1, 0 + 1, timestamp_in quiet_world), [x68; x69])).
Proof.
  apply (encode_decode_round_trip ready_client (session_at 2) quiet_world CMD_DATA 1
                                  [x68; x69]);
    try reflexivity; unfold fits; vm_compute; split; try discriminate; reflexivity.
Defined.

(** C4 for DATA(seq=1) reaching session 7 when it expects 3. *)
Lemma duplicate_data_changes_nothing_witness :
  let srv := Server.mkServer [(7, session_at 3)] true in
  let report := Print (LogDuplicate 7 1) in
  Server.handle_data ascii_text (CMD_DATA, 1, 8, 1000) [x68; x69] (session_at 3, quiet_world)
  = (Return tt, (session_at 3, emit_world report quiet_world)) /\
  Server.handle_packet ascii_text (datagram CMD_DATA 1 7 8 1000 [x68; x69]) peer
                       (srv, quiet_world)
  = (Return tt, (srv, emit_world report quiet_world)) /\
  sent (events (emit_world report quiet_world)) = sent (events quiet_world).
Proof.
  apply (duplicate_data_changes_nothing ascii_text (session_at 3)
           (Server.mkServer [(7, session_at 3)] true) quiet_world 1 8 1000 [x68; x69]
           (datagram CMD_DATA 1 7 8 1000 [x68; x69]) peer).
  - reflexivity.
  - reflexivity.
  - vm_compute. reflexivity.
Defined.

(** C10 for a GOODBYE that reaches the client while it waits for ALIVE. *)
Lemma decoded_datagram_clears_pending_ack_witness :
  let goodbye := datagram CMD_GOODBYE 1 7 9 1000 [] in
  let result := Client.listen_turn (Some goodbye) (waiting_client, quiet_world) in
  let c' := fst (snd result) in
  result
  = (Client.listen_ack ;; Client.listen_clock (CMD_GOODBYE, 1, 9, 1000) ;;
     Client.listen_fsm (CMD_GOODBYE, 1, 9, 1000)) (waiting_client, quiet_world) /\
  Client.listen_ack (waiting_client, quiet_world)
  = (Return tt, (Client.set_pending_ack false waiting_client, quiet_world)) /\
  fst result = Return tt /\
  Client.pending_ack c' = false /\
  (forall w', Client.check_timeout_turn (c', w') = (Return tt, (c', w'))).
Proof.
  apply (decoded_datagram_clears_pending_ack waiting_client quiet_world
           (datagram CMD_GOODBYE 1 7 9 1000 []) [] (CMD_GOODBYE, 1, 9, 1000)).
  vm_compute. reflexivity.
Defined.


(** A wall clock that gives 1700000000 s at its first two readings and six
    seconds more afterwards. *)
Definition six_seconds_later : World :=
  mkWorld [] (fun n => if (n <? 2)%nat then 1700000000%Q else 1700000006%Q) 0.

(** The client of session 7 from the entry of [run]: the main thread sends
    HELLO and prints (thirteen actions), the listener finds nothing to
    receive, and the watchdog comes to its check, six seconds later by the
    clock, while the main thread turns in its loop. *)
Definition unanswered_hello : Client.Config :=
  Client.steps list_byte_of_string
    (alone (Client.Main EmptyString) 13
     ++ [Client.Listener None; Client.Listener None; Client.Watchdog; Client.Watchdog])
    (Client.start (Client.UDPClient_init server_peer 7) six_seconds_later).

(** What happens next: a datagram that comes too late, the other threads, and
    the main thread leaving its loop, the user's typing notwithstanding. *)
Definition after_the_timeout : list Client.Action :=
  [Client.Listener None; Client.Listener (Some (datagram CMD_HELLO 0 7 3 1700000000000 []));
   Client.Main "hi"; Client.Listener None; Client.Watchdog; Client.Listener None;
   Client.Main "hi"; Client.Main "hi"; Client.Listener None; Client.Interrupt]
  ++ alone (Client.Main "hi") 16.

(** What the other threads do while the watchdog makes its check: the
    listener finds nothing to receive, and the main thread turns in its
    loop. *)
Definition meanwhile : list Client.Action :=
  [Client.Listener None; Client.Main "hi"].

(** C7 as the code has it, for the HELLO that is never answered, the other
    threads moving between the actions of the watchdog; the voluntary quit is
    that of any client at [readline]. *)
Lemma ack_timeout_stops_without_goodbye_witness :
  let step := Client.step list_byte_of_string in
  let steps := Client.steps list_byte_of_string in
  let timing := steps meanwhile (step Client.Watchdog unanswered_hello) in
  let comparing := steps meanwhile (step Client.Watchdog timing) in
  let printing := steps meanwhile (step Client.Watchdog comparing) in
  let printed := step Client.Watchdog printing in
  let clearing := steps meanwhile printed in
  let fired := step Client.Watchdog clearing in
  let final := steps after_the_timeout fired in
  (events (Client.world printed) = events (Client.world printing) ++ [Print LogAckTimeout] /\
   Client.running (Client.client fired) = false /\
   events (Client.world fired) = events (Client.world clearing)) /\
  (Client.running (Client.client final) = false /\
   goodbye_under_way (Client.main final) = false /\
   goodbyes (events (Client.world final)) = goodbyes (events (Client.world clearing)) /\
   ((19 <= count_main after_the_timeout)%nat -> Client.main final = Client.M_EXIT)) /\
  (forall (quitting : Client.Config) (line : string),
     let cq := Client.client quitting in
     let wq := Client.world quitting in
     Client.main quitting = Client.M_READLINE ->
     Client.is_quit line = true ->
     Client.running cq = true ->
     fits 4 (Client.seq_num cq) -> fits 4 (Client.session_id cq) ->
     fits 8 (Client.logical_clock cq + 1) -> fits 8 (timestamp_in wq) ->
     let left := Client.steps list_byte_of_string (alone (Client.Main line) 13) quitting in
     Client.main left = Client.M_SLEEP /\
     exists goodbye,
       events (Client.world left) = events wq ++ [SendTo goodbye (Client.server_addr cq)] /\
       Server.parse_message goodbye
       = Some (CMD_GOODBYE, Client.seq_num cq, Client.session_id cq,
               Client.logical_clock cq + 1, timestamp_in wq, [])).
Proof.
  apply (ack_timeout_stops_without_goodbye list_byte_of_string unanswered_hello
           meanwhile meanwhile meanwhile meanwhile after_the_timeout).
  - reflexivity.
  - reflexivity.
  - reflexivity.
  - reflexivity.
  - vm_compute. reflexivity.
  - left. vm_compute. reflexivity.
  - vm_compute. reflexivity.
  - vm_compute. reflexivity.
  - vm_compute. discriminate.
  - vm_compute. reflexivity.
Defined.

(** The client of session 7 when Ctrl-C has come while it waited for the
    reply to its HELLO: the main thread has left its loop, has found
    [running] true and has entered [send_message(CMD_GOODBYE)]; the watchdog
    comes to its check, six seconds later by the clock. *)
Definition quit_under_way : Client.Config :=
  Client.steps list_byte_of_string
    (alone (Client.Main EmptyString) 13
     ++ [Client.Interrupt; Client.Main EmptyString; Client.Watchdog; Client.Watchdog])
    (Client.start (Client.UDPClient_init server_peer 7) six_seconds_later).

(** C7, against the claim: a run from the entry of [run] in which the client
    is in WAIT_HELLO, [pending_ack] is set and more than [timeout] has
    elapsed since the last send when the watchdog makes its check; the check
    prints the timeout and clears [running], and the client sends a GOODBYE
    afterwards all the same, because the main thread had passed
    [if self.running] before. *)
Lemma goodbye_decided_before_timeout_is_sent :
  let c := Client.client quit_under_way in
  let w := Client.world quit_under_way in
  let fired := Client.steps list_byte_of_string (alone Client.Watchdog 5) quit_under_way in
  let final := Client.steps list_byte_of_string (alone (Client.Main EmptyString) 14) fired in
  (Client.state c = Client.WAIT_HELLO /\
   Client.pending_ack c = true /\
   (Client.timeout c < now_at w (reads w) - Client.last_sent_time c)%Q /\
   Client.watchdog quit_under_way = Client.W_IF) /\
  (Client.running (Client.client fired) = false /\
   events (Client.world fired) = events w ++ [Print LogAckTimeout] /\
   map (fun da => datagram_command_seq (fst da)) (sent (events (Client.world fired)))
   = [Some (CMD_HELLO, 0)]) /\
  (Client.main final = Client.M_EXIT /\
   map (fun da => datagram_command_seq (fst da)) (sent (events (Client.world final)))
   = [Some (CMD_HELLO, 0); Some (CMD_GOODBYE, 0)] /\
   printed (events (Client.world final)) = [LogStarted 7; LogAckTimeout; LogEof]).
Proof.
  cbv zeta. repeat split; vm_compute; reflexivity.
Qed.

End Instances.

(** * More on the wire format: what decodes, and to what *)

Section Decoding.
Import Wire Effects.

Lemma byte_of_Z_of_byte (b : byte) : byte_of_Z (Z_of_byte b) = b.
Proof.
  unfold byte_of_Z, Z_of_byte. rewrite N2Z.id, Byte.of_to_N. reflexivity.
Qed.

Lemma Z_of_byte_inj (a b : byte) : Z_of_byte a = Z_of_byte b -> a = b.
Proof.
  intros H. rewrite <- (byte_of_Z_of_byte a), <- (byte_of_Z_of_byte b), H. reflexivity.
Qed.

Lemma be_decode_range (l : bytes) : 0 <= be_decode l < 256 ^ Z.of_nat (length l).
Proof.
  induction l as [|b l IH] using rev_ind.
  - unfold be_decode. simpl. lia.
  - rewrite be_decode_snoc, length_app. cbn [length].
    replace (Z.of_nat (length l + 1)) with (Z.succ (Z.of_nat (length l))) by lia.
    rewrite Z.pow_succ_r by lia. pose proof (Z_of_byte_range b). nia.
Qed.

(** Encoding a decoded field gives its bytes back. *)
Lemma be_encode_decode (l : bytes) : be_encode (length l) (be_decode l) = l.
Proof.
  induction l as [|b l IH] using rev_ind.
  - reflexivity.
  - rewrite length_app. cbn [length]. rewrite Nat.add_1_r. cbn [be_encode].
    rewrite be_decode_snoc. pose proof (Z_of_byte_range b).
    replace ((be_decode l * 256 + Z_of_byte b) / 256) with (be_decode l)
      by (apply Z.div_unique with (r := Z_of_byte b); lia).
    replace ((be_decode l * 256 + Z_of_byte b) mod 256) with (Z_of_byte b)
      by (apply Z.mod_unique with (q := be_decode l); lia).
    rewrite IH, byte_of_Z_of_byte. reflexivity.
Qed.

Lemma fits_be_decode (n : nat) (l : bytes) : length l = n -> fits n (be_decode l).
Proof. intros <-. apply be_decode_range. Qed.

Ltac explicit_bytes l :=
  repeat (destruct l as [|? l]; [discriminate|]);
  destruct l; [|discriminate].

(** A 28-byte header is the packing of the fields it unpacks to: no two
    headers unpack to the same fields, and every unpacked field is within the
    width of its place. *)
Lemma struct_pack_unpack (h : bytes)
      (magic version command seq_num session_id clock timestamp : Z) :
  struct_unpack h
  = Some (magic, version, command, seq_num, session_id, clock, timestamp) ->
  struct_pack magic version command seq_num session_id clock timestamp = Some h /\
  fits 1 command /\ fits 4 seq_num /\ fits 4 session_id /\ fits 8 clock /\
  fits 8 timestamp.
Proof.
  unfold struct_unpack. destruct (Nat.eqb (length h) HEADER_SIZE) eqn:Hlen; [|discriminate].
  apply Nat.eqb_eq in Hlen. unfold HEADER_SIZE in Hlen.
  explicit_bytes h. unfold slice. cbn [Nat.sub skipn firstn].
  intros H. injection H as <- <- <- <- <- <- <-.
  split;
    [|split; [|split; [|split; [|split]]]; apply fits_be_decode; reflexivity].
  rewrite struct_pack_Some by (apply fits_be_decode; reflexivity).
  repeat match goal with
         | |- context [be_encode ?n (be_decode ?l)] =>
             change (be_encode n (be_decode l)) with (be_encode (length l) (be_decode l));
             rewrite (be_encode_decode l)
         end.
  reflexivity.
Qed.

Lemma firstn_28_split (data : bytes) :
  (length data <? 28)%nat = false ->
  length (firstn 28 data) = 28%nat /\ data = firstn 28 data ++ skipn 28 data.
Proof.
  intros H. apply Nat.ltb_ge in H. split.
  - rewrite length_firstn. lia.
  - symmetry. apply firstn_skipn.
Qed.

(** What decodes was packed: the header of a datagram that decodes is the
    packing of the decoded fields. *)
Lemma server_parse_unpacked
      (data payload : bytes) (command seq_num session_id clock timestamp : Z) :
  Server.parse_message data
  = Some (command, seq_num, session_id, clock, timestamp, payload) ->
  exists header,
    struct_pack MAGIC VERSION command seq_num session_id clock timestamp
    = Some header /\
    data = header ++ payload.
Proof.
  unfold Server.parse_message.
  destruct (length data <? 28)%nat eqn:Hlen; [discriminate|].
  destruct (firstn_28_split data Hlen) as [Hl Hsplit].
  destruct (struct_unpack (firstn 28 data))
    as [[[[[[[magic version] cmd] seq] sid] clk] ts]|] eqn:Hu; [|discriminate].
  destruct (magic =? MAGIC) eqn:Hm; [|discriminate].
  destruct (version =? VERSION) eqn:Hv; [|discriminate].
  cbn [negb orb]. intros H. injection H as <- <- <- <- <- <-.
  apply Z.eqb_eq in Hm, Hv. subst magic version.
  exists (firstn 28 data). split; [|exact Hsplit].
  apply struct_pack_unpack in Hu. apply Hu.
Qed.

(** X1. The server decodes exactly the datagrams that [create_message] can
    build: [parse_message] returns the fields and the payload of a datagram
    if and only if the datagram is the header packed from the protocol's magic
    and version and those fields, followed by that payload. So no two
    datagrams decode to the same message, and decoded fields are always within
    the width of their place in the header. *)
Theorem server_decodes_what_pack_builds
        (data payload : bytes) (command seq_num session_id clock timestamp : Z) :
  Server.parse_message data
  = Some (command, seq_num, session_id, clock, timestamp, payload)
  <-> exists header,
        struct_pack MAGIC VERSION command seq_num session_id clock timestamp
        = Some header /\
        data = header ++ payload.
Proof.
  split.
  - apply server_parse_unpacked.
  - intros (header & Hp & ->). apply server_parse_packed. exact Hp.
Qed.

(** The first three bytes of every header: the magic C4 61 and the version. *)
Definition PREFIX : bytes := [xc4; x61; x01].

Lemma prefix_of_unpack (h : bytes) (command seq_num session_id clock timestamp : Z)
      (magic version : Z) :
  struct_unpack h
  = Some (magic, version, command, seq_num, session_id, clock, timestamp) ->
  (magic = MAGIC /\ version = VERSION) <-> firstn 3 h = PREFIX.
Proof.
  unfold struct_unpack. destruct (Nat.eqb (length h) HEADER_SIZE) eqn:Hlen; [|discriminate].
  apply Nat.eqb_eq in Hlen. unfold HEADER_SIZE in Hlen.
  explicit_bytes h. unfold slice. cbn [Nat.sub skipn firstn].
  intros H. injection H as <- <- _ _ _ _ _. unfold PREFIX. split.
  - intros [Hm Hv].
    assert (Hb : be_encode 2 (be_decode [b; b0]) = [b; b0]) by apply (be_encode_decode [b; b0]).
    assert (Hb1 : be_encode 1 (be_decode [b1]) = [b1]) by apply (be_encode_decode [b1]).
    rewrite Hm in Hb. rewrite Hv in Hb1.
    vm_compute in Hb. vm_compute in Hb1.
    injection Hb as <- <-. injection Hb1 as <-. reflexivity.
  - intros H. injection H as -> -> ->. split; reflexivity.
Qed.

(** A datagram that is too short or begins with other bytes does not decode. *)
Lemma server_parse_malformed (data : bytes) :
  (length data < 28)%nat \/ firstn 3 data <> PREFIX ->
  Server.parse_message data = None.
Proof.
  intros Hbad. unfold Server.parse_message.
  destruct (length data <? 28)%nat eqn:Hlen; [reflexivity|].
  destruct (firstn_28_split data Hlen) as [Hl _]. apply Nat.ltb_ge in Hlen.
  destruct Hbad as [Hbad|Hbad]; [lia|].
  assert (Hf : firstn 3 (firstn 28 data) = firstn 3 data)
    by (rewrite firstn_firstn; reflexivity).
  destruct (struct_unpack (firstn 28 data))
    as [[[[[[[magic version] cmd] seq] sid] clk] ts]|] eqn:Hu; [|reflexivity].
  pose proof (prefix_of_unpack _ _ _ _ _ _ _ _ Hu) as Hpre. rewrite Hf in Hpre.
  destruct (Z.eqb_spec magic MAGIC) as [Hm|Hm];
    destruct (Z.eqb_spec version VERSION) as [Hv|Hv]; cbn [negb orb]; try reflexivity.
  exfalso. apply Hbad. apply Hpre. split; assumption.
Qed.

(** X2. Which datagrams the server decodes: those of at least 28 bytes that
    begin with the bytes C4 61 01, and no others. *)
Theorem server_decodes_iff_prefix (data : bytes) :
  Server.parse_message data <> None
  <-> (28 <= length data)%nat /\ firstn 3 data = PREFIX.
Proof.
  unfold Server.parse_message.
  destruct (length data <? 28)%nat eqn:Hlen.
  - apply Nat.ltb_lt in Hlen. split; [congruence | intros [H _]; lia].
  - destruct (firstn_28_split data Hlen) as [Hl _]. apply Nat.ltb_ge in Hlen.
    assert (Hf : firstn 3 (firstn 28 data) = firstn 3 data)
      by (rewrite firstn_firstn; reflexivity).
    destruct (struct_unpack (firstn 28 data))
      as [[[[[[[magic version] cmd] seq] sid] clk] ts]|] eqn:Hu.
    + pose proof (prefix_of_unpack _ _ _ _ _ _ _ _ Hu) as Hpre. rewrite Hf in Hpre.
      destruct (Z.eqb_spec magic MAGIC) as [Hm|Hm];
        destruct (Z.eqb_spec version VERSION) as [Hv|Hv]; cbn [negb orb].
      * split; [intros _; split; [exact Hlen | apply Hpre; auto] | intros _; discriminate].
      * split; [congruence | intros [_ H]; apply Hpre in H; destruct H; contradiction].
      * split; [congruence | intros [_ H]; apply Hpre in H; destruct H; contradiction].
      * split; [congruence | intros [_ H]; apply Hpre in H; destruct H; contradiction].
    + exfalso. unfold struct_unpack in Hu. rewrite Hl in Hu. discriminate Hu.
Qed.

End Decoding.

Section Dropping.
Import Wire Effects.
Variable decode_strip : bytes -> string.

Lemma client_parse_needs_server_parse (c : Client.UDPClient) (data : bytes) :
  Server.parse_message data = None -> Client.parse_message c data = None.
Proof.
  unfold Server.parse_message, Client.parse_message.
  destruct (length data <? 28)%nat; [reflexivity|].
  destruct (struct_unpack (firstn 28 data))
    as [[[[[[[magic version] cmd] seq] sid] clk] ts]|]; [|reflexivity].
  destruct (negb (magic =? MAGIC) || negb (version =? VERSION)); [reflexivity|discriminate].
Qed.

(** X3. A malformed datagram (shorter than the 28-byte header, or not beginning
    with the magic and version bytes C4 61 01) is dropped without a trace on
    both sides: [handle_packet] leaves the server, its table and the world
    as they were, and a turn of the client's listener leaves the client and
    the world as they were (in particular [pending_ack] stays set). *)
Theorem malformed_datagram_is_dropped
        (data : bytes) (from : Addr)
        (srv : Server.UDPServer) (c : Client.UDPClient) (w : World) :
  (length data < 28)%nat \/ firstn 3 data <> PREFIX ->
  Server.handle_packet decode_strip data from (srv, w) = (Return tt, (srv, w)) /\
  Client.listen_turn (Some data) (c, w) = (Return tt, (c, w)).
Proof.
  intros Hbad.
  pose proof (server_parse_malformed data Hbad) as Hnone.
  split.
  - unfold Server.handle_packet. rewrite Hnone. reflexivity.
  - unfold Client.listen_turn. unfold bind at 1. cbn [get fst].
    rewrite (client_parse_needs_server_parse c data Hnone). reflexivity.
Qed.

(** X4. The client takes no notice of a well-formed datagram of another
    session: whatever its command, the turn of the listener changes neither
    the client (state, [seq_num], clock, [pending_ack], [running]) nor the
    world. *)
Theorem foreign_session_is_ignored
        (c : Client.UDPClient) (w : World) (header payload : bytes)
        (command seq_num session_id clock timestamp : Z) :
  struct_pack MAGIC VERSION command seq_num session_id clock timestamp = Some header ->
  session_id <> Client.session_id c ->
  Client.listen_turn (Some (header ++ payload)) (c, w) = (Return tt, (c, w)).
Proof.
  intros Hp Hne. unfold Client.listen_turn. unfold bind at 1. cbn [get fst].
  rewrite (client_parse_packed c _ _ _ _ _ _ payload Hp).
  apply Z.eqb_neq in Hne. rewrite Hne. reflexivity.
Qed.

End Dropping.

(** * More on the server: first contact and replays *)

Section MoreDictFacts.
Import Dict.
Context {V : Type}.
Implicit Types (d : Dict.t V) (k : Z) (v : V).

Lemma dict_set_absent k v d : lookup k d = None -> set k v d = d ++ [(k, v)].
Proof.
  induction d as [|[k' v'] d IH]; simpl; [reflexivity|].
  destruct (k =? k'); [discriminate|]. intros H. f_equal. auto.
Qed.

Lemma dict_set_set k v v' d : set k v' (set k v d) = set k v' d.
Proof.
  induction d as [|[k0 v0] d IH]; simpl.
  - rewrite Z.eqb_refl. reflexivity.
  - destruct (k =? k0) eqn:E; simpl; rewrite ?Z.eqb_refl, ?E; [reflexivity|].
    f_equal. exact IH.
Qed.

Lemma dict_keys_set k v d :
  keys (set k v d) = if mem k d then keys d else keys d ++ [k].
Proof.
  unfold mem. induction d as [|[k0 v0] d IH]; simpl; [reflexivity|].
  destruct (k =? k0) eqn:E; simpl.
  - apply Z.eqb_eq in E. congruence.
  - rewrite IH. destruct (lookup k d); reflexivity.
Qed.

Lemma dict_NoDup_keys_set k v d : NoDup (keys d) -> NoDup (keys (set k v d)).
Proof.
  intros Hd. rewrite dict_keys_set. unfold mem.
  destruct (lookup k d) eqn:E; [exact Hd|].
  apply dict_lookup_None_keys in E.
  apply NoDup_app; [exact Hd | repeat constructor; simpl; tauto |].
  intros x Hx [<-|[]]. contradiction.
Qed.

Lemma dict_lookup_set k k' v d :
  lookup k (set k' v d) = if k =? k' then Some v else lookup k d.
Proof.
  destruct (Z.eqb_spec k k') as [->|Hne].
  - apply dict_lookup_set_same.
  - apply dict_lookup_set_other. exact Hne.
Qed.

Lemma dict_lookup_del k k' d :
  NoDup (keys d) -> lookup k (del k' d) = if k =? k' then None else lookup k d.
Proof.
  intros Hd. destruct (Z.eqb_spec k k') as [->|Hne].
  - apply dict_lookup_del_same. exact Hd.
  - apply dict_lookup_del_other. exact Hne.
Qed.

End MoreDictFacts.

Section FirstContact.
Import Wire Effects.
Variable decode_strip : bytes -> string.

(** The first HELLO of a session, when the reply can be packed. *)
Lemma first_hello_eq
      (srv : Server.UDPServer) (w : World) (data payload : bytes) (from : Addr)
      (seq_num session_id logical_clock timestamp : Z) :
  Server.parse_message data
  = Some (CMD_HELLO, seq_num, session_id, logical_clock, timestamp, payload) ->
  ~ In session_id (Dict.keys (Server.sessions srv)) ->
  fits 8 (Z.max 0 logical_clock + 2) ->
  fits 8 (int_of_Q (now_at w (S (reads w)) * 1000)) ->
  exists w' reply,
    Server.handle_packet decode_strip data from (srv, w)
    = (Return tt,
       (Server.set_sessions
          (Server.sessions srv
           ++ [(session_id,
                Server.mkSession session_id from 1 (now_at w (reads w)) true
                                 (Z.max 0 logical_clock + 2))]) srv,
        w')) /\
    sent (events w') = sent (events w) ++ [(reply, from)] /\
    Server.parse_message reply
    = Some (CMD_HELLO, 0, session_id, Z.max 0 logical_clock + 2,
            int_of_Q (now_at w (S (reads w)) * 1000), []).
Proof.
  intros Hparse Hnew Hclk Hts.
  assert (Hsid : fits 4 session_id).
  { apply server_parse_unpacked in Hparse. destruct Hparse as (h & Hp & _).
    apply struct_pack_inv in Hp. tauto. }
  destruct fits_constants as (Hm & Hv & Hc & _).
  assert (Hzero : fits 4 0) by (unfold fits; simpl; lia).
  pose proof (struct_pack_Some _ _ _ _ _ _ _ Hm Hv Hc Hzero Hsid Hclk Hts) as Hp.
  match type of Hp with _ = Some ?x => set (h := x) in Hp; clearbody h end.
  apply dict_lookup_None_keys in Hnew.
  unfold Server.handle_packet. rewrite Hparse.
  unfold bind at 1. cbn [get fst].
  unfold Dict.mem. rewrite Hnew. cbn [negb andb].
  change (CMD_HELLO =? CMD_HELLO) with true. cbn [negb].
  unfold bind at 1. unfold bind at 1. unfold Server.Session_init. unfold bind at 1.
  cbn [time_time ret modify fst snd]. unfold Server.set_sessions at 1.
  cbn [Server.sessions Server.running].
  unfold Server.on_session. cbn [Server.sessions].
  rewrite dict_lookup_set_same.
  unfold Server.handle_hello. unfold bind at 1. cbn [get fst Server.expected_seq].
  change (negb (0 =? 0)) with false. cbv iota.
  unfold bind at 1. cbn [print emit fst snd].
  unfold bind at 1. rewrite server_update_clock_eq. cbn [merged Server.logical_clock].
  unfold bind at 1. cbn [get fst].
  unfold bind at 1. rewrite server_send_message_eq. cbv zeta.
  cbn [Server.logical_clock Server.set_logical_clock Server.session_id
       Server.expected_seq Server.addr].
  replace (Z.max 0 logical_clock + 1 + 1) with (Z.max 0 logical_clock + 2) by lia.
  unfold timestamp_in. cbn [now_at reads events]. rewrite Hp.
  unfold modify, Server.set_sessions, Server.set_expected_seq.
  cbn [fst snd Server.sessions Server.running Server.logical_clock Server.session_id
       Server.expected_seq Server.addr Server.last_activity Server.active].
  rewrite dict_set_set, (dict_set_absent _ _ _ Hnew).
  do 2 eexists. split; [reflexivity|]. split.
  - cbn [events emit_world tick_world]. rewrite !sent_app. cbn [sent flat_map app].
    rewrite !app_nil_r. reflexivity.
  - rewrite <- (app_nil_r h). apply server_parse_packed. exact Hp.
Qed.

(** X5. First contact. A HELLO whose session id is not in the table (whatever
    its sequence number and payload) makes the server create the session at
    the end of the table, for the address the datagram came from, merge the
    client's clock into a clock that started at 0, answer HELLO with sequence
    number 0 to that address, and expect sequence number 1 next; the session
    is active and its last activity is the time of its creation. *)
Theorem first_hello_creates_session
        (srv : Server.UDPServer) (w : World) (data payload : bytes) (from : Addr)
        (seq_num session_id logical_clock timestamp : Z) :
  Server.parse_message data
  = Some (CMD_HELLO, seq_num, session_id, logical_clock, timestamp, payload) ->
  ~ In session_id (Dict.keys (Server.sessions srv)) ->
  fits 8 (Z.max 0 logical_clock + 2) ->
  fits 8 (int_of_Q (now_at w (S (reads w)) * 1000)) ->
  exists w' reply,
    Server.handle_packet decode_strip data from (srv, w)
    = (Return tt,
       (Server.set_sessions
          (Server.sessions srv
           ++ [(session_id,
                Server.mkSession session_id from 1 (now_at w (reads w)) true
                                 (Z.max 0 logical_clock + 2))]) srv,
        w')) /\
    sent (events w') = sent (events w) ++ [(reply, from)] /\
    Server.parse_message reply
    = Some (CMD_HELLO, 0, session_id, Z.max 0 logical_clock + 2,
            int_of_Q (now_at w (S (reads w)) * 1000), []).
Proof. apply first_hello_eq. Qed.

(** X6. A replay is never answered twice. Once a DATA message with sequence
    number [seq_num] was accepted, any DATA message with a sequence number up
    to [seq_num] (the same datagram again, or an older one) only produces the
    duplicate report: the session stays as the accepted message left it and
    nothing is sent. *)
Theorem accepted_data_makes_replays_duplicates
        (s : Server.Session) (w : World)
        (seq_num logical_clock timestamp : Z) (data : bytes)
        (seq_num' logical_clock' timestamp' : Z) (data' : bytes) :
  Server.expected_seq s <= seq_num ->
  fits 4 seq_num -> fits 4 (Server.session_id s) ->
  fits 8 (Z.max (Server.logical_clock s) logical_clock + 2) ->
  fits 8 (timestamp_in w) ->
  seq_num' <= seq_num ->
  let accepted :=
    Server.handle_data decode_strip (CMD_DATA, seq_num, logical_clock, timestamp) data (s, w) in
  let s1 := fst (snd accepted) in
  let w1 := snd (snd accepted) in
  fst accepted = Return tt /\
  Server.handle_data decode_strip (CMD_DATA, seq_num', logical_clock', timestamp') data'
                     (s1, w1)
  = (Return tt, (s1, emit_world (Print (LogDuplicate (Server.session_id s) seq_num')) w1)).
Proof.
  intros Hle Hseq Hsid Hclk Hts Hold accepted s1 w1.
  destruct (handle_data_fresh_ok decode_strip CMD_DATA seq_num logical_clock timestamp
              data s w) as (msg & s' & w' & Hrun & _ & _ & Hs'); try assumption.
  subst accepted s1 w1. rewrite Hrun. cbn [fst snd]. split; [reflexivity|].
  unfold Server.handle_data. unfold bind at 1. cbn [get fst].
  rewrite Hs'. cbn [Server.expected_seq Server.session_id].
  replace (seq_num' <? seq_num + 1) with true by (symmetry; apply Z.ltb_lt; lia).
  reflexivity.
Qed.

End FirstContact.

(** * What the server never does to a session *)

Section SessionInvariants.
Import Wire Effects.
Variable decode_strip : bytes -> string.

(** [s'] is a later state of the session [s]: same id and peer, counters not
    smaller, and not active again after it was made inactive. *)
Definition session_le (s s' : Server.Session) : Prop :=
  Server.session_id s' = Server.session_id s /\
  Server.addr s' = Server.addr s /\
  Server.expected_seq s <= Server.expected_seq s' /\
  Server.logical_clock s <= Server.logical_clock s' /\
  (Server.active s = false -> Server.active s' = false).

Lemma session_le_refl (s : Server.Session) : session_le s s.
Proof. unfold session_le. repeat split; auto; lia. Qed.

Lemma session_le_trans (s1 s2 s3 : Server.Session) :
  session_le s1 s2 -> session_le s2 s3 -> session_le s1 s3.
Proof.
  unfold session_le. intros (Hi & Ha & He & Hc & Hact) (Hi' & Ha' & He' & Hc' & Hact').
  repeat split; try congruence; try lia. auto.
Qed.

(** A method that only ever moves the session forward, however it ends. *)
Definition grows {A} (m : M Server.Session A) : Prop :=
  forall s w, session_le s (fst (snd (m (s, w)))).

Lemma grows_ret {A} (a : A) : grows (ret a).
Proof. intros s w. apply session_le_refl. Qed.

Lemma grows_get : grows get.
Proof. intros s w. apply session_le_refl. Qed.

Lemma grows_time : grows time_time.
Proof. intros s w. apply session_le_refl. Qed.

Lemma grows_emit (e : Event) : grows (emit e).
Proof. intros s w. apply session_le_refl. Qed.

Lemma grows_raise {A} (e : exn) : grows (@raise _ A e).
Proof. intros s w. apply session_le_refl. Qed.

Lemma grows_modify (f : Server.Session -> Server.Session) :
  (forall s, session_le s (f s)) -> grows (modify f).
Proof. intros Hf s w. apply Hf. Qed.

Lemma grows_bind {A B} (m : M Server.Session A) (k : A -> M Server.Session B) :
  grows m -> (forall a, grows (k a)) -> grows (bind m k).
Proof.
  intros Hm Hk s w. unfold bind. specialize (Hm s w).
  destruct (m (s, w)) as [[a|e] [s1 w1]]; cbn [fst snd] in *; [|exact Hm].
  eapply session_le_trans; [exact Hm | apply Hk].
Qed.

Ltac grows_step :=
  first [ apply grows_ret | apply grows_get | apply grows_time | apply grows_emit
        | apply grows_raise
        | apply grows_modify; intros ?; unfold session_le; cbn; repeat split;
          solve [reflexivity | lia | auto | discriminate] ].

Lemma grows_update_clock (r : option Z) : grows (Server.update_clock r).
Proof.
  intros s w. rewrite server_update_clock_eq. cbn [fst snd].
  unfold session_le. cbn. repeat split; auto; try lia; destruct r; cbn [merged]; lia.
Qed.

Lemma grows_send_message (command seq_num : Z) (data : bytes) :
  grows (Server.send_message command seq_num data).
Proof.
  intros s w. rewrite server_send_message_eq. cbv zeta.
  destruct (struct_pack _ _ _ _ _ _ _); cbn [fst snd];
    unfold session_le; cbn; repeat split; auto; lia.
Qed.

Lemma grows_lost_packets (turns : nat) (seq_num : Z) :
  grows (Server.lost_packets turns seq_num).
Proof.
  induction turns as [|n IH]; cbn [Server.lost_packets]; [apply grows_ret|].
  apply grows_bind; [apply grows_get|]. intros s.
  destruct (_ <? _); [|apply grows_ret].
  apply grows_bind; [apply grows_emit|]. intros _.
  apply grows_bind; [grows_step|]. intros _. exact IH.
Qed.

Lemma grows_handle_hello (header : Server.Header) : grows (Server.handle_hello header).
Proof.
  destruct header as [[[command seq_num] logical_clock] timestamp].
  unfold Server.handle_hello.
  apply grows_bind; [apply grows_get|]. intros s. destruct (negb _).
  - apply grows_bind; [apply grows_emit|]. intros _.
    apply grows_bind; [apply grows_send_message|]. intros _. grows_step.
  - apply grows_bind; [apply grows_emit|]. intros _.
    apply grows_bind; [apply grows_update_clock|]. intros _.
    apply grows_bind; [apply grows_get|]. intros s'.
    apply grows_bind; [apply grows_send_message|]. intros _. grows_step.
Qed.

Lemma grows_handle_data (header : Server.Header) (data : bytes) :
  grows (Server.handle_data decode_strip header data).
Proof.
  destruct header as [[[command seq_num] logical_clock] timestamp].
  unfold Server.handle_data.
  apply grows_bind; [apply grows_get|]. intros s. destruct (_ <? _); [apply grows_emit|].
  apply grows_bind; [apply grows_lost_packets|]. intros _.
  apply grows_bind.
  { destruct (negb _); [|apply grows_ret].
    apply grows_bind; [apply grows_get|]. intros s'. apply grows_emit. }
  intros _. apply grows_bind; [apply grows_update_clock|]. intros _.
  apply grows_bind; [apply grows_get|]. intros s'.
  apply grows_bind; [apply grows_send_message|]. intros _.
  apply grows_bind; [grows_step|]. intros _.
  apply grows_bind; [apply grows_time|]. intros now.
  apply grows_bind; [grows_step|]. intros _.
  apply grows_bind; [apply grows_time|]. intros now'. apply grows_ret.
Qed.

Lemma grows_handle_goodbye (header : Server.Header) : grows (Server.handle_goodbye header).
Proof.
  destruct header as [[[command seq_num] logical_clock] timestamp].
  unfold Server.handle_goodbye.
  apply grows_bind; [apply grows_get|]. intros s.
  apply grows_bind; [apply grows_emit|]. intros _.
  apply grows_bind; [apply grows_update_clock|]. intros _.
  apply grows_bind; [apply grows_get|]. intros s'.
  apply grows_bind; [apply grows_send_message|]. intros _.
  apply grows_bind; [apply grows_emit|]. intros _. grows_step.
Qed.

Lemma grows_check_timeout : grows Server.check_timeout.
Proof.
  unfold Server.check_timeout.
  apply grows_bind; [apply grows_time|]. intros now.
  apply grows_bind; [apply grows_get|]. intros s. destruct (_ && _); [|apply grows_ret].
  apply grows_bind; [apply grows_emit|]. intros _.
  apply grows_bind; [apply grows_send_message|]. intros _.
  apply grows_bind; [grows_step|]. intros _. apply grows_ret.
Qed.

End SessionInvariants.

(** * What the server never does to its table *)

Section TableInvariants.
Import Wire Effects.
Variable decode_strip : bytes -> string.

(** Every record of the table sits under its own session id, once. *)
Definition table_ok (d : Dict.t Server.Session) : Prop :=
  NoDup (Dict.keys d) /\
  forall k s, Dict.lookup k d = Some s -> Server.session_id s = k.

(** Every record of [d] that is still in [d'] has only moved forward. *)
Definition table_le (d d' : Dict.t Server.Session) : Prop :=
  forall k s s', Dict.lookup k d = Some s -> Dict.lookup k d' = Some s' -> session_le s s'.

Lemma table_le_refl (d : Dict.t Server.Session) : table_le d d.
Proof.
  intros k s s' H H'. assert (s = s') by congruence. subst. apply session_le_refl.
Qed.

(** The result state of [bind]. *)
Lemma snd_bind {O A B} (m : M O A) (k : A -> M O B) (st : O * World) :
  snd (bind m k st)
  = match m st with
    | (Return a, st') => snd (k a st')
    | (Raise _, st') => st'
    end.
Proof. unfold bind. destruct (m st) as [[a|e] st']; reflexivity. Qed.

(** A method run on a session of the table. *)
Lemma on_session_forward {A} (k : Z) (m : M Server.Session A)
      (d0 d : Dict.t Server.Session) (r : bool) (w : World) :
  grows m -> table_ok d -> table_le d0 d ->
  let srv' := fst (snd (Server.on_session k m (Server.mkServer d r, w))) in
  table_ok (Server.sessions srv') /\ table_le d0 (Server.sessions srv') /\
  Dict.keys (Server.sessions srv') = Dict.keys d /\ Server.running srv' = r.
Proof.
  intros Hm [Hnd Hid] Hle. unfold Server.on_session. cbn [Server.sessions].
  destruct (Dict.lookup k d) as [s|] eqn:Hl.
  - specialize (Hm s w). destruct (m (s, w)) as [res [s' w']]. cbn [fst snd] in *.
    unfold Server.set_sessions. cbn [fst snd Server.sessions Server.running].
    assert (Hk : In k (Dict.keys d)) by (apply dict_lookup_In_keys; eauto).
    assert (Hkeys : Dict.keys (Dict.set k s' d) = Dict.keys d)
      by (apply dict_keys_set_present; exact Hk).
    split; [split|split; [|split]].
    + rewrite Hkeys. exact Hnd.
    + intros k1 s1. rewrite dict_lookup_set. destruct (Z.eqb_spec k1 k) as [->|Hne].
      * intros H. injection H as <-. destruct Hm as [Hsid _]. rewrite Hsid. apply (Hid _ _ Hl).
      * apply Hid.
    + intros k1 s1 s1' H0. rewrite dict_lookup_set.
      destruct (Z.eqb_spec k1 k) as [->|Hne].
      * intros H. injection H as <-.
        eapply session_le_trans; [apply (Hle _ _ _ H0 Hl) | exact Hm].
      * apply Hle. exact H0.
    + exact Hkeys.
    + reflexivity.
  - cbn [fst snd Server.sessions Server.running].
    split; [split; assumption|]. split; [exact Hle|]. split; reflexivity.
Qed.

Lemma del_forward (k : Z) (d0 d : Dict.t Server.Session) :
  table_ok d -> table_le d0 d ->
  table_ok (Dict.del k d) /\ table_le d0 (Dict.del k d).
Proof.
  intros [Hnd Hid] Hle. split; [split|].
  - apply dict_NoDup_keys_del. exact Hnd.
  - intros k1 s1. rewrite dict_lookup_del by exact Hnd.
    destruct (k1 =? k); [discriminate | apply Hid].
  - intros k1 s1 s1' H0. rewrite dict_lookup_del by exact Hnd.
    destruct (k1 =? k); [discriminate | apply Hle; exact H0].
Qed.

(** [handle_packet] on a table in good order. *)
Lemma handle_packet_forward
      (data : bytes) (from : Addr) (srv : Server.UDPServer) (w : World) :
  table_ok (Server.sessions srv) ->
  let srv' := fst (snd (Server.handle_packet decode_strip data from (srv, w))) in
  table_ok (Server.sessions srv') /\
  table_le (Server.sessions srv) (Server.sessions srv') /\
  Server.running srv' = Server.running srv.
Proof.
  intros Hok. cbv zeta. destruct srv as [d r]. cbn [Server.sessions Server.running] in *.
  pose (P := fun st : Server.UDPServer * World =>
               table_ok (Server.sessions (fst st)) /\
               table_le d (Server.sessions (fst st)) /\
               Server.running (fst st) = r).
  assert (Hsame : forall w', P (Server.mkServer d r, w')).
  { intros w'. unfold P. cbn [fst Server.sessions Server.running].
    split; [exact Hok|]. split; [apply table_le_refl | reflexivity]. }
  enough (HP : P (snd (Server.handle_packet decode_strip data from
                         (Server.mkServer d r, w)))) by exact HP.
  unfold Server.handle_packet.
  destruct (Server.parse_message data)
    as [[[[[[command seq_num] session_id] logical_clock] timestamp] payload]|];
    [|apply Hsame].
  unfold bind at 1. cbn [get fst Server.sessions].
  destruct (Dict.mem session_id d) eqn:Hmem; cbn [negb andb].
  - (* a session of the table *)
    unfold bind at 1. cbn [ret]. unfold P.
    destruct (command =? CMD_HELLO).
    { destruct (on_session_forward session_id (Server.handle_hello
                  (command, seq_num, logical_clock, timestamp)) d d r w
                  (grows_handle_hello _) Hok (table_le_refl d)) as (H1 & H2 & _ & H4).
      split; [exact H1|split; [exact H2|exact H4]]. }
    destruct (command =? CMD_DATA).
    { destruct (on_session_forward session_id (Server.handle_data decode_strip
                  (command, seq_num, logical_clock, timestamp) payload) d d r w
                  (grows_handle_data decode_strip _ _) Hok (table_le_refl d))
        as (H1 & H2 & _ & H4).
      split; [exact H1|split; [exact H2|exact H4]]. }
    destruct (command =? CMD_GOODBYE); [|apply Hsame].
    destruct (on_session_forward session_id (Server.handle_goodbye
                (command, seq_num, logical_clock, timestamp)) d d r w
                (grows_handle_goodbye _) Hok (table_le_refl d)) as (H1 & H2 & _ & H4).
    rewrite snd_bind.
    destruct (Server.on_session session_id _ _) as [[[]|e] [srv1 w1]];
      cbn [fst snd] in *; [|split; [exact H1|split; [exact H2|exact H4]]].
    unfold modify, Server.set_sessions. cbn [fst snd Server.sessions Server.running].
    destruct (del_forward session_id d (Server.sessions srv1) H1 H2) as [H5 H6].
    split; [exact H5|split; [exact H6|exact H4]].
  - (* a session id that is not in the table *)
    destruct (command =? CMD_HELLO) eqn:Hcmd; cbn [negb]; [|apply Hsame].
    unfold P.
    assert (Hnew : Dict.lookup session_id d = None)
      by (unfold Dict.mem in Hmem; destruct (Dict.lookup session_id d); congruence).
    unfold bind at 1. unfold bind at 1. unfold Server.Session_init. unfold bind at 1.
    cbn [time_time ret modify fst snd]. unfold Server.set_sessions at 1.
    cbn [Server.sessions Server.running].
    set (s0 := Server.mkSession session_id from 0 _ true 0).
    assert (Hok1 : table_ok (Dict.set session_id s0 d)).
    { destruct Hok as [Hnd Hid]. split.
      - apply dict_NoDup_keys_set. exact Hnd.
      - intros k s. rewrite dict_lookup_set. destruct (Z.eqb_spec k session_id) as [->|Hne].
        + intros H. injection H as <-. reflexivity.
        + apply Hid. }
    assert (Hle1 : table_le d (Dict.set session_id s0 d)).
    { intros k s s' H. rewrite dict_lookup_set.
      destruct (Z.eqb_spec k session_id) as [->|Hne]; [congruence|].
      intros H'. assert (s = s') by congruence. subst. apply session_le_refl. }
    destruct (on_session_forward session_id (Server.handle_hello
                (command, seq_num, logical_clock, timestamp)) d _ r
                (mkWorld (events w) (now_at w) (S (reads w)))
                (grows_handle_hello _) Hok1 Hle1) as (H1 & H2 & _ & H4).
    split; [exact H1|split; [exact H2|exact H4]].
Qed.

(** X7. Whatever datagram arrives and however its handling ends (an exception
    included), [handle_packet] keeps every record of the table under its own
    session id, and every session that is in the table before and after has
    the same id and peer address, an [expected_seq] and a logical clock that
    are not smaller, and is not active again if it was inactive; the server's
    [running] flag is untouched. *)
Theorem handle_packet_moves_sessions_forward
        (data : bytes) (from : Addr) (srv : Server.UDPServer) (w : World) :
  table_ok (Server.sessions srv) ->
  let srv' := fst (snd (Server.handle_packet decode_strip data from (srv, w))) in
  table_ok (Server.sessions srv') /\
  table_le (Server.sessions srv) (Server.sessions srv') /\
  Server.running srv' = Server.running srv.
Proof. apply handle_packet_forward. Qed.

End TableInvariants.

(** * More on the sweep, the loop and the cleanup *)

Section SweepInvariants.
Import Wire Effects.
Variable decode_strip : bytes -> string.

(** A loop keeps what each of its turns keeps, also when a turn raises. *)
Lemma for_each_keeps {O A} (P : O * World -> Prop) (l : list A) (body : A -> M O unit) :
  (forall x st, P st -> P (snd (body x st))) ->
  forall st, P st -> P (snd (for_each l body st)).
Proof.
  intros Hbody. induction l as [|x l IH]; intros st Hst; [exact Hst|].
  cbn [for_each]. rewrite snd_bind. specialize (Hbody x st Hst).
  destruct (body x st) as [[[]|e] st']; cbn [snd] in *; auto.
Qed.

(** The sweep on a table in good order. *)
Lemma sweep_forward (srv : Server.UDPServer) (w : World) :
  table_ok (Server.sessions srv) ->
  let srv' := fst (snd (Server.sweep (srv, w))) in
  table_ok (Server.sessions srv') /\
  table_le (Server.sessions srv) (Server.sessions srv') /\
  incl (Dict.keys (Server.sessions srv')) (Dict.keys (Server.sessions srv)) /\
  Server.running srv' = Server.running srv.
Proof.
  intros Hok. cbv zeta. destruct srv as [d r]. cbn [Server.sessions Server.running] in *.
  rewrite sweep_unfold. cbn [Server.sessions].
  pose (P := fun st : Server.UDPServer * World =>
               table_ok (Server.sessions (fst st)) /\
               table_le d (Server.sessions (fst st)) /\
               incl (Dict.keys (Server.sessions (fst st))) (Dict.keys d) /\
               Server.running (fst st) = r).
  enough (HP : P (snd (for_each (Dict.keys d) sweep_body (Server.mkServer d r, w))))
    by exact HP.
  apply for_each_keeps.
  - intros k [[d1 r1] w1] (H1 & H2 & H3 & H4). cbn [fst Server.sessions Server.running] in *.
    subst r1. unfold sweep_body. rewrite snd_bind.
    destruct (on_session_forward k Server.check_timeout d d1 r w1
                grows_check_timeout H1 H2) as (H5 & H6 & H7 & H8).
    destruct (Server.on_session k Server.check_timeout _) as [[expired|e] [srv2 w2]];
      cbn [fst snd] in *.
    + destruct expired.
      * unfold modify, Server.set_sessions. unfold P.
        cbn [fst snd Server.sessions Server.running].
        destruct (del_forward k d (Server.sessions srv2) H5 H6) as [H9 H10].
        split; [exact H9|]. split; [exact H10|]. split; [|exact H8].
        intros x Hx. apply H3. rewrite <- H7. eapply dict_keys_del_incl. exact Hx.
      * unfold P. cbn [ret fst snd]. rewrite H7. auto.
    + unfold P. cbn [fst snd]. rewrite H7. auto.
  - unfold P. cbn [fst Server.sessions Server.running].
    split; [exact Hok|]. split; [apply table_le_refl|]. split; [apply incl_refl|reflexivity].
Qed.

(** X8. The sweep only removes. However it ends, it creates no session and
    reorders none, every record left is under its own id and has only moved
    forward (same id and peer, [expected_seq] and clock not smaller, never
    active again), and [running] is untouched. *)
Theorem sweep_only_removes (srv : Server.UDPServer) (w : World) :
  table_ok (Server.sessions srv) ->
  let srv' := fst (snd (Server.sweep (srv, w))) in
  table_ok (Server.sessions srv') /\
  table_le (Server.sessions srv) (Server.sessions srv') /\
  incl (Dict.keys (Server.sessions srv')) (Dict.keys (Server.sessions srv)) /\
  Server.running srv' = Server.running srv.
Proof. apply sweep_forward. Qed.

Lemma run_turn_keeps_table_ok
      (i : option (bytes * Addr)) (srv : Server.UDPServer) (w : World) :
  table_ok (Server.sessions srv) ->
  table_ok (Server.sessions (fst (snd (Server.run_turn decode_strip i (srv, w))))).
Proof.
  intros Hok. unfold Server.run_turn. rewrite snd_bind.
  destruct (sweep_forward srv w Hok) as (Hs & _).
  destruct (Server.sweep (srv, w)) as [[[]|e] [srv1 w1]]; cbn [fst snd] in *; [|exact Hs].
  destruct i as [[data addr]|]; [|exact Hs].
  unfold try_except.
  destruct (handle_packet_forward decode_strip data addr srv1 w1 Hs)
    as (H1 & _).
  destruct (Server.handle_packet decode_strip data addr (srv1, w1))
    as [[[]|e] [srv2 w2]]; cbn [fst snd] in *; exact H1.
Qed.

(** X9. Under [run], whatever arrives and however the loop ends, every record
    of the table stays under its own session id: the server never files a
    session under another id and never holds two records for one id. *)
Theorem run_loop_keeps_table_ok
        (incoming : list (option (bytes * Addr))) (srv : Server.UDPServer) (w : World) :
  table_ok (Server.sessions srv) ->
  table_ok (Server.sessions (fst (snd (Server.run_loop decode_strip incoming (srv, w))))).
Proof.
  revert srv w. induction incoming as [|i rest IH]; intros srv w Hok; [exact Hok|].
  cbn [Server.run_loop]. rewrite snd_bind. cbn [get fst].
  destruct (Server.running srv); [|exact Hok].
  rewrite snd_bind. pose proof (run_turn_keeps_table_ok i srv w Hok) as Hturn.
  destruct (Server.run_turn decode_strip i (srv, w)) as [[[]|e] [srv1 w1]];
    cbn [fst snd] in *; [apply IH; exact Hturn | exact Hturn].
Qed.

End SweepInvariants.

Section SweepAndCleanup.
Import Wire Effects.

(** A session the sweep has no reason to reclaim, whenever it looks: it is
    inactive, or its last activity is at most ten seconds old. *)
Definition live_or_inactive (w : World) (s : Server.Session) : Prop :=
  Server.active s = false \/
  forall n, (now_at w n - Server.last_activity s <= 10)%Q.

Lemma Qgtb_false (x y : Q) : (x <= y)%Q -> Qgtb x y = false.
Proof.
  intros H. unfold Qgtb. apply Qle_bool_iff in H. rewrite H. reflexivity.
Qed.

Lemma sweep_loop_leaves (ks : list Z) (d : Dict.t Server.Session) (r : bool) :
  forall w,
  (forall k, In k ks -> exists s, Dict.lookup k d = Some s /\ live_or_inactive w s) ->
  for_each ks sweep_body (Server.mkServer d r, w)
  = (Return tt,
     (Server.mkServer d r, mkWorld (events w) (now_at w) (reads w + length ks))).
Proof.
  induction ks as [|k ks IH]; intros w Hlive.
  - cbn [for_each ret length]. rewrite Nat.add_0_r. destruct w; reflexivity.
  - destruct (Hlive k (or_introl eq_refl)) as (s & Hl & Hs).
    cbn [for_each]. unfold bind at 1. unfold sweep_body at 1. unfold bind at 1.
    rewrite (on_session_eq k _ (Server.mkServer d r) w s Hl).
    rewrite check_timeout_kept.
    + unfold ret, Server.set_sessions. cbn [fst snd Server.sessions Server.running].
      rewrite (dict_set_lookup_same _ _ _ Hl).
      rewrite (IH (tick_world w)).
      * unfold tick_world. cbn [events now_at reads length].
        replace (S (reads w) + length ks)%nat with (reads w + S (length ks))%nat by lia.
        reflexivity.
      * intros k' Hk'. destruct (Hlive k' (or_intror Hk')) as (s' & Hl' & Hs').
        exists s'. split; [exact Hl' | exact Hs'].
    + destruct Hs as [Hs|Hs].
      * rewrite Hs. apply andb_false_r.
      * rewrite (Qgtb_false _ _ (Hs (reads w))). reflexivity.
Qed.

(** X10. The sweep leaves live sessions alone. When every session of the table
    is inactive or has been active within the last ten seconds (ten seconds
    exactly included), the sweep returns with the table exactly as it was,
    having sent and printed nothing; it has read the clock once per session.
    In particular an inactive session is never reclaimed by the sweep, however
    long it has been idle. *)
Theorem sweep_leaves_live_sessions (srv : Server.UDPServer) (w : World) :
  (forall k s, Dict.lookup k (Server.sessions srv) = Some s -> live_or_inactive w s) ->
  Server.sweep (srv, w)
  = (Return tt,
     (srv, mkWorld (events w) (now_at w)
                   (reads w + length (Server.sessions srv)))).
Proof.
  intros Hlive. rewrite sweep_unfold. destruct srv as [d r]. cbn [Server.sessions] in *.
  rewrite sweep_loop_leaves.
  - unfold Dict.keys. rewrite length_map. reflexivity.
  - intros k Hk. apply dict_lookup_In_keys in Hk. destruct Hk as [s Hs].
    exists s. split; [exact Hs | apply (Hlive k s Hs)].
Qed.

(** What the cleanup sends for a session: a GOODBYE that carries its
    [expected_seq], to its peer. *)
Definition farewell (ks : Z * Server.Session) : option (Z * Z) * Addr :=
  (Some (CMD_GOODBYE, Server.expected_seq (snd ks)), Server.addr (snd ks)).

(** The datagrams of some events, as (command, sequence number) and
    destination. *)
Definition sent_summary (l : list Event) : list (option (Z * Z) * Addr) :=
  map (fun da => (datagram_command_seq (fst da), snd da)) (sent l).

Lemma sent_summary_app l1 l2 : sent_summary (l1 ++ l2) = sent_summary l1 ++ sent_summary l2.
Proof. unfold sent_summary. rewrite sent_app, map_app. reflexivity. Qed.

Lemma printed_app l1 l2 : printed (l1 ++ l2) = printed l1 ++ printed l2.
Proof. unfold printed. apply flat_map_app. Qed.

(** The body of the loop of the cleanup. *)
Definition cleanup_body (session_id : Z) : M Server.UDPServer unit :=
  srv <- get ;;
  match Dict.lookup session_id (Server.sessions srv) with
  | None => raise KeyError
  | Some s =>
      Server.on_session session_id
        (Server.send_message CMD_GOODBYE (Server.expected_seq s) []) ;;
      modify (fun srv =>
                Server.set_sessions (Dict.del session_id (Server.sessions srv)) srv)
  end.

Lemma cleanup_unfold (srv : Server.UDPServer) (w : World) :
  Server.cleanup (srv, w)
  = for_each (Dict.keys (Server.sessions srv)) cleanup_body (srv, w).
Proof. reflexivity. Qed.

Lemma cleanup_loop (d : Dict.t Server.Session) (r : bool) :
  forall w,
  NoDup (Dict.keys d) ->
  (forall k s, In (k, s) d -> goodbye_fits s) ->
  timestamps_fit w ->
  exists w',
    Server.cleanup (Server.mkServer d r, w) = (Return tt, (Server.mkServer [] r, w')) /\
    now_at w' = now_at w /\
    sent_summary (events w') = sent_summary (events w) ++ map farewell d /\
    printed (events w') = printed (events w).
Proof.
  intros w. rewrite cleanup_unfold. cbn [Server.sessions]. revert w.
  induction d as [|[k s] d IH]; intros w Hnd Hfit Hts.
  - exists w. cbn [Dict.keys map for_each ret]. rewrite app_nil_r. auto.
  - inversion Hnd as [|? ? Hk Hnd']; subst.
    destruct (Hfit k s (or_introl eq_refl)) as (Hseq & Hsid & Hclk).
    destruct fits_constants as (Hm & Hv & _ & Hc).
    pose proof (struct_pack_Some _ _ _ _ _ _ _ Hm Hv Hc Hseq Hsid Hclk (Hts (reads w))) as Hp.
    match type of Hp with _ = Some ?x => set (h := x) in Hp; clearbody h end.
    cbn [Dict.keys map fst for_each]. unfold bind at 1. unfold cleanup_body at 1.
    unfold bind at 1. cbn [get fst Server.sessions Dict.lookup]. rewrite Z.eqb_refl.
    unfold bind at 1. unfold Server.on_session. cbn [Server.sessions Dict.lookup].
    rewrite Z.eqb_refl. rewrite server_send_message_eq. cbv zeta.
    unfold timestamp_in. rewrite Hp.
    unfold modify, Server.set_sessions.
    cbn [fst snd Server.sessions Server.running Dict.set]. rewrite ?Z.eqb_refl.
    cbn [Dict.del]. rewrite ?Z.eqb_refl.
    set (w1 := emit_world _ (tick_world w)).
    destruct (IH w1 Hnd') as (w' & Hrun & Hnow & Hsent & Hprint).
    { intros k' s' Hin. apply (Hfit k' s'). right. exact Hin. }
    { exact Hts. }
    fold (Dict.keys d). rewrite Hrun. exists w'.
    split; [reflexivity|]. split; [exact Hnow|]. split.
    + rewrite Hsent. unfold w1. cbn [events emit_world tick_world map].
      rewrite sent_summary_app, <- app_assoc. f_equal.
      unfold sent_summary, farewell, datagram_command_seq. cbn [sent flat_map app map fst snd].
      rewrite (server_parse_packed _ _ _ _ _ _ [] Hp). reflexivity.
    + rewrite Hprint. unfold w1. cbn [events emit_world tick_world].
      rewrite printed_app. cbn [printed flat_map app]. apply app_nil_r.
Qed.

(** X11. The cleanup at the end of [run]. When the GOODBYE of every session
    can be packed, the cleanup returns with an empty table, having sent
    exactly one GOODBYE per session, in the order of the table, each to the
    session's peer and carrying the session's [expected_seq] (active or not),
    and having printed nothing. *)
Theorem cleanup_says_goodbye_to_every_session (srv : Server.UDPServer) (w : World) :
  NoDup (Dict.keys (Server.sessions srv)) ->
  (forall k s, In (k, s) (Server.sessions srv) -> goodbye_fits s) ->
  timestamps_fit w ->
  exists w',
    Server.cleanup (srv, w) = (Return tt, (Server.mkServer [] (Server.running srv), w')) /\
    sent_summary (events w')
    = sent_summary (events w) ++ map farewell (Server.sessions srv) /\
    printed (events w') = printed (events w).
Proof.
  intros Hnd Hfit Hts. destruct srv as [d r]. cbn [Server.sessions Server.running] in *.
  destruct (cleanup_loop d r w Hnd Hfit Hts) as (w' & Hrun & _ & Hsent & Hprint).
  exists w'. auto.
Qed.

End SweepAndCleanup.

(** * More on the client: the listener *)

Section Listener.
Import Wire Effects.

(** The turn of the listener on a datagram of the client's own session. *)
Lemma listen_turn_own (c : Client.UDPClient) (w : World) (header payload : bytes)
      (command seq_num clock timestamp : Z) :
  struct_pack MAGIC VERSION command seq_num (Client.session_id c) clock timestamp
  = Some header ->
  Client.listen_turn (Some (header ++ payload)) (c, w)
  = Client.listen_fsm (command, seq_num, clock, timestamp)
      (Client.set_logical_clock (Z.max (Client.logical_clock c) clock + 1)
         (Client.set_pending_ack false c), w).
Proof.
  intros Hp. unfold Client.listen_turn. unfold bind at 1. cbn [get fst].
  rewrite (client_parse_packed c _ _ _ _ _ _ payload Hp), Z.eqb_refl.
  unfold bind at 1. unfold Client.listen_ack at 1. cbn [modify fst snd].
  unfold bind at 1. unfold Client.listen_clock. unfold bind at 1.
  rewrite client_update_clock_eq. reflexivity.
Qed.

(** X12. The client never looks at the sequence number or at the payload of
    what it receives: two datagrams of its session that differ only there
    leave the client and the world in the same state. (So an ALIVE is taken as
    the acknowledgement the client waits for whatever number it carries.) *)
Theorem listener_ignores_seq_and_payload
        (c : Client.UDPClient) (w : World)
        (command clock timestamp : Z)
        (seq_num seq_num' : Z) (header header' payload payload' : bytes) :
  struct_pack MAGIC VERSION command seq_num (Client.session_id c) clock timestamp
  = Some header ->
  struct_pack MAGIC VERSION command seq_num' (Client.session_id c) clock timestamp
  = Some header' ->
  Client.listen_turn (Some (header ++ payload)) (c, w)
  = Client.listen_turn (Some (header' ++ payload')) (c, w).
Proof.
  intros Hp Hp'. rewrite (listen_turn_own c w _ payload _ _ _ _ Hp).
  rewrite (listen_turn_own c w _ payload' _ _ _ _ Hp'). reflexivity.
Qed.

(** The command is the acknowledgement the client is waiting for. *)
Definition awaited (command : Z) (st : Client.State) : bool :=
  ((command =? CMD_HELLO) && Client.State_eqb st Client.WAIT_HELLO)
  || ((command =? CMD_ALIVE) && Client.State_eqb st Client.WAIT_ALIVE).

(** X13. What a datagram of its own session does to the client. In every case
    the listener clears [pending_ack], sets the clock to
    [max(clock, received) + 1] and sends nothing. If the datagram is the
    acknowledgement awaited (HELLO in WAIT_HELLO, ALIVE in WAIT_ALIVE) the
    client becomes READY and [seq_num] grows by one. Otherwise state and
    [seq_num] stay: a GOODBYE (in any state) clears [running], and anything
    else (a HELLO or ALIVE that is not awaited, a DATA, an unknown command)
    changes nothing more. *)
Theorem listener_transitions
        (c : Client.UDPClient) (w : World) (header payload : bytes)
        (command seq_num clock timestamp : Z) :
  struct_pack MAGIC VERSION command seq_num (Client.session_id c) clock timestamp
  = Some header ->
  let result := Client.listen_turn (Some (header ++ payload)) (c, w) in
  let c' := fst (snd result) in
  fst result = Return tt /\
  sent (events (snd (snd result))) = sent (events w) /\
  Client.pending_ack c' = false /\
  Client.logical_clock c' = Z.max (Client.logical_clock c) clock + 1 /\
  Client.state c'
  = (if awaited command (Client.state c) then Client.READY else Client.state c) /\
  Client.seq_num c'
  = (if awaited command (Client.state c) then Client.seq_num c + 1 else Client.seq_num c) /\
  Client.running c'
  = (if awaited command (Client.state c) then Client.running c
     else if command =? CMD_GOODBYE then false else Client.running c).
Proof.
  intros Hp. cbv zeta. rewrite (listen_turn_own c w _ payload _ _ _ _ Hp).
  unfold awaited.
  destruct ((command =? CMD_HELLO) && Client.State_eqb (Client.state c) Client.WAIT_HELLO)
    eqn:Ehello;
    [|destruct ((command =? CMD_ALIVE) && Client.State_eqb (Client.state c) Client.WAIT_ALIVE)
        eqn:Ealive; [|destruct (command =? CMD_GOODBYE) eqn:Ebye]];
    unfold Client.listen_fsm;
    cbn -[sent Z.add Z.max Z.eqb Client.State_eqb andb];
    rewrite ?Ehello, ?Ealive, ?Ebye;
    cbn -[sent Z.add Z.max Z.eqb Client.State_eqb andb];
    rewrite ?sent_app; cbn -[Z.add Z.max]; rewrite ?app_nil_r;
    repeat split; reflexivity.
Qed.

End Listener.

(** * More on the client: what no schedule can undo, and what one can *)

Section ClientInvariants.
Import Wire Effects.

Variable encode_utf8 : string -> bytes.

(** The orders in which a client and its world only move forward: the
    identity of the client (session, server address, timeout, and the field
    [expected_seq] that the class never touches) is fixed, [seq_num] does not
    go down, a client that has stopped running stays so; the world keeps what
    has been printed and sent and only adds to it. The logical clock is not
    part of the order. *)
Definition client_le (c c' : Client.UDPClient) : Prop :=
  Client.session_id c' = Client.session_id c /\
  Client.server_addr c' = Client.server_addr c /\
  Client.timeout c' = Client.timeout c /\
  Client.expected_seq c' = Client.expected_seq c /\
  Client.seq_num c <= Client.seq_num c' /\
  (Client.running c = false -> Client.running c' = false).

Definition world_le (w w' : World) : Prop :=
  now_at w' = now_at w /\
  (reads w <= reads w')%nat /\
  exists l, events w' = events w ++ l.

Definition forward (st st' : Client.UDPClient * World) : Prop :=
  client_le (fst st) (fst st') /\ world_le (snd st) (snd st').

Definition state_of (cfg : Client.Config) : Client.UDPClient * World :=
  (Client.client cfg, Client.world cfg).

Lemma client_le_refl c : client_le c c.
Proof. unfold client_le. repeat split; auto; lia. Qed.

Lemma world_le_refl w : world_le w w.
Proof.
  unfold world_le. split; [reflexivity|]. split; [lia|].
  exists []. symmetry. apply app_nil_r.
Qed.

Lemma world_le_said (e : Event) (w : World) : world_le w (emit_world e w).
Proof.
  unfold world_le. cbn. split; [reflexivity|]. split; [lia|]. exists [e]. reflexivity.
Qed.

Lemma world_le_tick (w : World) : world_le w (tick_world w).
Proof.
  unfold world_le. cbn. split; [reflexivity|]. split; [lia|].
  exists []. symmetry. apply app_nil_r.
Qed.

Lemma forward_refl st : forward st st.
Proof. split; [apply client_le_refl | apply world_le_refl]. Qed.

Lemma forward_trans st1 st2 st3 : forward st1 st2 -> forward st2 st3 -> forward st1 st3.
Proof.
  intros [(A1 & A2 & A3 & A4 & A5 & A6) (B1 & B2 & l & B3)]
         [(C1 & C2 & C3 & C4 & C5 & C6) (D1 & D2 & l' & D3)].
  split.
  - unfold client_le.
    split; [congruence|]. split; [congruence|]. split; [congruence|].
    split; [congruence|]. split; [lia | auto].
  - unfold world_le. split; [congruence|]. split; [lia|].
    exists (l ++ l'). rewrite D3, B3. symmetry. apply app_assoc.
Qed.

(** The number the listener holds between the load and the store of
    [self.seq_num += 1] is still the one in the object: no other thread
    assigns [seq_num]. *)
Definition seq_held (cfg : Client.Config) : Prop :=
  match Client.listener cfg with
  | Client.L_SEQ_WRITE _ t => Client.seq_num (Client.client cfg) = t
  | _ => True
  end.

Ltac onward :=
  unfold forward, client_le, state_of;
  cbn [fst snd Client.client Client.world Client.session_id Client.server_addr
       Client.timeout Client.expected_seq Client.seq_num Client.running
       Client.set_state Client.set_running Client.set_pending_ack Client.set_logical_clock
       Client.set_seq_num Client.set_last_sent_time];
  repeat match goal with
         | |- _ /\ _ => split
         | |- world_le _ _ =>
             first [apply world_le_refl | apply world_le_said | apply world_le_tick]
         end;
  try reflexivity; try lia; try (intros; assumption); try (intros; reflexivity).

Lemma step_forward (a : Client.Action) (cfg : Client.Config) :
  seq_held cfg ->
  seq_held (Client.step encode_utf8 a cfg) /\
  forward (state_of cfg) (state_of (Client.step encode_utf8 a cfg)).
Proof.
  unfold seq_held. intros Hseq. open_config cfg.
  destruct a as [typed| |incoming|].
  - destruct mpc as [|k p| | | | |l|l| | | | |]; [|destruct p| | | | | | | | | | |];
      run_step;
      try destruct (Client.running _); try destruct (Client.State_eqb _ _);
      try destruct (Client.is_quit _); try destruct (struct_pack _ _ _ _ _ _ _);
      cbn [Client.listener]; (split; [destruct lpc; try exact I; exact Hseq | onward]).
  - destruct mpc as [|k p| | | | |l|l| | | | |]; [|destruct k| | | | | | | | | | |];
      run_step; cbn [Client.listener]; (split; [exact Hseq | onward]).
  - destruct mpc;
      try (run_step; cbn [Client.listener]; (split; [exact Hseq | onward]); fail);
      destruct lpc as [| |h|h|h m|h|h t|h|h|a|a|a t| |ts|lat| | |];
      try destruct h as [[[command sq] clk] ts'];
      run_step;
      try destruct (Client.running _);
      try (destruct incoming as [data|];
           [destruct (Client.parse_message c data) as [[hh ?]|]|]);
      try (destruct (_ && _); [|destruct (_ && _); [|destruct (_ =? _)]]);
      try destruct a;
      cbn [Client.listener Client.client Client.seq_num] in *;
      (split; [first [exact I | reflexivity] | subst; onward]).
  - destruct mpc;
      try (run_step; cbn [Client.listener]; (split; [exact Hseq | onward]); fail);
      destruct wpc; run_step;
      try destruct (Client.running _);
      try destruct (Client.pending_ack _); try destruct (Qgtb _ _);
      cbn [Client.listener]; (split; [destruct lpc; try exact I; exact Hseq | onward]).
Qed.

Lemma steps_forward (schedule : list Client.Action) (cfg : Client.Config) :
  seq_held cfg ->
  seq_held (Client.steps encode_utf8 schedule cfg) /\
  forward (state_of cfg) (state_of (Client.steps encode_utf8 schedule cfg)).
Proof.
  revert cfg. induction schedule as [|a schedule IH]; intros cfg Hseq.
  - split; [exact Hseq | apply forward_refl].
  - rewrite steps_cons. destruct (step_forward a cfg Hseq) as [Hseq' Hfw].
    destruct (IH _ Hseq') as [Hseq'' Hfw'].
    split; [exact Hseq''|]. eapply forward_trans; [exact Hfw | exact Hfw'].
Qed.

(** A schedule on which the logical clock goes back. The listener receives a
    datagram of the session with clock 0 and loads [logical_clock] (0) for
    [max(self.logical_clock, received_clock)]; before it stores the maximum,
    the main thread, on its way to send HELLO, loads the clock and stores 1;
    then the listener stores its 0. *)
Definition clock_race : list Client.Action :=
  [Client.Listener None;                                          (* while self.running: *)
   Client.Listener (Some (datagram CMD_HELLO 0 7 0 1000 []));     (* recvfrom, parse_message *)
   Client.Listener None;                                          (* self.pending_ack = False *)
   Client.Listener None;                                          (* the load for max(...) *)
   Client.Main EmptyString;                                       (* self.state = "WAIT_HELLO" *)
   Client.Main EmptyString;                                       (* += 1: the load *)
   Client.Main EmptyString].                                      (* += 1: the store of 1 *)

(** X14. Whatever the three threads do and in whatever order, and whatever
    arrives from the network or the keyboard, between any two moments of a
    run of the client its session id, server address and timeout (and the
    unused [expected_seq]) have not changed, [seq_num] has not gone down,
    [running] has not become true again once it was false, and what had been
    printed or sent is still there with the later events behind it. The
    logical clock is not protected in this way: the class has no lock, and
    on the schedule [clock_race] the clock is 1 and, one action of the
    listener later, 0. *)
Theorem client_only_moves_forward
        (schedule later : list Client.Action) (c : Client.UDPClient) (w : World) :
  forward (state_of (Client.steps encode_utf8 schedule (Client.start c w)))
          (state_of (Client.steps encode_utf8 (schedule ++ later) (Client.start c w))) /\
  (let entry := Client.start (Client.UDPClient_init server_peer 7) quiet_world in
   Client.logical_clock (Client.client (Client.steps encode_utf8 clock_race entry)) = 1 /\
   Client.logical_clock
     (Client.client (Client.steps encode_utf8 (clock_race ++ [Client.Listener None]) entry))
   = 0).
Proof.
  split.
  - rewrite steps_app.
    assert (Hseq : seq_held (Client.start c w)) by exact I.
    destruct (steps_forward schedule _ Hseq) as [Hseq' _].
    apply (steps_forward later _ Hseq').
  - cbv zeta. split; vm_compute; reflexivity.
Qed.

End ClientInvariants.

(** * Client and server together *)

Section Conversation.
Import Wire Effects.
Variable decode_strip : bytes -> string.

(** Lines 116-117 of [run]: the client opens its session. *)
Definition open_session : M Client.UDPClient Z :=
  modify (Client.set_state Client.WAIT_HELLO) ;; Client.send_message CMD_HELLO [].

(** Lines 128-129 of [run]: the client sends a line. *)
Definition send_line (data : bytes) : M Client.UDPClient Z :=
  modify (Client.set_state Client.WAIT_ALIVE) ;; Client.send_message CMD_DATA data.

(** Lines 136-137 of [run]: the client takes leave. *)
Definition take_leave : M Client.UDPClient Z := Client.send_message CMD_GOODBYE [].

(** What a client sends, as the server reads it. *)
Lemma client_sends (command : Z) (data : bytes) (c : Client.UDPClient) (w : World) :
  fits 1 command -> fits 4 (Client.seq_num c) -> fits 4 (Client.session_id c) ->
  fits 8 (Client.logical_clock c + 1) -> fits 8 (timestamp_in w) ->
  exists msg w',
    Client.send_message command data (c, w)
    = (Return (Client.seq_num c),
       (Client.set_pending_ack true
          (Client.set_last_sent_time (now_at w (S (reads w)))
             (Client.set_logical_clock (Client.logical_clock c + 1) c)), w')) /\
    sent (events w') = sent (events w) ++ [(msg, Client.server_addr c)] /\
    printed (events w') = printed (events w) /\
    Server.parse_message msg
    = Some (command, Client.seq_num c, Client.session_id c,
            Client.logical_clock c + 1, timestamp_in w, data).
Proof.
  intros Hc Hseq Hsid Hclk Hts.
  destruct fits_constants as (Hm & Hv & _).
  pose proof (struct_pack_Some _ _ _ _ _ _ _ Hm Hv Hc Hseq Hsid Hclk Hts) as Hp.
  match type of Hp with _ = Some ?x => set (h := x) in Hp; clearbody h end.
  rewrite client_send_message_eq, Hp. do 2 eexists. split; [reflexivity|].
  cbn [events emit_world tick_world]. rewrite sent_app, printed_app.
  cbn [sent printed flat_map app]. rewrite app_nil_r.
  split; [reflexivity|]. split; [reflexivity|].
  apply server_parse_packed. exact Hp.
Qed.

(** The turn of the listener on a datagram that the server's decoder reads as
    a message of the client's session. *)
Lemma listen_turn_parsed (c : Client.UDPClient) (w : World) (reply payload : bytes)
      (command seq_num clock timestamp : Z) :
  Server.parse_message reply
  = Some (command, seq_num, Client.session_id c, clock, timestamp, payload) ->
  Client.listen_turn (Some reply) (c, w)
  = Client.listen_fsm (command, seq_num, clock, timestamp)
      (Client.set_logical_clock (Z.max (Client.logical_clock c) clock + 1)
         (Client.set_pending_ack false c), w).
Proof.
  intros Hparse. apply server_parse_unpacked in Hparse.
  destruct Hparse as (h & Hp & ->). apply (listen_turn_own c w h payload _ _ _ _ Hp).
Qed.

(** The acknowledgement awaited makes the client READY for the next number. *)
Lemma listen_fsm_awaited (c : Client.UDPClient) (w : World)
      (command seq_num clock timestamp : Z) :
  awaited command (Client.state c) = true ->
  exists w',
    Client.listen_fsm (command, seq_num, clock, timestamp) (c, w)
    = (Return tt,
       (Client.set_seq_num (Client.seq_num c + 1) (Client.set_state Client.READY c), w')) /\
    sent (events w') = sent (events w).
Proof.
  unfold awaited. intros Haw. unfold Client.listen_fsm. unfold bind at 1. cbn [get fst].
  destruct ((command =? CMD_HELLO) && Client.State_eqb (Client.state c) Client.WAIT_HELLO).
  { eexists. split; [reflexivity|]. cbn [events snd]. rewrite sent_app. cbn. apply app_nil_r. }
  cbn [orb] in Haw. rewrite Haw.
  eexists. split; [reflexivity|]. cbn [events snd]. rewrite sent_app. cbn. apply app_nil_r.
Qed.

(** X15. The opening handshake, end to end. A client that has sent nothing
    yet ([seq_num = 0]) opens its session with a server that does not know
    its session id; the server handles the datagram the client sent and the
    client's listener receives the datagram the server sent back. Then both
    sides agree: the client is READY, waits for no acknowledgement and will
    number its next message 1, the server holds an active session for the
    client's id and for the address the HELLO came from and expects 1; and the
    logical clocks respect the order of the events (client before the handshake
    < server after it < client after it). *)
Theorem handshake_synchronises
        (c : Client.UDPClient) (wc : World)
        (srv : Server.UDPServer) (ws : World) (from : Addr) :
  Client.seq_num c = 0 ->
  ~ In (Client.session_id c) (Dict.keys (Server.sessions srv)) ->
  fits 4 (Client.session_id c) ->
  0 <= Client.logical_clock c -> fits 8 (Client.logical_clock c + 3) ->
  fits 8 (timestamp_in wc) ->
  fits 8 (int_of_Q (now_at ws (S (reads ws)) * 1000)) ->
  exists hello reply c1 wc1 srv1 ws1 c2 wc2 s,
    open_session (c, wc) = (Return 0, (c1, wc1)) /\
    sent (events wc1) = sent (events wc) ++ [(hello, Client.server_addr c)] /\
    Server.handle_packet decode_strip hello from (srv, ws) = (Return tt, (srv1, ws1)) /\
    sent (events ws1) = sent (events ws) ++ [(reply, from)] /\
    Client.listen_turn (Some reply) (c1, wc1) = (Return tt, (c2, wc2)) /\
    sent (events wc2) = sent (events wc1) /\
    Client.state c2 = Client.READY /\
    Client.seq_num c2 = 1 /\
    Client.pending_ack c2 = false /\
    Dict.lookup (Client.session_id c) (Server.sessions srv1) = Some s /\
    Server.expected_seq s = 1 /\
    Server.addr s = from /\
    Server.active s = true /\
    Client.logical_clock c < Server.logical_clock s < Client.logical_clock c2.
Proof.
  intros Hzero Hnew Hsid Hpos Hclk Htc Hts.
  assert (Hseq : fits 4 (Client.seq_num c)) by (rewrite Hzero; unfold fits; simpl; lia).
  assert (Hclk1 : fits 8 (Client.logical_clock c + 1)) by (unfold fits in *; lia).
  destruct fits_constants as (_ & _ & Hcmd & _).
  destruct (client_sends CMD_HELLO [] (Client.set_state Client.WAIT_HELLO c) wc
              Hcmd Hseq Hsid Hclk1 Htc) as (hello & wc1 & Hsend & Hsent & _ & Hparse).
  cbn [Client.seq_num Client.session_id Client.logical_clock Client.server_addr
       Client.set_state] in Hsend, Hsent, Hparse.
  assert (Hclk2 : fits 8 (Z.max 0 (Client.logical_clock c + 1) + 2))
    by (rewrite Z.max_r by lia; unfold fits in *; lia).
  destruct (first_hello_eq decode_strip srv ws hello [] from _ _ _ _ Hparse Hnew Hclk2 Hts)
    as (ws1 & reply & Hserve & Hreplied & Hreply).
  rewrite Z.max_r in Hserve, Hreply by lia.
  match type of Hsend with _ = (_, (?x, _)) => set (c1 := x) in * end.
  pose proof (listen_turn_parsed c1 wc1 reply [] _ _ _ _ Hreply) as Hturn.
  match type of Hturn with _ = Client.listen_fsm _ (?x, _) => set (c1' := x) in * end.
  destruct (listen_fsm_awaited c1' wc1 CMD_HELLO 0 (Client.logical_clock c + 1 + 2)
              (int_of_Q (now_at ws (S (reads ws)) * 1000)) eq_refl)
    as (wc2 & Hfsm & Hquiet).
  rewrite Hfsm in Hturn.
  do 9 eexists.
  split; [unfold open_session; unfold bind at 1; cbn [modify fst snd];
          etransitivity; [exact Hsend | rewrite Hzero; reflexivity]|].
  split; [exact Hsent|]. split; [exact Hserve|]. split; [exact Hreplied|].
  split; [exact Hturn|]. split; [exact Hquiet|].
  split; [reflexivity|]. split; [cbn; lia|]. split; [reflexivity|].
  split.
  { unfold Server.set_sessions. cbn [Server.sessions].
    rewrite <- (dict_set_absent _ _ _ (proj2 (dict_lookup_None_keys _ _) Hnew)).
    apply dict_lookup_set_same. }
  cbn. repeat split; try reflexivity; lia.
Qed.

(** X16. A DATA exchange, end to end, resynchronises client and server. The
    client sends a line with its sequence number [n]; the server, which holds
    the client's session and expects a number not above [n] (it may have
    missed earlier messages), handles the datagram; the client's listener
    receives the reply. Then the client is READY again with [seq_num = n + 1]
    and no acknowledgement pending, the server expects [n + 1] too, the reply
    went to the address stored in the session, and the logical clocks respect
    the order of the events. *)
Theorem data_exchange_synchronises
        (c : Client.UDPClient) (wc : World) (line : bytes)
        (srv : Server.UDPServer) (ws : World) (from : Addr) (s : Server.Session) :
  Dict.lookup (Client.session_id c) (Server.sessions srv) = Some s ->
  Server.session_id s = Client.session_id c ->
  Server.expected_seq s <= Client.seq_num c ->
  fits 4 (Client.seq_num c) -> fits 4 (Client.session_id c) ->
  0 <= Client.logical_clock c ->
  fits 8 (Z.max (Server.logical_clock s) (Client.logical_clock c + 1) + 2) ->
  fits 8 (timestamp_in wc) -> fits 8 (timestamp_in ws) ->
  exists request reply c1 wc1 srv1 ws1 c2 wc2 s',
    send_line line (c, wc) = (Return (Client.seq_num c), (c1, wc1)) /\
    sent (events wc1) = sent (events wc) ++ [(request, Client.server_addr c)] /\
    Server.handle_packet decode_strip request from (srv, ws) = (Return tt, (srv1, ws1)) /\
    sent (events ws1) = sent (events ws) ++ [(reply, Server.addr s)] /\
    Client.listen_turn (Some reply) (c1, wc1) = (Return tt, (c2, wc2)) /\
    sent (events wc2) = sent (events wc1) /\
    Client.state c2 = Client.READY /\
    Client.seq_num c2 = Client.seq_num c + 1 /\
    Client.pending_ack c2 = false /\
    Dict.lookup (Client.session_id c) (Server.sessions srv1) = Some s' /\
    Server.expected_seq s' = Client.seq_num c + 1 /\
    Client.logical_clock c < Server.logical_clock s' < Client.logical_clock c2 /\
    Server.logical_clock s < Server.logical_clock s'.
Proof.
  intros Hl Hid Hle Hseq Hsid Hpos Hclk Htc Hts.
  assert (Hclk1 : fits 8 (Client.logical_clock c + 1)) by (unfold fits in *; lia).
  assert (Hcmd : fits 1 CMD_DATA) by (unfold fits, CMD_DATA; simpl; lia).
  destruct (client_sends CMD_DATA line (Client.set_state Client.WAIT_ALIVE c) wc
              Hcmd Hseq Hsid Hclk1 Htc) as (request & wc1 & Hsend & Hsent & _ & Hparse).
  cbn [Client.seq_num Client.session_id Client.logical_clock Client.server_addr
       Client.set_state] in Hsend, Hsent, Hparse.
  rewrite <- Hid in Hsid.
  destruct (handle_data_fresh_ok decode_strip CMD_DATA (Client.seq_num c)
              (Client.logical_clock c + 1) (timestamp_in wc) line s ws
              Hle Hseq Hsid Hclk Hts) as (reply & s' & ws1 & Hrun & Hev & Hreply & Hs').
  rewrite Hid in Hreply.
  match type of Hsend with _ = (_, (?x, _)) => set (c1 := x) in * end.
  pose proof (listen_turn_parsed c1 wc1 reply [] _ _ _ _ Hreply) as Hturn.
  match type of Hturn with _ = Client.listen_fsm _ (?x, _) => set (c1' := x) in * end.
  destruct (listen_fsm_awaited c1' wc1 CMD_ALIVE (Client.seq_num c)
              (Z.max (Server.logical_clock s) (Client.logical_clock c + 1) + 2)
              (timestamp_in ws) eq_refl)
    as (wc2 & Hfsm & Hquiet).
  rewrite Hfsm in Hturn.
  exists request, reply, c1, wc1,
    (Server.set_sessions (Dict.set (Client.session_id c) s' (Server.sessions srv)) srv), ws1.
  do 2 eexists. exists s'.
  split; [unfold send_line; unfold bind at 1; cbn [modify fst snd]; exact Hsend|].
  split; [exact Hsent|].
  split.
  { unfold Server.handle_packet. rewrite Hparse.
    unfold bind at 1. cbn [get fst].
    rewrite (dict_mem_lookup _ _ _ Hl). cbn [negb andb].
    unfold bind at 1. cbn [ret].
    change (CMD_DATA =? CMD_HELLO) with false. change (CMD_DATA =? CMD_DATA) with true.
    cbv iota. rewrite (on_session_eq _ _ _ _ _ Hl), Hrun. reflexivity. }
  split; [rewrite Hev, !sent_app, lost_reports_sent, sent_text; reflexivity|].
  split; [exact Hturn|]. split; [exact Hquiet|].
  split; [reflexivity|]. split; [reflexivity|]. split; [reflexivity|].
  split; [unfold Server.set_sessions; cbn [Server.sessions]; apply dict_lookup_set_same|].
  rewrite Hs'. cbn. repeat split; try reflexivity; lia.
Qed.

(** GOODBYE from the client of a session in the table, with the reply in full. *)
Lemma goodbye_eq
      (srv : Server.UDPServer) (w : World) (s : Server.Session)
      (data payload : bytes) (from : Addr) (seq_num logical_clock timestamp : Z) :
  Server.parse_message data
  = Some (CMD_GOODBYE, seq_num, Server.session_id s, logical_clock, timestamp, payload) ->
  Dict.lookup (Server.session_id s) (Server.sessions srv) = Some s ->
  fits 4 (Server.expected_seq s) -> fits 4 (Server.session_id s) ->
  fits 8 (Z.max (Server.logical_clock s) logical_clock + 2) ->
  fits 8 (timestamp_in w) ->
  exists w' msg,
    Server.handle_packet decode_strip data from (srv, w)
    = (Return tt,
       (Server.set_sessions (Dict.del (Server.session_id s) (Server.sessions srv)) srv, w')) /\
    sent (events w') = sent (events w) ++ [(msg, Server.addr s)] /\
    Server.parse_message msg
    = Some (CMD_GOODBYE, Server.expected_seq s, Server.session_id s,
            Z.max (Server.logical_clock s) logical_clock + 2, timestamp_in w, []).
Proof.
  intros Hparse Hl Hseq Hsid Hclk Hts.
  destruct fits_constants as (Hm & Hv & _ & Hc).
  pose proof (struct_pack_Some _ _ _ _ _ _ _ Hm Hv Hc Hseq Hsid Hclk Hts) as Hp.
  match type of Hp with _ = Some ?x => set (h := x) in Hp; clearbody h end.
  unfold Server.handle_packet. rewrite Hparse.
  unfold bind at 1. cbn [get fst].
  rewrite (dict_mem_lookup _ _ _ Hl). cbn [negb andb].
  unfold bind at 1. cbn [ret].
  change (CMD_GOODBYE =? CMD_HELLO) with false.
  change (CMD_GOODBYE =? CMD_DATA) with false.
  change (CMD_GOODBYE =? CMD_GOODBYE) with true. cbv iota.
  unfold bind at 1. rewrite (on_session_eq _ _ _ _ _ Hl).
  unfold Server.handle_goodbye. unfold bind at 1. cbn [get fst].
  unfold bind at 1. cbn [print emit fst snd].
  unfold bind at 1. rewrite server_update_clock_eq. cbn [merged].
  unfold bind at 1. cbn [get fst].
  unfold bind at 1. rewrite server_send_message_eq. cbv zeta.
  cbn [Server.logical_clock Server.set_logical_clock Server.session_id
       Server.expected_seq Server.addr].
  replace (Z.max (Server.logical_clock s) logical_clock + 1 + 1)
    with (Z.max (Server.logical_clock s) logical_clock + 2) by lia.
  change (timestamp_in (mkWorld _ (now_at w) (reads w))) with (timestamp_in w).
  rewrite Hp. unfold bind at 1. cbn [print emit fst snd].
  unfold modify, Server.set_sessions. cbn [fst snd Server.sessions Server.running].
  rewrite dict_del_set. do 2 eexists. split; [reflexivity|]. split.
  - cbn [events emit_world tick_world]. rewrite !sent_app. cbn [sent flat_map app].
    rewrite !app_nil_r. reflexivity.
  - rewrite <- (app_nil_r h). apply (server_parse_packed _ _ _ _ _ _ [] Hp).
Qed.

(** X17. Taking leave, end to end. The client sends GOODBYE; the server, which
    holds the client's session, answers GOODBYE to the address stored in the
    session and forgets the session; the client's listener, on receiving that
    answer, stops the client. The answer carries the number the server
    expected next, and the client does not compare it with its own: state and
    [seq_num] stay as they were. *)
Theorem goodbye_closes_both_sides
        (c : Client.UDPClient) (wc : World)
        (srv : Server.UDPServer) (ws : World) (from : Addr) (s : Server.Session) :
  Dict.lookup (Client.session_id c) (Server.sessions srv) = Some s ->
  Server.session_id s = Client.session_id c ->
  NoDup (Dict.keys (Server.sessions srv)) ->
  fits 4 (Client.seq_num c) -> fits 4 (Client.session_id c) ->
  fits 4 (Server.expected_seq s) ->
  0 <= Client.logical_clock c ->
  fits 8 (Z.max (Server.logical_clock s) (Client.logical_clock c + 1) + 2) ->
  fits 8 (timestamp_in wc) -> fits 8 (timestamp_in ws) ->
  exists request reply c1 wc1 srv1 ws1 c2 wc2,
    take_leave (c, wc) = (Return (Client.seq_num c), (c1, wc1)) /\
    sent (events wc1) = sent (events wc) ++ [(request, Client.server_addr c)] /\
    Server.handle_packet decode_strip request from (srv, ws) = (Return tt, (srv1, ws1)) /\
    sent (events ws1) = sent (events ws) ++ [(reply, Server.addr s)] /\
    Dict.lookup (Client.session_id c) (Server.sessions srv1) = None /\
    Client.listen_turn (Some reply) (c1, wc1) = (Return tt, (c2, wc2)) /\
    sent (events wc2) = sent (events wc1) /\
    Client.running c2 = false /\
    Client.state c2 = Client.state c /\
    Client.seq_num c2 = Client.seq_num c.
Proof.
  intros Hl Hid Hnd Hseq Hsid Hexp Hpos Hclk Htc Hts.
  assert (Hclk1 : fits 8 (Client.logical_clock c + 1)) by (unfold fits in *; lia).
  destruct fits_constants as (_ & _ & _ & Hcmd).
  destruct (client_sends CMD_GOODBYE [] c wc Hcmd Hseq Hsid Hclk1 Htc)
    as (request & wc1 & Hsend & Hsent & _ & Hparse).
  rewrite <- Hid in Hparse, Hl, Hsid.
  destruct (goodbye_eq srv ws s request [] from _ _ _ Hparse Hl Hexp Hsid Hclk Hts)
    as (ws1 & reply & Hserve & Hreplied & Hreply).
  rewrite Hid in Hreply.
  match type of Hsend with _ = (_, (?x, _)) => set (c1 := x) in * end.
  pose proof (listen_turn_parsed c1 wc1 reply [] _ _ _ _ Hreply) as Hturn.
  do 8 eexists.
  split; [exact Hsend|]. split; [exact Hsent|]. split; [exact Hserve|].
  split; [exact Hreplied|].
  split.
  { unfold Server.set_sessions. cbn [Server.sessions]. rewrite <- Hid.
    apply dict_lookup_del_same. exact Hnd. }
  split.
  { rewrite Hturn. unfold Client.listen_fsm. unfold bind at 1. cbn [get fst].
    change (CMD_GOODBYE =? CMD_HELLO) with false.
    change (CMD_GOODBYE =? CMD_ALIVE) with false.
    change (CMD_GOODBYE =? CMD_GOODBYE) with true. cbn [andb]. cbv iota.
    reflexivity. }
  cbn [snd events]. rewrite sent_app. cbn -[Z.add Z.max].
  rewrite app_nil_r. repeat split; reflexivity.
Qed.

End Conversation.

(** * What the client says, in which order *)

Section ClientTrace.
Import Wire Effects.

Variable encode_utf8 : string -> bytes.

(** The command of a datagram that was sent, as the server's decoder reads it. *)
Definition command_of (d : bytes * Addr) : option Z :=
  match Server.parse_message (fst d) with
  | Some (command, _, _, _, _, _) => Some command
  | None => None
  end.

(** HELLO and then only DATA; the same closed by one GOODBYE. *)
Definition talking (l : list (option Z)) : Prop :=
  exists k, l = Some CMD_HELLO :: repeat (Some CMD_DATA) k.

Definition leaving (l : list (option Z)) : Prop :=
  exists k, l = Some CMD_HELLO :: repeat (Some CMD_DATA) k ++ [Some CMD_GOODBYE].

(** What may have been said before and after the [sendto] of a call of
    [send_message]. *)
Definition before_send (k : Client.Sending) (l : list (option Z)) : Prop :=
  match k with
  | Client.K_HELLO => l = []
  | Client.K_DATA _ | Client.K_GOODBYE => talking l
  end.

Definition after_sendto (k : Client.Sending) (l : list (option Z)) : Prop :=
  match k with
  | Client.K_HELLO | Client.K_DATA _ => talking l
  | Client.K_GOODBYE => leaving l
  end.

(** What may have been said when the main thread is at an action. The
    datagram it holds before [sendto] carries the command of the call. *)
Definition allowed (pc : Client.MainPC) (l : list (option Z)) : Prop :=
  match pc with
  | Client.M_SET_HELLO => l = []
  | Client.M_SEND k p =>
      match p with
      | Client.S_SENDTO message =>
          before_send k l /\
          forall a, command_of (message, a) = Some (Client.sending_command k)
      | Client.S_SENT_TIME | Client.S_LAST_SENT _ | Client.S_PENDING | Client.S_RETURN =>
          after_sendto k l
      | _ => before_send k l
      end
  | Client.M_STARTED | Client.M_WHILE | Client.M_IF_READY | Client.M_READLINE
  | Client.M_SET_ALIVE _ | Client.M_SENT _ | Client.M_IF_RUNNING => talking l
  | Client.M_SLEEP => leaving l
  | Client.M_STOP | Client.M_EOF => talking l \/ leaving l
  | Client.M_EXIT => l = [] \/ talking l \/ leaving l
  end.

Lemma allowed_exit (pc : Client.MainPC) (l : list (option Z)) :
  allowed pc l -> allowed Client.M_EXIT l.
Proof.
  destruct pc as [|k p| | | | |s|s| | | | |]; cbn; try tauto.
  destruct k, p; cbn; tauto.
Qed.

Lemma talking_hello : talking [Some CMD_HELLO].
Proof. exists 0%nat. reflexivity. Qed.

Lemma talking_data (l : list (option Z)) : talking l -> talking (l ++ [Some CMD_DATA]).
Proof.
  intros [k ->]. exists (S k). cbn [app]. f_equal.
  symmetry. apply (repeat_cons k (Some CMD_DATA)).
Qed.

Lemma talking_goodbye (l : list (option Z)) : talking l -> leaving (l ++ [Some CMD_GOODBYE]).
Proof. intros [k ->]. exists k. reflexivity. Qed.

Lemma said (k : Client.Sending) (l : list (option Z)) :
  before_send k l -> after_sendto k (l ++ [Some (Client.sending_command k)]).
Proof.
  destruct k; cbn [before_send after_sendto Client.sending_command].
  - intros ->. apply talking_hello.
  - apply talking_data.
  - apply talking_goodbye.
Qed.

(** What has been said since the datagrams [base], all of it to [a], fits
    where the main thread is. *)
Definition spoke_at (base : list (bytes * Addr)) (a : Addr)
           (c : Client.UDPClient) (w : World) (pc : Client.MainPC) : Prop :=
  Client.server_addr c = a /\
  exists l,
    sent (events w) = base ++ l /\
    Forall (fun d => snd d = a) l /\
    allowed pc (map command_of l).

Definition spoke (base : list (bytes * Addr)) (a : Addr) (cfg : Client.Config) : Prop :=
  spoke_at base a (Client.client cfg) (Client.world cfg) (Client.main cfg).

Lemma spoke_quiet (base : list (bytes * Addr)) (a : Addr)
      (c c' : Client.UDPClient) (w w' : World) (pc pc' : Client.MainPC) :
  spoke_at base a c w pc ->
  Client.server_addr c' = Client.server_addr c ->
  sent (events w') = sent (events w) ->
  (forall l, allowed pc l -> allowed pc' l) ->
  spoke_at base a c' w' pc'.
Proof.
  intros [Ha (l & Hl & Hto & Hal)] Haddr Hsent Hpc.
  split; [congruence|]. exists l. split; [congruence|]. split; [exact Hto | apply Hpc, Hal].
Qed.

Lemma spoke_said (base : list (bytes * Addr)) (a : Addr)
      (c : Client.UDPClient) (w : World) (k : Client.Sending) (message : bytes) :
  spoke_at base a c w (Client.M_SEND k (Client.S_SENDTO message)) ->
  spoke_at base a c (emit_world (SendTo message (Client.server_addr c)) w)
           (Client.M_SEND k Client.S_SENT_TIME).
Proof.
  intros [Ha (l & Hl & Hto & Hbefore & Hcmd)].
  split; [exact Ha|]. exists (l ++ [(message, a)]).
  cbn [emit_world events]. rewrite sent_app, Hl, Ha. cbn [sent flat_map app].
  split; [symmetry; apply app_assoc|]. split.
  - apply Forall_app. split; [exact Hto|]. constructor; [reflexivity|constructor].
  - rewrite map_app. cbn [map]. rewrite Hcmd. cbn [allowed]. apply said, Hbefore.
Qed.

Lemma sent_printed (m : LogMsg) (w : World) :
  sent (events (emit_world (Print m) w)) = sent (events w).
Proof. cbn [emit_world events]. rewrite sent_app. cbn. apply app_nil_r. Qed.

Lemma command_packed (k : Client.Sending) (seq_num session_id clock timestamp : Z)
      (h data : bytes) (a : Addr) :
  struct_pack MAGIC VERSION (Client.sending_command k) seq_num session_id clock timestamp
  = Some h ->
  command_of (h ++ data, a) = Some (Client.sending_command k).
Proof.
  intros Hp. unfold command_of. cbn [fst].
  rewrite (server_parse_packed _ _ _ _ _ _ data Hp). reflexivity.
Qed.

(** A step that sends nothing. *)
Ltac quiet Hs :=
  eapply spoke_quiet;
  [ exact Hs
  | reflexivity
  | first [ reflexivity | apply sent_printed ]
  | let l := fresh "l" in let Hl := fresh "Hl" in
    intros l Hl; cbn [allowed before_send after_sendto] in *;
    first [ exact Hl | tauto
          | match goal with k : Client.Sending |- _ => destruct k end;
            cbn [allowed before_send after_sendto] in *; tauto ] ].

Lemma step_spoke (base : list (bytes * Addr)) (a : Addr)
      (act : Client.Action) (cfg : Client.Config) :
  spoke base a cfg -> spoke base a (Client.step encode_utf8 act cfg).
Proof.
  unfold spoke. intros Hs. open_config cfg.
  destruct act as [typed| |incoming|].
  - destruct mpc as [|k p| | | | |l|l| | | | |]; [|destruct p| | | | | | | | | | |];
      run_step;
      try destruct (Client.running _); try destruct (Client.State_eqb _ _);
      try destruct (Client.is_quit _);
      try (destruct (struct_pack _ _ _ _ _ _ _) as [h|] eqn:Hp);
      try (apply spoke_said; exact Hs);
      try (quiet Hs; fail).
    (* the datagram has been built *)
    eapply spoke_quiet; [exact Hs | reflexivity | reflexivity |].
    intros l' Hl'. cbn [allowed] in *. split; [exact Hl'|].
    intros a'. apply (command_packed _ _ _ _ _ _ _ _ Hp).
  - destruct mpc as [|k p| | | | |l|l| | | | |]; [|destruct k, p| | | | | | | | | | |];
      run_step; quiet Hs.
  - destruct mpc; try (run_step; exact Hs);
      destruct lpc as [| |h|h|h m|h|h t|h|h|ack|ack|ack t| |ts|lat| | |];
      try destruct h as [[[command sq] clk] ts'];
      run_step;
      try destruct (Client.running _);
      try (destruct incoming as [data|];
           [destruct (Client.parse_message c data) as [[hh ?]|]|]);
      try (destruct (_ && _); [|destruct (_ && _); [|destruct (_ =? _)]]);
      try destruct ack;
      (eapply spoke_quiet;
       [exact Hs | reflexivity | first [reflexivity | apply sent_printed] | auto]).
  - destruct mpc; try (run_step; exact Hs);
      destruct wpc; run_step;
      try destruct (Client.running _);
      try destruct (Client.pending_ack _); try destruct (Qgtb _ _);
      (eapply spoke_quiet;
       [exact Hs | reflexivity | first [reflexivity | apply sent_printed] | auto]).
Qed.

Lemma steps_spoke (base : list (bytes * Addr)) (a : Addr)
      (schedule : list Client.Action) (cfg : Client.Config) :
  spoke base a cfg -> spoke base a (Client.steps encode_utf8 schedule cfg).
Proof.
  unfold Client.steps. revert cfg.
  induction schedule as [|act schedule IH]; intros cfg Hs; cbn [fold_left].
  - exact Hs.
  - apply IH, step_spoke, Hs.
Qed.

(** X18. The client keeps to the protocol's order whatever happens. From the
    entry of [run], under every interleaving of the three threads and whatever
    the keyboard and the network deliver (Ctrl-C and exceptions of
    [struct.pack] included), the datagrams the client has sent all went to
    the server's address, and their commands are: nothing yet, or one HELLO
    followed by DATA messages only, or that followed by one GOODBYE as the
    last datagram. The client never sends ALIVE, never a second HELLO or
    GOODBYE, and nothing after its GOODBYE. *)
Theorem client_says_hello_data_goodbye
        (schedule : list Client.Action) (c : Client.UDPClient) (w : World) :
  exists (l : list (bytes * Addr)) (k : nat),
    sent (events (Client.world (Client.steps encode_utf8 schedule (Client.start c w))))
    = sent (events w) ++ l /\
    Forall (fun d => snd d = Client.server_addr c) l /\
    (map command_of l = [] \/
     map command_of l = Some CMD_HELLO :: repeat (Some CMD_DATA) k \/
     map command_of l = Some CMD_HELLO :: repeat (Some CMD_DATA) k ++ [Some CMD_GOODBYE]).
Proof.
  assert (Hstart : spoke (sent (events w)) (Client.server_addr c) (Client.start c w)).
  { split; [reflexivity|]. exists []. cbn [Client.start Client.world Client.main].
    split; [symmetry; apply app_nil_r|]. split; [constructor | reflexivity]. }
  destruct (steps_spoke _ _ schedule _ Hstart) as [_ (l & Hl & Hto & Hal)].
  apply allowed_exit in Hal. cbn [allowed] in Hal.
  exists l. destruct Hal as [H|[[k H]|[k H]]].
  - exists 0%nat. split; [exact Hl|]. split; [exact Hto|]. left. exact H.
  - exists k. split; [exact Hl|]. split; [exact Hto|]. right. left. exact H.
  - exists k. split; [exact Hl|]. split; [exact Hto|]. right. right. exact H.
Qed.

End ClientTrace.

(** * What the server says, and when *)

Section ServerVoice.
Import Wire Effects.
Variable decode_strip : bytes -> string.

(** A statement that sends at most [n] datagrams, all of them as [P] wants,
    however it ends. *)
Definition says_upto {O A} (P : bytes * Addr -> Prop) (n : nat) (m : M O A) : Prop :=
  forall st, exists l,
    sent (events (snd (snd (m st)))) = sent (events (snd st)) ++ l /\
    (length l <= n)%nat /\ Forall P l.

Section Says.
Context {O : Type} (P : bytes * Addr -> Prop).

Lemma says_nothing {A} (m : M O A) :
  (forall st, sent (events (snd (snd (m st)))) = sent (events (snd st))) ->
  says_upto P 0 m.
Proof.
  intros H st. exists []. rewrite H, app_nil_r. repeat split; auto.
Qed.

Lemma says_ret {A} (a : A) : says_upto P 0 (@ret O A a).
Proof. apply says_nothing. reflexivity. Qed.

Lemma says_raise {A} (e : exn) : says_upto P 0 (@raise O A e).
Proof. apply says_nothing. reflexivity. Qed.

Lemma says_get : says_upto P 0 (@get O).
Proof. apply says_nothing. reflexivity. Qed.

Lemma says_time : says_upto P 0 (@time_time O).
Proof. apply says_nothing. reflexivity. Qed.

Lemma says_modify (f : O -> O) : says_upto P 0 (modify f).
Proof. apply says_nothing. reflexivity. Qed.

Lemma says_print (m : LogMsg) : says_upto P 0 (@print O m).
Proof.
  apply says_nothing. intros st. cbn. rewrite sent_app. cbn. apply app_nil_r.
Qed.

Lemma says_more {A} (n n' : nat) (m : M O A) :
  (n <= n')%nat -> says_upto P n m -> says_upto P n' m.
Proof.
  intros Hn Hm st. destruct (Hm st) as (l & H1 & H2 & H3).
  exists l. repeat split; auto. lia.
Qed.

Lemma says_bind {A B} (n k : nat) (m : M O A) (f : A -> M O B) :
  says_upto P n m -> (forall a, says_upto P k (f a)) -> says_upto P (n + k) (bind m f).
Proof.
  intros Hm Hf st. unfold bind. destruct (Hm st) as (l & H1 & H2 & H3).
  destruct (m st) as [[a|e] st1]; cbn [snd] in *.
  - destruct (Hf a st1) as (l' & H1' & H2' & H3').
    exists (l ++ l'). rewrite H1', H1, length_app.
    split; [symmetry; apply app_assoc|]. split; [lia | apply Forall_app; auto].
  - exists l. repeat split; auto. lia.
Qed.

Lemma says_first {A B} (n : nat) (m : M O A) (f : A -> M O B) :
  says_upto P n m -> (forall a, says_upto P 0 (f a)) -> says_upto P n (bind m f).
Proof.
  intros Hm Hf. apply (says_more (n + 0) n); [lia|]. apply says_bind; assumption.
Qed.

Lemma says_later {A B} (n : nat) (m : M O A) (f : A -> M O B) :
  says_upto P 0 m -> (forall a, says_upto P n (f a)) -> says_upto P n (bind m f).
Proof. intros Hm Hf. apply (says_bind 0 n); assumption. Qed.

Lemma says_for_each {A} (l : list A) (body : A -> M O unit) :
  (forall x, says_upto P 1 (body x)) -> says_upto P (length l) (for_each l body).
Proof.
  intros Hbody. induction l as [|x l IH]; cbn [for_each length].
  - apply says_ret.
  - apply (says_bind 1 (length l)); [apply Hbody | intros _; exact IH].
Qed.

End Says.

Ltac says_quiet :=
  first [ apply says_ret | apply says_get | apply says_time | apply says_modify
        | apply says_print | apply says_raise ].

Ltac says_all :=
  repeat first [ says_quiet | apply says_later; [says_quiet | intros ?] ].

Lemma says_update_clock (P : bytes * Addr -> Prop) (r : option Z) :
  says_upto P 0 (Server.update_clock r).
Proof.
  apply says_nothing. intros [s w]. rewrite server_update_clock_eq. reflexivity.
Qed.

Lemma says_send_message (P : bytes * Addr -> Prop) (command seq_num : Z) (data : bytes) :
  (forall d, command_of d = Some command -> P d) ->
  says_upto P 1 (Server.send_message command seq_num data).
Proof.
  intros HP [s w]. rewrite server_send_message_eq. cbv zeta.
  destruct (struct_pack _ _ _ _ _ _ _) as [h|] eqn:Hp; cbn [snd events emit_world tick_world].
  - exists [(h ++ data, Server.addr s)]. rewrite sent_app.
    split; [reflexivity|]. split; [cbn; lia|].
    constructor; [|constructor]. apply HP. unfold command_of. cbn [fst].
    rewrite (server_parse_packed _ _ _ _ _ _ data Hp). reflexivity.
  - exists []. rewrite app_nil_r. repeat split; auto.
Qed.

Lemma says_lost_packets (P : bytes * Addr -> Prop) (turns : nat) (seq_num : Z) :
  says_upto P 0 (Server.lost_packets turns seq_num).
Proof.
  induction turns as [|turns IH]; cbn [Server.lost_packets]; [apply says_ret|].
  apply says_later; [apply says_get|]. intros s.
  destruct (_ <? _); [|apply says_ret].
  apply says_later; [apply says_print|]. intros _.
  apply says_later; [apply says_modify|]. intros _. exact IH.
Qed.

Lemma says_on_session {A} (P : bytes * Addr -> Prop) (n : nat)
      (session_id : Z) (m : M Server.Session A) :
  says_upto P n m -> says_upto P n (Server.on_session session_id m).
Proof.
  intros Hm [srv w]. unfold Server.on_session.
  destruct (Dict.lookup session_id (Server.sessions srv)) as [s|].
  - destruct (Hm (s, w)) as (l & H1 & H2 & H3).
    destruct (m (s, w)) as [r [s' w']]. exists l. repeat split; auto.
  - exists []. cbn [snd]. rewrite app_nil_r.
    split; [reflexivity|]. split; [cbn; lia | constructor].
Qed.

(** The replies the protocol allows to a request. *)
Definition answers (request reply : option Z) : Prop :=
  match request with
  | Some command =>
      if command =? CMD_HELLO then reply = Some CMD_HELLO \/ reply = Some CMD_GOODBYE
      else if command =? CMD_DATA then reply = Some CMD_ALIVE
      else if command =? CMD_GOODBYE then reply = Some CMD_GOODBYE
      else False
  | None => False
  end.

Lemma says_handle_hello (P : bytes * Addr -> Prop) (h : Server.Header) :
  (forall d, command_of d = Some CMD_HELLO \/ command_of d = Some CMD_GOODBYE -> P d) ->
  says_upto P 1 (Server.handle_hello h).
Proof.
  intros HP. destruct h as [[[command seq_num] logical_clock] timestamp].
  unfold Server.handle_hello.
  apply says_later; [apply says_get|]. intros s.
  destruct (negb _).
  - apply says_later; [apply says_print|]. intros _.
    apply says_first; [apply says_send_message; auto | intros _; apply says_modify].
  - apply says_later; [apply says_print|]. intros _.
    apply says_later; [apply says_update_clock|]. intros _.
    apply says_later; [apply says_get|]. intros s'.
    apply says_first; [apply says_send_message; auto | intros _; apply says_modify].
Qed.

Lemma says_handle_data (P : bytes * Addr -> Prop) (h : Server.Header) (data : bytes) :
  (forall d, command_of d = Some CMD_ALIVE -> P d) ->
  says_upto P 1 (Server.handle_data decode_strip h data).
Proof.
  intros HP. destruct h as [[[command seq_num] logical_clock] timestamp].
  unfold Server.handle_data.
  apply says_later; [apply says_get|]. intros s.
  destruct (_ <? _); [apply (says_more P 0 1); [lia | apply says_print]|].
  apply says_later; [apply says_lost_packets|]. intros _.
  apply says_later.
  { destruct (negb _); [|apply says_ret].
    apply says_later; [apply says_get | intros ?; apply says_print]. }
  intros _.
  apply says_later; [apply says_update_clock|]. intros _.
  apply says_later; [apply says_get|]. intros s'.
  apply says_first; [apply says_send_message; auto|]. intros _. says_all.
Qed.

Lemma says_handle_goodbye (P : bytes * Addr -> Prop) (h : Server.Header) :
  (forall d, command_of d = Some CMD_GOODBYE -> P d) ->
  says_upto P 1 (Server.handle_goodbye h).
Proof.
  intros HP. destruct h as [[[command seq_num] logical_clock] timestamp].
  unfold Server.handle_goodbye.
  apply says_later; [apply says_get|]. intros s.
  apply says_later; [apply says_print|]. intros _.
  apply says_later; [apply says_update_clock|]. intros _.
  apply says_later; [apply says_get|]. intros s'.
  apply says_first; [apply says_send_message; auto|]. intros _. says_all.
Qed.

Lemma says_check_timeout (P : bytes * Addr -> Prop) :
  (forall d, command_of d = Some CMD_GOODBYE -> P d) ->
  says_upto P 1 Server.check_timeout.
Proof.
  intros HP. unfold Server.check_timeout.
  apply says_later; [apply says_time|]. intros now.
  apply says_later; [apply says_get|]. intros s.
  destruct (_ && _); [|apply (says_more P 0 1); [lia | apply says_ret]].
  apply says_later; [apply says_print|]. intros _.
  apply says_first; [apply says_send_message; auto|]. intros _. says_all.
Qed.

(** X19. The server speaks only when spoken to, and once. However the
    handling of a datagram ends, [handle_packet] has sent at most one
    datagram, and only the reply the protocol allows: HELLO or GOODBYE to a
    HELLO, ALIVE to a DATA, GOODBYE to a GOODBYE; to anything else (an ALIVE,
    an unknown command, a datagram that does not decode) it sends nothing.
    The sweep at the head of each turn of [run] sends at most one datagram
    per session of the table, each a GOODBYE. *)
Theorem server_speaks_only_in_reply
        (data : bytes) (from : Addr) (srv : Server.UDPServer) (w : World) :
  (exists l,
     sent (events (snd (snd (Server.handle_packet decode_strip data from (srv, w)))))
     = sent (events w) ++ l /\
     (length l <= 1)%nat /\
     Forall (fun d => answers (command_of (data, from)) (command_of d)) l) /\
  (exists l,
     sent (events (snd (snd (Server.sweep (srv, w))))) = sent (events w) ++ l /\
     (length l <= length (Server.sessions srv))%nat /\
     Forall (fun d => command_of d = Some CMD_GOODBYE) l).
Proof.
  split.
  - set (P := fun d => answers (command_of (data, from)) (command_of d)).
    enough (H : says_upto P 1 (Server.handle_packet decode_strip data from))
      by exact (H (srv, w)).
    subst P. unfold Server.handle_packet, command_of at 1. cbn [fst].
    destruct (Server.parse_message data)
      as [[[[[[command seq_num] session_id] logical_clock] timestamp] payload]|];
      [|apply (says_more _ 0 1); [lia | apply says_ret]].
    cbn [answers].
    apply says_later; [apply says_get|]. intros srv0.
    destruct (_ && _); [apply (says_more _ 0 1); [lia | apply says_ret]|].
    apply says_later.
    { destruct (negb _); [|apply says_ret]. unfold Server.Session_init.
      says_all. }
    intros _. cbv zeta.
    destruct (command =? CMD_HELLO).
    { apply says_on_session, says_handle_hello. auto. }
    destruct (command =? CMD_DATA).
    { apply says_on_session, says_handle_data. auto. }
    destruct (command =? CMD_GOODBYE).
    { apply says_first; [|intros _; apply says_modify].
      apply says_on_session, says_handle_goodbye. auto. }
    apply (says_more _ 0 1); [lia | apply says_ret].
  - rewrite sweep_unfold.
    replace (length (Server.sessions srv)) with (length (Dict.keys (Server.sessions srv)))
      by (unfold Dict.keys; apply length_map).
    apply (says_for_each (fun d => command_of d = Some CMD_GOODBYE)).
    intros k. unfold sweep_body.
    apply says_first.
    + apply says_on_session, says_check_timeout. auto.
    + intros expired. destruct expired; [apply says_modify | apply says_ret].
Qed.

End ServerVoice.

(** * Timeouts and the end of the loop *)

Section ActivityAndLoop.
Import Wire Effects.
Variable decode_strip : bytes -> string.

(** A method that leaves [last_activity] as it found it, however it ends. *)
Definition keeps_activity {A} (m : M Server.Session A) : Prop :=
  forall s w, Server.last_activity (fst (snd (m (s, w)))) = Server.last_activity s.

Lemma keeps_activity_ret {A} (a : A) : keeps_activity (ret a).
Proof. intros s w. reflexivity. Qed.

Lemma keeps_activity_get : keeps_activity get.
Proof. intros s w. reflexivity. Qed.

Lemma keeps_activity_time : keeps_activity time_time.
Proof. intros s w. reflexivity. Qed.

Lemma keeps_activity_print (m : LogMsg) : keeps_activity (print m).
Proof. intros s w. reflexivity. Qed.

Lemma keeps_activity_modify (f : Server.Session -> Server.Session) :
  (forall s, Server.last_activity (f s) = Server.last_activity s) ->
  keeps_activity (modify f).
Proof. intros Hf s w. apply Hf. Qed.

Lemma keeps_activity_bind {A B} (m : M Server.Session A) (k : A -> M Server.Session B) :
  keeps_activity m -> (forall a, keeps_activity (k a)) -> keeps_activity (bind m k).
Proof.
  intros Hm Hk s w. unfold bind. specialize (Hm s w).
  destruct (m (s, w)) as [[a|e] [s1 w1]]; cbn [fst snd] in *; [|exact Hm].
  rewrite (Hk a s1 w1). exact Hm.
Qed.

Lemma keeps_activity_update_clock (r : option Z) : keeps_activity (Server.update_clock r).
Proof. intros s w. rewrite server_update_clock_eq. reflexivity. Qed.

Lemma keeps_activity_send_message (command seq_num : Z) (data : bytes) :
  keeps_activity (Server.send_message command seq_num data).
Proof.
  intros s w. rewrite server_send_message_eq. cbv zeta.
  destruct (struct_pack _ _ _ _ _ _ _); reflexivity.
Qed.

Ltac keeps_activity_all :=
  repeat first [ apply keeps_activity_ret | apply keeps_activity_get
               | apply keeps_activity_time | apply keeps_activity_print
               | apply keeps_activity_update_clock | apply keeps_activity_send_message
               | apply keeps_activity_modify; intros ?; reflexivity
               | apply keeps_activity_bind; [|intros ?] ].

(** X20. Only an accepted DATA message counts as activity. Whatever they are
    given and however they end, [handle_hello] (the first HELLO and a repeated
    one), [handle_goodbye] and [check_timeout] leave [last_activity] as it
    was, and so does [handle_data] on a duplicate: the ten seconds of the idle
    timeout run from the creation of the session or from its last accepted
    DATA message, not from the last datagram received. An accepted DATA
    message whose reply can be packed sets [last_activity] to the wall clock
    read after the reply was sent. *)
Theorem only_accepted_data_is_activity
        (s : Server.Session) (w : World)
        (command seq_num logical_clock timestamp : Z) (data : bytes) :
  let h := (command, seq_num, logical_clock, timestamp) in
  Server.last_activity (fst (snd (Server.handle_hello h (s, w)))) = Server.last_activity s /\
  Server.last_activity (fst (snd (Server.handle_goodbye h (s, w)))) = Server.last_activity s /\
  Server.last_activity (fst (snd (Server.check_timeout (s, w)))) = Server.last_activity s /\
  (seq_num < Server.expected_seq s ->
   Server.last_activity (fst (snd (Server.handle_data decode_strip h data (s, w))))
   = Server.last_activity s) /\
  (Server.expected_seq s <= seq_num ->
   fits 4 seq_num -> fits 4 (Server.session_id s) ->
   fits 8 (Z.max (Server.logical_clock s) logical_clock + 2) ->
   fits 8 (timestamp_in w) ->
   Server.last_activity (fst (snd (Server.handle_data decode_strip h data (s, w))))
   = now_at w (S (reads w))).
Proof.
  cbv zeta. split; [|split; [|split; [|split]]].
  - revert s w. change (keeps_activity (Server.handle_hello
                                          (command, seq_num, logical_clock, timestamp))).
    unfold Server.handle_hello.
    apply keeps_activity_bind; [apply keeps_activity_get|]. intros s.
    destruct (negb _); keeps_activity_all.
  - revert s w. change (keeps_activity (Server.handle_goodbye
                                          (command, seq_num, logical_clock, timestamp))).
    unfold Server.handle_goodbye. keeps_activity_all.
  - revert s w. change (keeps_activity Server.check_timeout).
    unfold Server.check_timeout.
    apply keeps_activity_bind; [apply keeps_activity_time|]. intros now.
    apply keeps_activity_bind; [apply keeps_activity_get|]. intros s.
    destruct (_ && _); keeps_activity_all.
  - intros Hdup. unfold Server.handle_data. unfold bind at 1. cbn [get fst].
    apply Z.ltb_lt in Hdup. rewrite Hdup. reflexivity.
  - intros Hle Hseq Hsid Hclk Hts.
    destruct (handle_data_fresh_ok decode_strip command seq_num logical_clock timestamp
                data s w Hle Hseq Hsid Hclk Hts) as (msg & s' & w' & Hrun & _ & _ & Hs').
    rewrite Hrun, Hs'. reflexivity.
Qed.

Lemma run_loop_stopped (incoming : list (option (bytes * Addr)))
      (srv : Server.UDPServer) (w : World) :
  Server.running srv = false ->
  Server.run_loop decode_strip incoming (srv, w) = (Return tt, (srv, w)).
Proof.
  intros Hr. destruct incoming as [|i rest]; [reflexivity|].
  cbn [Server.run_loop]. unfold bind at 1. cbn [get fst]. rewrite Hr. reflexivity.
Qed.

(** X21. One datagram whose handling raises ends the service. If the sweep of
    a turn returns and [handle_packet] then raises (the [struct.error] of a
    reply that cannot be packed, say), the bare [except] of [run] swallows the
    exception and clears [running]: the loop returns normally with the
    datagrams that are still to come unread, whatever they are, and the
    server state is the one the failed handler left, with [running] false. *)
Theorem exception_in_handler_ends_loop
        (data : bytes) (addr : Addr) (rest : list (option (bytes * Addr)))
        (srv srv1 srv2 : Server.UDPServer) (w w1 w2 : World) (e : exn) :
  Server.running srv = true ->
  Server.sweep (srv, w) = (Return tt, (srv1, w1)) ->
  Server.handle_packet decode_strip data addr (srv1, w1) = (Raise e, (srv2, w2)) ->
  Server.run_loop decode_strip (Some (data, addr) :: rest) (srv, w)
  = (Return tt, (Server.set_running false srv2, w2)).
Proof.
  intros Hr Hsweep Hraise. cbn [Server.run_loop].
  unfold bind at 1. cbn [get fst]. rewrite Hr.
  unfold bind at 1. unfold Server.run_turn. unfold bind at 1. rewrite Hsweep.
  unfold try_except. rewrite Hraise. cbn [modify fst snd].
  apply run_loop_stopped. reflexivity.
Qed.

(** A session is idle at every reading of the wall clock from now on. *)
Definition idle_from (w : World) (s : Server.Session) : Prop :=
  forall n, (reads w <= n)%nat -> (10 < now_at w n - Server.last_activity s)%Q.

(** What the sweep does to the sessions it is still to visit, [ks], when every
    GOODBYE it may have to send can be packed. *)
Lemma sweep_loop_from (ks : list Z) :
  forall (d : Dict.t Server.Session) (r : bool) (w : World),
  NoDup ks -> NoDup (Dict.keys d) ->
  (forall k, In k ks ->
     exists s, Dict.lookup k d = Some s /\ Server.session_id s = k /\ goodbye_fits s) ->
  timestamps_fit w ->
  exists d' w' new,
    for_each ks sweep_body (Server.mkServer d r, w)
    = (Return tt, (Server.mkServer d' r, w')) /\
    events w' = events w ++ new /\ now_at w' = now_at w /\
    NoDup (Dict.keys d') /\
    (forall k, ~ In k ks ->
       Dict.lookup k d' = Dict.lookup k d /\ goodbyes_for k new = []) /\
    (forall k s, In k ks -> Dict.lookup k d = Some s ->
       (Server.active s = true -> idle_from w s ->
        Dict.lookup k d' = None /\
        exists msg clock timestamp,
          goodbyes_for k new = [SendTo msg (Server.addr s)] /\
          Server.parse_message msg
          = Some (CMD_GOODBYE, Server.expected_seq s, k, clock, timestamp, [])) /\
       (Server.active s = false ->
        Dict.lookup k d' = Some s /\ goodbyes_for k new = [])).
Proof.
  induction ks as [|k0 ks IH]; intros d r w Hks Hd Hfit Hts.
  - exists d, w, []. cbn [for_each ret]. rewrite app_nil_r.
    split; [reflexivity|]. split; [reflexivity|]. split; [reflexivity|].
    split; [exact Hd|]. split.
    + intros k _. split; reflexivity.
    + intros k s [].
  - inversion Hks as [|? ? Hk0 Hks']; subst.
    destruct (Hfit k0 (or_introl eq_refl)) as (s0 & Hl0 & Hid0 & Hg0).
    cbn [for_each]. unfold bind at 1. unfold sweep_body at 1. unfold bind at 1.
    rewrite (on_session_eq k0 _ (Server.mkServer d r) w s0 Hl0). cbn [Server.sessions].
    destruct (Qgtb (now_at w (reads w) - Server.last_activity s0) 10 && Server.active s0)
      eqn:Eexp.
    + (* the session has expired *)
      apply andb_prop in Eexp. destruct Eexp as [Hidle Hact].
      apply Qgtb_true in Hidle.
      destruct (check_timeout_expired s0 w Hidle Hact Hg0 (Hts _)) as (msg & Hrun & Hparse).
      rewrite Hrun. unfold modify, Server.set_sessions.
      cbn [fst snd Server.sessions Server.running]. rewrite dict_del_set.
      set (w1 := mkWorld _ (now_at w) (S (S (reads w)))).
      destruct (IH (Dict.del k0 d) r w1) as (d' & w' & new & Hrun' & Hev & Hnow & Hd' & Hout & Hin).
      { exact Hks'. }
      { apply dict_NoDup_keys_del. exact Hd. }
      { intros k Hk. destruct (Hfit k (or_intror Hk)) as (s & Hl & Hid & Hg).
        exists s. rewrite dict_lookup_del_other by congruence. auto. }
      { exact Hts. }
      rewrite Hrun'. exists d', w', ([Print (LogTimeout (Server.session_id s0));
                                      SendTo msg (Server.addr s0)] ++ new).
      split; [reflexivity|]. split.
      { rewrite Hev. unfold w1. cbn [events]. rewrite <- (app_assoc (A:=Event)). reflexivity. }
      split; [exact Hnow|]. split; [exact Hd'|].
      assert (Hhead : forall k, goodbyes_for k [Print (LogTimeout (Server.session_id s0));
                                                SendTo msg (Server.addr s0)]
                                = if k0 =? k then [SendTo msg (Server.addr s0)] else []).
      { intros k. cbn [goodbyes_for filter]. rewrite Hparse, Hid0.
        change (CMD_GOODBYE =? CMD_GOODBYE) with true. cbn [andb].
        destruct (k0 =? k); reflexivity. }
      split.
      * intros k Hk. assert (Hne : k <> k0) by (intros ->; apply Hk; left; reflexivity).
        destruct (Hout k) as [Hl Hg]; [intros H; apply Hk; right; exact H|].
        split.
        -- rewrite Hl. apply dict_lookup_del_other. exact Hne.
        -- rewrite goodbyes_for_app, Hhead, Hg.
           replace (k0 =? k) with false by (symmetry; apply Z.eqb_neq; congruence).
           reflexivity.
      * intros k s [->|Hk] Hl.
        -- assert (s = s0) by congruence. subst s.
           destruct (Hout k Hk0) as [Hl' Hg'].
           split.
           ++ intros _ _. split.
              ** rewrite Hl'. apply dict_lookup_del_same. exact Hd.
              ** exists msg. do 2 eexists. split.
                 --- rewrite goodbyes_for_app, Hhead, Hg', Z.eqb_refl. reflexivity.
                 --- rewrite Hid0 in Hparse. exact Hparse.
           ++ intros H. congruence.
        -- assert (Hne : k <> k0) by (intros ->; contradiction).
           assert (Hl1 : Dict.lookup k (Dict.del k0 d) = Some s)
             by (rewrite dict_lookup_del_other; assumption).
           destruct (Hin k s Hk Hl1) as [Hexp Hkeep].
           assert (Hg : forall l, goodbyes_for k
                          ([Print (LogTimeout (Server.session_id s0));
                            SendTo msg (Server.addr s0)] ++ l) = goodbyes_for k l).
           { intros l. rewrite goodbyes_for_app, Hhead.
             replace (k0 =? k) with false by (symmetry; apply Z.eqb_neq; congruence).
             reflexivity. }
           split.
           ++ intros Ha Hi. rewrite Hg. apply Hexp; [assumption|].
              intros n Hn. apply Hi. unfold w1 in Hn. cbn [reads] in Hn. lia.
           ++ intros Ha. rewrite Hg. apply Hkeep. assumption.
    + (* the session stays *)
      rewrite (check_timeout_kept s0 w Eexp).
      unfold ret, Server.set_sessions. cbn [fst snd Server.sessions Server.running].
      rewrite (dict_set_lookup_same _ _ _ Hl0).
      destruct (IH d r (tick_world w)) as (d' & w' & new & Hrun' & Hev & Hnow & Hd' & Hout & Hin).
      { exact Hks'. }
      { exact Hd. }
      { intros k Hk. apply Hfit. right. exact Hk. }
      { exact Hts. }
      rewrite Hrun'. exists d', w', new.
      split; [reflexivity|]. split; [exact Hev|]. split; [exact Hnow|]. split; [exact Hd'|].
      split.
      * intros k Hk. apply Hout. intros H. apply Hk. right. exact H.
      * intros k s [->|Hk] Hl.
        -- assert (s = s0) by congruence. subst s.
           destruct (Hout k Hk0) as [Hl' Hg']. split.
           ++ intros Ha Hi. exfalso.
              specialize (Hi (reads w) (Nat.le_refl _)). apply Qgtb_true in Hi.
              rewrite Hi, Ha in Eexp. discriminate Eexp.
           ++ intros _. split; congruence.
        -- destruct (Hin k s Hk Hl) as [Hexp Hkeep]. split; [|exact Hkeep].
           intros Ha Hi. apply Hexp; [assumption|].
           intros n Hn. apply Hi. cbn [tick_world reads] in Hn. lia.
Qed.

(** X22. The sweep reclaims an idle session. For a table in good order whose
    sessions can all send their GOODBYE, the sweep returns, an active session
    whose last activity lies more than ten seconds before every reading of
    the clock that is still to come has left the table, and exactly one
    GOODBYE was sent for it, to its peer, with the sequence number the
    session expected next. *)
Theorem idle_session_is_reclaimed
        (srv : Server.UDPServer) (w : World) (k : Z) (s : Server.Session) :
  table_ok (Server.sessions srv) ->
  (forall k' s', Dict.lookup k' (Server.sessions srv) = Some s' -> goodbye_fits s') ->
  timestamps_fit w ->
  Dict.lookup k (Server.sessions srv) = Some s ->
  Server.active s = true -> idle_from w s ->
  exists srv' w' new msg clock timestamp,
    Server.sweep (srv, w) = (Return tt, (srv', w')) /\
    events w' = events w ++ new /\
    Dict.lookup k (Server.sessions srv') = None /\
    goodbyes_for k new = [SendTo msg (Server.addr s)] /\
    Server.parse_message msg
    = Some (CMD_GOODBYE, Server.expected_seq s, k, clock, timestamp, []).
Proof.
  intros [Hnd Hid] Hfit Hts Hl Ha Hi. rewrite sweep_unfold. destruct srv as [d r].
  cbn [Server.sessions] in *.
  destruct (sweep_loop_from (Dict.keys d) d r w)
    as (d' & w' & new & Hrun & Hev & _ & _ & _ & Hin); try assumption.
  { intros k' Hk'. apply dict_lookup_In_keys in Hk'. destruct Hk' as [s' Hs'].
    exists s'. split; [exact Hs'|]. split; [apply (Hid k' s' Hs') | apply (Hfit k' s' Hs')]. }
  assert (Hk : In k (Dict.keys d)) by (apply dict_lookup_In_keys; eauto).
  destruct (Hin k s Hk Hl) as [Hexp _].
  destruct (Hexp Ha Hi) as (Hgone & msg & clock & timestamp & Hg & Hparse).
  exists (Server.mkServer d' r), w', new, msg, clock, timestamp. auto.
Qed.

End ActivityAndLoop.

(** * The further properties on examples *)

Section MoreExamples.
Import Wire Effects.

(** A server that knows session 7 only, which expects [expected_seq]. *)
Definition server_with (expected_seq : Z) : Server.UDPServer :=
  Server.mkServer [(7, session_at expected_seq)] true.

Lemma table_ok_server_with (expected_seq : Z) :
  table_ok (Server.sessions (server_with expected_seq)).
Proof.
  split.
  - cbn. constructor; [intros [] | constructor].
  - intros k s. cbn. destruct (Z.eqb_spec k 7) as [->|_]; [|discriminate].
    intros H. injection H as <-. reflexivity.
Qed.

Lemma timestamps_fit_quiet_world : timestamps_fit quiet_world.
Proof. intros n. unfold fits. vm_compute. split; [discriminate | reflexivity]. Qed.

(** A datagram of 28 bytes whose version byte is 2. *)
Definition wrong_version : bytes := [xc4; x61; x02] ++ repeat x00 25.

(** X3 for a datagram of the right length and magic but of version 2. *)
Lemma malformed_datagram_is_dropped_witness :
  Server.handle_packet ascii_text wrong_version peer (server_with 1, quiet_world)
  = (Return tt, (server_with 1, quiet_world)) /\
  Client.listen_turn (Some wrong_version) (waiting_client, quiet_world)
  = (Return tt, (waiting_client, quiet_world)).
Proof.
  apply (malformed_datagram_is_dropped ascii_text wrong_version peer (server_with 1)
           waiting_client quiet_world).
  right. cbn. discriminate.
Defined.

(** X4 for an ALIVE of session 9 reaching the client of session 7 while it
    waits for its own ALIVE. *)
Lemma foreign_session_is_ignored_witness :
  Client.listen_turn (Some (datagram CMD_ALIVE 1 9 6 1000 [] ++ [x68; x69]))
                     (waiting_client, quiet_world)
  = (Return tt, (waiting_client, quiet_world)).
Proof.
  apply (foreign_session_is_ignored waiting_client quiet_world
           (datagram CMD_ALIVE 1 9 6 1000 []) [x68; x69] CMD_ALIVE 1 9 6 1000).
  - vm_compute. reflexivity.
  - cbn. discriminate.
Defined.

(** X5 for the HELLO of session 7 reaching a server that knows no session. *)
Lemma first_hello_creates_session_witness :
  exists w' reply,
    Server.handle_packet ascii_text (datagram CMD_HELLO 0 7 1 1000 []) peer
                         (fresh_server, quiet_world)
    = (Return tt,
       (Server.set_sessions
          (Server.sessions fresh_server
           ++ [(7, Server.mkSession 7 peer 1 (now_at quiet_world (reads quiet_world)) true
                                    (Z.max 0 1 + 2))]) fresh_server,
        w')) /\
    sent (events w') = sent (events quiet_world) ++ [(reply, peer)] /\
    Server.parse_message reply
    = Some (CMD_HELLO, 0, 7, Z.max 0 1 + 2,
            int_of_Q (now_at quiet_world (S (reads quiet_world)) * 1000), []).
Proof.
  apply (first_hello_creates_session ascii_text fresh_server quiet_world
           (datagram CMD_HELLO 0 7 1 1000 []) [] peer 0 7 1 1000).
  - vm_compute. reflexivity.
  - intros [].
  - unfold fits. vm_compute. split; [discriminate | reflexivity].
  - unfold fits. vm_compute. split; [discriminate | reflexivity].
Defined.

(** X6 for DATA(seq=5) accepted by session 7 when it expects 2, and
    DATA(seq=3) arriving afterwards. *)
Lemma accepted_data_makes_replays_duplicates_witness :
  let accepted :=
    Server.handle_data ascii_text (CMD_DATA, 5, 9, 1000) [x68; x69]
                       (session_at 2, quiet_world) in
  let s1 := fst (snd accepted) in
  let w1 := snd (snd accepted) in
  fst accepted = Return tt /\
  Server.handle_data ascii_text (CMD_DATA, 3, 9, 1000) [] (s1, w1)
  = (Return tt, (s1, emit_world (Print (LogDuplicate 7 3)) w1)).
Proof.
  apply (accepted_data_makes_replays_duplicates ascii_text (session_at 2) quiet_world
           5 9 1000 [x68; x69] 3 9 1000 []).
  - cbn. lia.
  - unfold fits. vm_compute. split; [discriminate | reflexivity].
  - unfold fits. vm_compute. split; [discriminate | reflexivity].
  - unfold fits. vm_compute. split; [discriminate | reflexivity].
  - unfold fits. vm_compute. split; [discriminate | reflexivity].
  - lia.
Defined.

(** X7 for a DATA message of session 7 with a gap. *)
Lemma handle_packet_moves_sessions_forward_witness :
  let srv' :=
    fst (snd (Server.handle_packet ascii_text (datagram CMD_DATA 5 7 9 1000 [x68; x69]) peer
                                   (server_with 2, quiet_world))) in
  table_ok (Server.sessions srv') /\
  table_le (Server.sessions (server_with 2)) (Server.sessions srv') /\
  Server.running srv' = Server.running (server_with 2).
Proof.
  apply (handle_packet_moves_sessions_forward ascii_text
           (datagram CMD_DATA 5 7 9 1000 [x68; x69]) peer (server_with 2) quiet_world).
  apply table_ok_server_with.
Defined.

(** X8 for a sweep that finds session 7 idle for eleven seconds. *)
Lemma sweep_only_removes_witness :
  let srv' := fst (snd (Server.sweep (server_with 2, late_world 0))) in
  table_ok (Server.sessions srv') /\
  table_le (Server.sessions (server_with 2)) (Server.sessions srv') /\
  incl (Dict.keys (Server.sessions srv')) (Dict.keys (Server.sessions (server_with 2))) /\
  Server.running srv' = Server.running (server_with 2).
Proof.
  apply (sweep_only_removes (server_with 2) (late_world 0)).
  apply table_ok_server_with.
Defined.

(** X9 for a run of three turns: a DATA message, nothing, a GOODBYE. *)
Lemma run_loop_keeps_table_ok_witness :
  table_ok
    (Server.sessions
       (fst (snd (Server.run_loop ascii_text
                    [Some (datagram CMD_DATA 2 7 9 1000 [x68; x69], peer); None;
                     Some (datagram CMD_GOODBYE 3 7 10 1000 [], peer)]
                    (server_with 2, quiet_world))))).
Proof.
  apply (run_loop_keeps_table_ok ascii_text
           [Some (datagram CMD_DATA 2 7 9 1000 [x68; x69], peer); None;
            Some (datagram CMD_GOODBYE 3 7 10 1000 [], peer)]
           (server_with 2) quiet_world).
  apply table_ok_server_with.
Defined.

(** X10 for session 7 at a time when it has just been active. *)
Lemma sweep_leaves_live_sessions_witness :
  Server.sweep (server_with 2, quiet_world)
  = (Return tt,
     (server_with 2,
      mkWorld (events quiet_world) (now_at quiet_world)
              (reads quiet_world + length (Server.sessions (server_with 2))))).
Proof.
  apply (sweep_leaves_live_sessions (server_with 2) quiet_world).
  intros k s. cbn. destruct (Z.eqb_spec k 7) as [->|_]; [|discriminate].
  intros H. injection H as <-. right. intros n. vm_compute. discriminate.
Defined.

(** X11 for a server that holds session 7 when its loop ends. *)
Lemma cleanup_says_goodbye_to_every_session_witness :
  exists w',
    Server.cleanup (server_with 2, quiet_world)
    = (Return tt, (Server.mkServer [] (Server.running (server_with 2)), w')) /\
    sent_summary (events w')
    = sent_summary (events quiet_world) ++ map farewell (Server.sessions (server_with 2)) /\
    printed (events w') = printed (events quiet_world).
Proof.
  apply (cleanup_says_goodbye_to_every_session (server_with 2) quiet_world).
  - apply table_ok_server_with.
  - intros k s [H|[]]. injection H as <- <-.
    unfold goodbye_fits, fits. vm_compute.
    repeat split; solve [discriminate | reflexivity].
  - apply timestamps_fit_quiet_world.
Defined.

(** X12 for two ALIVE datagrams reaching the client that waits for the
    acknowledgement of its message 1: one numbered 1 and one numbered 99 with
    a payload. *)
Lemma listener_ignores_seq_and_payload_witness :
  Client.listen_turn (Some (datagram CMD_ALIVE 1 7 6 1000 [] ++ []))
                     (waiting_client, quiet_world)
  = Client.listen_turn (Some (datagram CMD_ALIVE 99 7 6 1000 [] ++ [x68; x69]))
                       (waiting_client, quiet_world).
Proof.
  apply (listener_ignores_seq_and_payload waiting_client quiet_world CMD_ALIVE 6 1000 1 99
           (datagram CMD_ALIVE 1 7 6 1000 []) (datagram CMD_ALIVE 99 7 6 1000 [])
           [] [x68; x69]).
  - vm_compute. reflexivity.
  - vm_compute. reflexivity.
Defined.

(** X13 for a HELLO that reaches the client while it waits for ALIVE: it is
    not the acknowledgement awaited. *)
Lemma listener_transitions_witness :
  let result :=
    Client.listen_turn (Some (datagram CMD_HELLO 0 7 9 1000 [] ++ []))
                       (waiting_client, quiet_world) in
  let c' := fst (snd result) in
  fst result = Return tt /\
  sent (events (snd (snd result))) = sent (events quiet_world) /\
  Client.pending_ack c' = false /\
  Client.logical_clock c' = Z.max (Client.logical_clock waiting_client) 9 + 1 /\
  Client.state c'
  = (if awaited CMD_HELLO (Client.state waiting_client)
     then Client.READY else Client.state waiting_client) /\
  Client.seq_num c'
  = (if awaited CMD_HELLO (Client.state waiting_client)
     then Client.seq_num waiting_client + 1 else Client.seq_num waiting_client) /\
  Client.running c'
  = (if awaited CMD_HELLO (Client.state waiting_client) then Client.running waiting_client
     else if CMD_HELLO =? CMD_GOODBYE then false else Client.running waiting_client).
Proof.
  apply (listener_transitions waiting_client quiet_world
           (datagram CMD_HELLO 0 7 9 1000 []) [] CMD_HELLO 0 9 1000).
  vm_compute. reflexivity.
Defined.

(** X15 for the client of session 7 and a server that knows no session. *)
Lemma handshake_synchronises_witness :
  let c := Client.UDPClient_init server_peer 7 in
  exists hello reply c1 wc1 srv1 ws1 c2 wc2 s,
    open_session (c, quiet_world) = (Return 0, (c1, wc1)) /\
    sent (events wc1) = sent (events quiet_world) ++ [(hello, Client.server_addr c)] /\
    Server.handle_packet ascii_text hello peer (fresh_server, quiet_world)
    = (Return tt, (srv1, ws1)) /\
    sent (events ws1) = sent (events quiet_world) ++ [(reply, peer)] /\
    Client.listen_turn (Some reply) (c1, wc1) = (Return tt, (c2, wc2)) /\
    sent (events wc2) = sent (events wc1) /\
    Client.state c2 = Client.READY /\
    Client.seq_num c2 = 1 /\
    Client.pending_ack c2 = false /\
    Dict.lookup (Client.session_id c) (Server.sessions srv1) = Some s /\
    Server.expected_seq s = 1 /\
    Server.addr s = peer /\
    Server.active s = true /\
    Client.logical_clock c < Server.logical_clock s < Client.logical_clock c2.
Proof.
  apply (handshake_synchronises ascii_text (Client.UDPClient_init server_peer 7) quiet_world
           fresh_server quiet_world peer).
  - reflexivity.
  - intros [].
  - unfold fits. vm_compute. split; [discriminate | reflexivity].
  - cbn. lia.
  - unfold fits. vm_compute. split; [discriminate | reflexivity].
  - unfold fits. vm_compute. split; [discriminate | reflexivity].
  - unfold fits. vm_compute. split; [discriminate | reflexivity].
Defined.

(** X16 for the client of session 7 sending its message 1 to a server that
    expects 1. *)
Lemma data_exchange_synchronises_witness :
  exists request reply c1 wc1 srv1 ws1 c2 wc2 s',
    send_line [x68; x69] (ready_client, quiet_world)
    = (Return (Client.seq_num ready_client), (c1, wc1)) /\
    sent (events wc1)
    = sent (events quiet_world) ++ [(request, Client.server_addr ready_client)] /\
    Server.handle_packet ascii_text request peer (server_with 1, quiet_world)
    = (Return tt, (srv1, ws1)) /\
    sent (events ws1) = sent (events quiet_world) ++ [(reply, Server.addr (session_at 1))] /\
    Client.listen_turn (Some reply) (c1, wc1) = (Return tt, (c2, wc2)) /\
    sent (events wc2) = sent (events wc1) /\
    Client.state c2 = Client.READY /\
    Client.seq_num c2 = Client.seq_num ready_client + 1 /\
    Client.pending_ack c2 = false /\
    Dict.lookup (Client.session_id ready_client) (Server.sessions srv1) = Some s' /\
    Server.expected_seq s' = Client.seq_num ready_client + 1 /\
    Client.logical_clock ready_client < Server.logical_clock s' < Client.logical_clock c2 /\
    Server.logical_clock (session_at 1) < Server.logical_clock s'.
Proof.
  apply (data_exchange_synchronises ascii_text ready_client quiet_world [x68; x69]
           (server_with 1) quiet_world peer (session_at 1)).
  - reflexivity.
  - reflexivity.
  - cbn. lia.
  - unfold fits. vm_compute. split; [discriminate | reflexivity].
  - unfold fits. vm_compute. split; [discriminate | reflexivity].
  - cbn. lia.
  - unfold fits. vm_compute. split; [discriminate | reflexivity].
  - unfold fits. vm_compute. split; [discriminate | reflexivity].
  - unfold fits. vm_compute. split; [discriminate | reflexivity].
Defined.

(** X17 for the client of session 7 taking leave of a server that holds its
    session. *)
Lemma goodbye_closes_both_sides_witness :
  exists request reply c1 wc1 srv1 ws1 c2 wc2,
    take_leave (ready_client, quiet_world)
    = (Return (Client.seq_num ready_client), (c1, wc1)) /\
    sent (events wc1)
    = sent (events quiet_world) ++ [(request, Client.server_addr ready_client)] /\
    Server.handle_packet ascii_text request peer (server_with 1, quiet_world)
    = (Return tt, (srv1, ws1)) /\
    sent (events ws1) = sent (events quiet_world) ++ [(reply, Server.addr (session_at 1))] /\
    Dict.lookup (Client.session_id ready_client) (Server.sessions srv1) = None /\
    Client.listen_turn (Some reply) (c1, wc1) = (Return tt, (c2, wc2)) /\
    sent (events wc2) = sent (events wc1) /\
    Client.running c2 = false /\
    Client.state c2 = Client.state ready_client /\
    Client.seq_num c2 = Client.seq_num ready_client.
Proof.
  apply (goodbye_closes_both_sides ascii_text ready_client quiet_world
           (server_with 1) quiet_world peer (session_at 1)).
  - reflexivity.
  - reflexivity.
  - apply table_ok_server_with.
  - unfold fits. vm_compute. split; [discriminate | reflexivity].
  - unfold fits. vm_compute. split; [discriminate | reflexivity].
  - unfold fits. vm_compute. split; [discriminate | reflexivity].
  - cbn. lia.
  - unfold fits. vm_compute. split; [discriminate | reflexivity].
  - unfold fits. vm_compute. split; [discriminate | reflexivity].
  - unfold fits. vm_compute. split; [discriminate | reflexivity].
Defined.

(** X21 for the DATA message of C3, whose clock field holds the largest 64-bit
    value, followed by a DATA message that is never read. *)
Lemma exception_in_handler_ends_loop_witness :
  Server.run_loop ascii_text
    [Some (datagram CMD_DATA 5 7 (2 ^ 64 - 1) 1000 [], peer);
     Some (datagram CMD_DATA 6 7 1 1000 [x68; x69], peer)]
    (server_with 2, quiet_world)
  = (Return tt,
     (Server.set_running false
        (Server.mkServer [(7, Server.mkSession 7 peer 5 1700000000 true (2 ^ 64 + 1))] true),
      mkWorld [Print (LogLost 7 2); Print (LogLost 7 3); Print (LogLost 7 4)]
              (now_at quiet_world) 2)).
Proof.
  apply (exception_in_handler_ends_loop ascii_text
           (datagram CMD_DATA 5 7 (2 ^ 64 - 1) 1000 []) peer
           [Some (datagram CMD_DATA 6 7 1 1000 [x68; x69], peer)]
           (server_with 2) (server_with 2)
           (Server.mkServer [(7, Server.mkSession 7 peer 5 1700000000 true (2 ^ 64 + 1))] true)
           quiet_world (mkWorld [] (now_at quiet_world) 1)
           (mkWorld [Print (LogLost 7 2); Print (LogLost 7 3); Print (LogLost 7 4)]
                    (now_at quiet_world) 2)
           StructError).
  - reflexivity.
  - vm_compute. reflexivity.
  - vm_compute. reflexivity.
Defined.

(** The server after it has accepted the HELLO of session 7, by a clock whose
    first two readings (the creation of the session and the timestamp of the
    reply) give 1700000000 s and whose later readings give eleven seconds
    more. *)
Definition after_hello : Server.UDPServer * World :=
  snd (Server.handle_packet ascii_text (datagram CMD_HELLO 0 7 1 1000 []) peer
                            (fresh_server, late_world 2)).

Definition greeted : Server.Session := Server.mkSession 7 peer 1 1700000000 true 3.

(** X22 for that server: the session it created itself is found idle by the
    next sweep. *)
Lemma idle_session_is_reclaimed_witness :
  exists srv' w' new msg clock timestamp,
    Server.sweep (fst after_hello, snd after_hello) = (Return tt, (srv', w')) /\
    events w' = events (snd after_hello) ++ new /\
    Dict.lookup 7 (Server.sessions srv') = None /\
    goodbyes_for 7 new = [SendTo msg (Server.addr greeted)] /\
    Server.parse_message msg
    = Some (CMD_GOODBYE, Server.expected_seq greeted, 7, clock, timestamp, []).
Proof.
  assert (Hsrv : Server.sessions (fst after_hello) = [(7, greeted)])
    by (vm_compute; reflexivity).
  assert (Hreads : reads (snd after_hello) = 2%nat) by (vm_compute; reflexivity).
  assert (Hnow : forall n, now_at (snd after_hello) n
                           = if (n <? 2)%nat then 1700000000%Q else 1700000011%Q)
    by (intros n; vm_compute; reflexivity).
  apply (idle_session_is_reclaimed (fst after_hello) (snd after_hello) 7 greeted).
  - rewrite Hsrv. split.
    + cbn. constructor; [intros [] | constructor].
    + intros k s. cbn. destruct (Z.eqb_spec k 7) as [->|_]; [|discriminate].
      intros H. injection H as <-. reflexivity.
  - rewrite Hsrv. intros k s. cbn. destruct (Z.eqb_spec k 7) as [->|_]; [|discriminate].
    intros H. injection H as <-.
    unfold goodbye_fits, fits. vm_compute.
    repeat split; solve [discriminate | reflexivity].
  - intros n. rewrite Hnow. unfold fits.
    destruct (n <? 2)%nat; vm_compute; (split; [discriminate | reflexivity]).
  - rewrite Hsrv. reflexivity.
  - reflexivity.
  - intros n Hn. rewrite Hreads in Hn. rewrite Hnow.
    destruct (Nat.ltb_spec n 2) as [Hlt|_]; [lia|]. vm_compute. reflexivity.
Defined.

End MoreExamples.
